(** * The payment-to-access pipeline of the learning-platform backend

    A shallow embedding of
      - models/Enrollment.js, models/Payment.js, models/Course.js,
      - middleware/courseAccess.js (checkCourseAccess, checkTopicAccess,
        checkEnrollmentStatus, checkEnrollmentEligibility),
      - middleware/auth.js (requireRegistrationFee),
      - routes/razorpay.js (create-registration-order, create-course-order,
        verify-payment),
      - the progress route of routes/courses.js and the course deletion of
        routes/admin.js,
    over an explicit model of the MongoDB collections, together with the
    ECMAScript [Date] arithmetic and string functions the handlers call. *)

From Stdlib Require Import ZArith NArith Lia Bool List Ascii String.
From stdpp Require Import base option list gmap strings.

Local Open Scope Z_scope.

(** ** JavaScript strings

    A string is the sequence of its UTF-16 code units, and the model keeps
    to the strings whose code units are all below 256: the handlers only
    search them for ASCII words and digits, and of the white space
    [parseInt] skips, the tab, the line terminators, the space and the
    no-break space are in that range. *)
Module Js.

(** The strings of ASCII characters. *)
Fixpoint isAscii (s : string) : bool :=
  match s with
  | EmptyString => true
  | String c s' => (Z.of_N (N_of_ascii c) <? 128) && isAscii s'
  end.

Definition truthy (s : string) : bool :=
  match s with EmptyString => false | _ => true end.

(** [a || b] on strings. *)
Definition orElse (a b : string) : string := if truthy a then a else b.

(** [String.prototype.includes]. *)
Fixpoint includes (s sub : string) : bool :=
  String.prefix sub s ||
  match s with
  | EmptyString => false
  | String _ s' => includes s' sub
  end.

Definition isDigit (c : ascii) : bool :=
  let n := Z.of_N (N_of_ascii c) in (48 <=? n) && (n <=? 57).

Definition digitVal (c : ascii) : Z := Z.of_N (N_of_ascii c) - 48.

Fixpoint takeDigits (s : string) : string :=
  match s with
  | EmptyString => EmptyString
  | String c s' => if isDigit c then String c (takeDigits s') else EmptyString
  end.

(** [s.match(/\d+/)]: the first maximal run of decimal digits, [None] for
    JavaScript's [null]. *)
Fixpoint matchDigits (s : string) : option string :=
  match s with
  | EmptyString => None
  | String c s' => if isDigit c then Some (takeDigits s) else matchDigits s'
  end.

(** [StrWhiteSpaceChar] below 256: TAB, LF, VT, FF, CR, SP and NBSP. *)
Definition isWhite (c : ascii) : bool :=
  let n := Z.of_N (N_of_ascii c) in
  ((9 <=? n) && (n <=? 13)) || (n =? 32) || (n =? 160).

Fixpoint trimStart (s : string) : string :=
  match s with
  | String c s' => if isWhite c then trimStart s' else s
  | EmptyString => EmptyString
  end.

(** Value of a character as a digit of the given radix (10 or 16). *)
Definition radixDigit (radix : Z) (c : ascii) : option Z :=
  let n := Z.of_N (N_of_ascii c) in
  if (48 <=? n) && (n <=? 57) then Some (n - 48)
  else if (radix =? 16) && (97 <=? n) && (n <=? 102) then Some (n - 87)
  else if (radix =? 16) && (65 <=? n) && (n <=? 70) then Some (n - 55)
  else None.

(** Longest prefix of digits, folded into its value; [None] when the prefix
    is empty. *)
Fixpoint parseDigits (radix : Z) (acc : option Z) (s : string) : option Z :=
  match s with
  | EmptyString => acc
  | String c s' =>
      match radixDigit radix c with
      | Some d => parseDigits radix (Some (radix * default 0 acc + d)) s'
      | None => acc
      end
  end.

(** [parseInt(s)] with no radix argument; [None] is [NaN]. The value is the
    exact one, which is JavaScript's while it is below 2^53 in size; a
    larger one JavaScript rounds to a double (an infinity from some 309
    digits on). What the handlers do with a count that large does not depend
    on its digits (no array is that long and no date that far), except for
    the amount of the registration fee. *)
Definition parseInt (s : string) : option Z :=
  let s1 := trimStart s in
  let '(sign, s2) :=
    match s1 with
    | String "-" r => (-1, r)
    | String "+" r => (1, r)
    | _ => (1, s1)
    end in
  let '(radix, s3) :=
    match s2 with
    | String "0" (String "x" r) => (16, r)
    | String "0" (String "X" r) => (16, r)
    | _ => (10, s2)
    end in
  match parseDigits radix None s3 with
  | Some n => Some (sign * n)
  | None => None
  end.

(** [arr[i]] for a numeric index: [undefined] off the array and for [NaN]. *)
Definition index {A} (l : list A) (i : option Z) : option A :=
  match i with
  | Some z => if z <? 0 then None else l !! Z.to_nat z
  | None => None
  end.

End Js.

(** ** ECMAScript time values (ECMA-262, "Time Values and Time Range")

    A time value is a number of milliseconds since the epoch; the functions
    below carry the names the standard gives them. *)
Module Date.

Definition msPerDay : Z := 86400000.

Definition Day (t : Z) : Z := t / msPerDay.
Definition TimeWithinDay (t : Z) : Z := t mod msPerDay.

Definition isLeap (y : Z) : bool :=
  ((y mod 4 =? 0) && negb (y mod 100 =? 0)) || (y mod 400 =? 0).

Definition DaysInYear (y : Z) : Z := if isLeap y then 366 else 365.

Definition DayFromYear (y : Z) : Z :=
  365 * (y - 1970) + (y - 1969) / 4 - (y - 1901) / 100 + (y - 1601) / 400.

Definition TimeFromYear (y : Z) : Z := msPerDay * DayFromYear y.

(** The largest [y] with [DayFromYear y <= d]: an estimate from the mean
    length of a year, corrected by at most one. *)
Definition YearFromDay (d : Z) : Z :=
  let y0 := 1970 + (400 * d) / 146097 in
  if d <? DayFromYear y0 then y0 - 1
  else if DayFromYear (y0 + 1) <=? d then y0 + 1
  else y0.

Definition YearFromTime (t : Z) : Z := YearFromDay (Day t).

Definition leapDay (y : Z) : Z := if isLeap y then 1 else 0.

Definition InLeapYear (t : Z) : Z := leapDay (YearFromTime t).

Definition DayWithinYear (t : Z) : Z := Day t - DayFromYear (YearFromTime t).

(** First day-within-year of month [m] (0 = January), with [l] the leap
    day; month 12 gives the length of the year. *)
Definition monthStart (l m : Z) : Z :=
  match m with
  | 0 => 0
  | 1 => 31
  | 2 => 59 + l
  | 3 => 90 + l
  | 4 => 120 + l
  | 5 => 151 + l
  | 6 => 181 + l
  | 7 => 212 + l
  | 8 => 243 + l
  | 9 => 273 + l
  | 10 => 304 + l
  | 11 => 334 + l
  | _ => 365 + l
  end.

Definition monthOfDay (l d : Z) : Z :=
  if d <? 31 then 0
  else if d <? 59 + l then 1
  else if d <? 90 + l then 2
  else if d <? 120 + l then 3
  else if d <? 151 + l then 4
  else if d <? 181 + l then 5
  else if d <? 212 + l then 6
  else if d <? 243 + l then 7
  else if d <? 273 + l then 8
  else if d <? 304 + l then 9
  else if d <? 334 + l then 10
  else 11.

Definition MonthFromTime (t : Z) : Z :=
  monthOfDay (InLeapYear t) (DayWithinYear t).

Definition DateFromTime (t : Z) : Z :=
  DayWithinYear t - monthStart (InLeapYear t) (MonthFromTime t) + 1.

Definition DaysInMonth (y m : Z) : Z :=
  monthStart (leapDay y) (m + 1) - monthStart (leapDay y) m.

(** [MakeDay(year, month, date)]: the day number of the first of the month
    [month mod 12] of year [year + floor(month / 12)], plus [date - 1]. *)
Definition MakeDay (year month date : Z) : Z :=
  let ym := year + month / 12 in
  let mn := month mod 12 in
  DayFromYear ym + monthStart (leapDay ym) mn + date - 1.

Definition MakeDate (day time : Z) : Z := day * msPerDay + time.

(** [TimeClip]: [None] is [NaN], the time value of an Invalid Date. *)
Definition TimeClip (t : Z) : option Z :=
  if Z.abs t <=? 8640000000000000 then Some t else None.

Section LocalTime.
(** [LocalTZA(t, isUTC)]: the offset of the server's time zone from UTC in
    milliseconds, at the moment [t] when [isUTC] is true and at the local
    time [t] otherwise. *)
Variable LocalTZA : Z -> bool -> Z.

Definition LocalTime (t : Z) : Z := t + LocalTZA t true.
Definition UTC (t : Z) : Z := t - LocalTZA t false.

(** The moment [t] comes from no local time that a change of the clocks
    skips: a local time that [UTC] takes to [t] is the one [t] reads as. *)
Definition unskipped (t : Z) : Prop := forall tl, UTC tl = t -> LocalTime t = tl.

Definition getFullYear (t : Z) : Z := YearFromTime (LocalTime t).
Definition getMonth (t : Z) : Z := MonthFromTime (LocalTime t).
Definition getDate (t : Z) : Z := DateFromTime (LocalTime t).

(** [d.setFullYear(y)], [d.setMonth(m)], [d.setDate(dt)] on a valid date
    with time value [t]: the new time value. *)
Definition setFullYear (t y : Z) : option Z :=
  let tl := LocalTime t in
  TimeClip (UTC (MakeDate (MakeDay y (MonthFromTime tl) (DateFromTime tl))
                          (TimeWithinDay tl))).

Definition setMonth (t m : Z) : option Z :=
  let tl := LocalTime t in
  TimeClip (UTC (MakeDate (MakeDay (YearFromTime tl) m (DateFromTime tl))
                          (TimeWithinDay tl))).

Definition setDate (t dt : Z) : option Z :=
  let tl := LocalTime t in
  TimeClip (UTC (MakeDate (MakeDay (YearFromTime tl) (MonthFromTime tl) dt)
                          (TimeWithinDay tl))).

(** The local year, month (0 = January) and day of the month. *)
Definition fields (t : Z) : Z * Z * Z := (getFullYear t, getMonth t, getDate t).


End LocalTime.

(** A zone that keeps one offset all year, and UTC. *)
Definition fixed (offset : Z) : Z -> bool -> Z := fun _ _ => offset.
Definition utc : Z -> bool -> Z := fixed 0.

End Date.

(** ** MongoDB documents *)

(** An ObjectId is its 96-bit value. *)
Definition ObjectId : Type := N.

(** JavaScript values that reach an ObjectId cast. *)
Inductive Value :=
| VString (s : string)
| VObjectId (o : ObjectId)
| VObject (fields : list (string * string)).

Fixpoint hexValue (acc : N) (s : string) : option N :=
  match s with
  | EmptyString => Some acc
  | String c s' =>
      match Js.radixDigit 16 c with
      | Some d => hexValue (16 * acc + Z.to_N d)%N s'
      | None => None
      end
  end.

(** [new ObjectId(s)]: a string of 24 hexadecimal characters (the drivers
    before bson 5 also took any string of 12 characters as the 12 bytes). *)
Definition oidOfString (s : string) : option ObjectId :=
  if Nat.eqb (String.length s) 24 then hexValue 0%N s else None.

Fixpoint field (k : string) (fs : list (string * string)) : option string :=
  match fs with
  | [] => None
  | (k', v) :: fs' => if String.eqb k k' then Some v else field k fs'
  end.

(** Mongoose's [castObjectId]: an ObjectId is kept, a value with an [_id] is
    replaced by it, anything else goes through [toString()]; a plain object
    prints as "[object Object]", which is no ObjectId. [None]: CastError. *)
Definition castObjectId (v : Value) : option ObjectId :=
  match v with
  | VObjectId o => Some o
  | VString s => oidOfString s
  | VObject fs =>
      match field "_id" fs with
      | Some s => oidOfString s
      | None => None
      end
  end.

(** models/User.js is not part of the sources; the fields are those the
    handlers read and write, with Mongoose's default ObjectId [_id]. *)
Module User.
Record t := mk {
  _id : ObjectId;
  author_id : string;
  role : string;
  isActive : bool;
  hasPaidRegistrationFee : bool;
  registrationFeePayment : option ObjectId
}.
End User.

(** models/Course.js *)
Module Course.
Inductive Status := Draft | Published | Archived.

Record Topic := mkTopic { topicTitle : string; isFree : bool }.
Record Section_ := mkSection { sectionTitle : string; topics : list Topic }.

Record t := mk {
  _id : ObjectId;
  c_id : string;
  title : string;
  price : Z;
  currency : string;
  status : Status;
  sections : list Section_;
  accessDuration : string;
  enrollmentCount : Z
}.

Definition status_eqb (a b : Status) : bool :=
  match a, b with
  | Draft, Draft | Published, Published | Archived, Archived => true
  | _, _ => false
  end.

(** The virtual [totalTopics]. *)
Definition totalTopics (c : t) : Z :=
  fold_left (fun total s => total + Z.of_nat (length (topics s))) (sections c) 0.

Definition incEnrollmentCount (c : t) : t :=
  mk (_id c) (c_id c) (title c) (price c) (currency c) (status c)
     (sections c) (accessDuration c) (enrollmentCount c + 1).
End Course.

(** models/Payment.js; the [_id] of a payment is its key in the collection. *)
Module Payment.
Inductive Status := Pending | Completed | Failed | Refunded | Cancelled.
Inductive Kind := Registration | Course.

Record Gateway := mkGateway {
  provider : string;
  orderId : option string;
  paymentId : option string;
  signature : option string;
  receipt : option string
}.

Record t := mk {
  user : string;
  course : option string;
  amount : Z;
  currency : string;
  status : Status;
  paymentType : Kind;
  paymentGateway : Gateway
}.

Definition status_eqb (a b : Status) : bool :=
  match a, b with
  | Pending, Pending | Completed, Completed | Failed, Failed
  | Refunded, Refunded | Cancelled, Cancelled => true
  | _, _ => false
  end.

(** The three assignments of verify-payment before [payment.save()]. *)
Definition complete (p : t) (rzpPaymentId : option string) (sig : string) : t :=
  mk (user p) (course p) (amount p) (currency p) Completed (paymentType p)
     (mkGateway (provider (paymentGateway p)) (orderId (paymentGateway p))
                rzpPaymentId (Some sig) (receipt (paymentGateway p))).
End Payment.

(** models/Enrollment.js *)
Module Enrollment.
Inductive Status := Active | Expired | Cancelled | Suspended.

Record CompletedTopic := mkCompleted {
  sectionIndex : Z; topicIndex : Z; completedAt : Z
}.

Record Progress := mkProgress {
  completedTopics : list CompletedTopic;
  lastAccessedTopic : option (Z * Z * Z);
  completionPercentage : Z
}.

Record t := mk {
  _id : ObjectId;
  user : string;
  course : string;
  enrolledAt : Z;
  expiresAt : Z;
  status : Status;
  payment : ObjectId;
  progress : Progress
}.

Definition status_eqb (a b : Status) : bool :=
  match a, b with
  | Active, Active | Expired, Expired | Cancelled, Cancelled
  | Suspended, Suspended => true
  | _, _ => false
  end.

(** The pair on which the schema declares its unique index. *)
Definition key (e : t) : string * string := (user e, course e).

Definition samePair (u c : string) (e : t) : bool :=
  String.eqb (user e) u && String.eqb (course e) c.

Definition withProgress (e : t) (p : Progress) : t :=
  mk (_id e) (user e) (course e) (enrolledAt e) (expiresAt e) (status e)
     (payment e) p.

(** [new Enrollment({user, course, payment, expiresAt})] with the schema
    defaults: [enrolledAt] is [Date.now], [status] is 'active'. *)
Definition fresh (id : ObjectId) (u c : string) (pay : ObjectId)
    (now exp : Z) : t :=
  mk id u c now exp Active pay (mkProgress [] None 0).

(** The method [isActive]. *)
Definition isActive (now : Z) (e : t) : bool :=
  status_eqb (status e) Active && (now <? expiresAt e).
End Enrollment.

(** ** The collections *)
Record Store := mkStore {
  users : list User.t;
  courses : list Course.t;
  payments : gmap ObjectId Payment.t;
  enrollments : list Enrollment.t
}.

Definition setPayments (st : Store) (ps : gmap ObjectId Payment.t) : Store :=
  mkStore (users st) (courses st) ps (enrollments st).
Definition setEnrollments (st : Store) (es : list Enrollment.t) : Store :=
  mkStore (users st) (courses st) (payments st) es.
Definition setCourses (st : Store) (cs : list Course.t) : Store :=
  mkStore (users st) cs (payments st) (enrollments st).
Definition setUsers (st : Store) (us : list User.t) : Store :=
  mkStore us (courses st) (payments st) (enrollments st).

(** ** Responses and the handler monad *)
Inductive JsAmount := AmountString (s : string) | AmountNumber (n : Z).

Inductive Data :=
| NoData
| Upsell (courseId courseTitle : string) (price : Z)
| ExpiredAt (t : Z)
| PaymentRequired (amount : JsAmount)
| Existing (e : Enrollment.t)
| VerifiedRegistration
| VerifiedCourse (courseId courseTitle : string) (expiresAt : option Z)
| Order (orderId : string) (paymentId : ObjectId).

Record Response := mkResponse {
  statusCode : Z;
  success : bool;
  message : string;
  data : Data
}.

Inductive Error := TypeError | CastError | ValidationError | DuplicateKey | GatewayError.

(** What a piece of handler code does: run to its end with a value, send a
    response and return, or throw into the enclosing [catch]. *)
Inductive Outcome (A : Type) :=
| Ok (a : A)
| Reply (r : Response)
| Throw (e : Error).
Arguments Ok {A} a.
Arguments Reply {A} r.
Arguments Throw {A} e.

Definition M (A : Type) : Type := Store -> Store * Outcome A.

Definition ret {A} (a : A) : M A := fun st => (st, Ok a).
Definition bind {A B} (m : M A) (k : A -> M B) : M B :=
  fun st =>
    match m st with
    | (st', Ok a) => k a st'
    | (st', Reply r) => (st', Reply r)
    | (st', Throw e) => (st', Throw e)
    end.
Definition reply {A} (r : Response) : M A := fun st => (st, Reply r).
Definition throw {A} (e : Error) : M A := fun st => (st, Throw e).
Definition gets {A} (f : Store -> A) : M A := fun st => (st, Ok (f st)).
Definition modify (f : Store -> Store) : M unit := fun st => (f st, Ok tt).

Notation "'let*' x := c 'in' k" := (bind c (fun x => k))
  (at level 10, x name, c at level 100, k at level 200).

Definition json (code : Z) (ok : bool) (msg : string) (d : Data) : Response :=
  mkResponse code ok msg d.

(** A route handler: [try { body } catch { res.status(500).json(...) }]. *)
Definition handler (body : M Response) (failure : string)
    (st : Store) : Store * Response :=
  match body st with
  | (st', Ok r) => (st', r)
  | (st', Reply r) => (st', r)
  | (st', Throw _) => (st', json 500 false failure NoData)
  end.

(** A middleware: [Ok ctx] is the call of [next()] with what it attached to
    the request. *)
Definition middleware {A} (body : M A) (failure : string)
    (st : Store) : Store * Outcome A :=
  match body st with
  | (st', Throw _) => (st', Reply (json 500 false failure NoData))
  | r => r
  end.

Definition lift {A} (o : Outcome A) : M A := fun st => (st, o).

(** ** Queries and writes on the collections *)
Module Db.

(** [Course.findOne({ c_id })]; an undefined [c_id] matches no course. *)
Definition Course_findOne (cid : option string) : M (option Course.t) :=
  gets (fun st =>
    match cid with
    | Some c => List.find (fun x => String.eqb (Course.c_id x) c) (courses st)
    | None => None
    end).

Fixpoint updateFirst {A} (P : A -> bool) (f : A -> A) (l : list A) : list A :=
  match l with
  | [] => []
  | x :: l' => if P x then f x :: l' else x :: updateFirst P f l'
  end.

(** [Course.findByIdAndUpdate(id, update)]: Mongoose runs
    [findOneAndUpdate({ _id: id }, update)], so [id] is cast to the type of
    [_id] and the document with that [_id], if any, is updated. *)
Definition Course_findByIdAndUpdate (id : Value) (f : Course.t -> Course.t)
    : M (option Course.t) :=
  match castObjectId id with
  | None => throw CastError
  | Some o =>
      let* found := gets (fun st =>
        List.find (fun x => N.eqb (Course._id x) o) (courses st)) in
      let* _ := modify (fun st => setCourses st
        (updateFirst (fun x => N.eqb (Course._id x) o) f (courses st))) in
      ret found
  end.

(** [User.findByIdAndUpdate(id, update)], likewise a filter on [_id]. *)
Definition User_findByIdAndUpdate (id : Value) (f : User.t -> User.t)
    : M (option User.t) :=
  match castObjectId id with
  | None => throw CastError
  | Some o =>
      let* found := gets (fun st =>
        List.find (fun x => N.eqb (User._id x) o) (users st)) in
      let* _ := modify (fun st => setUsers st
        (updateFirst (fun x => N.eqb (User._id x) o) f (users st))) in
      ret found
  end.

(** [Payment.findById(id)], with the ObjectId the string was cast to. *)
Definition Payment_findById (id : Value) : M (option (ObjectId * Payment.t)) :=
  match castObjectId id with
  | None => throw CastError
  | Some o => gets (fun st => (fun p => (o, p)) <$> payments st !! o)
  end.

Definition validCurrency (c : string) : bool :=
  String.eqb c "INR" || String.eqb c "USD" || String.eqb c "EUR".

Definition validProvider (c : string) : bool :=
  String.eqb c "razorpay" || String.eqb c "stripe" || String.eqb c "paypal".

(** The validators of the Payment schema, which [save()] runs on the whole
    document, new or loaded: [user] is required (for a string: not empty),
    [course] is required of a course payment, [amount] is at least 0, and
    [currency] and the provider are of their enums. [status] and
    [paymentType] are of their enums by their types; [paymentMethod] and
    [refund], which no handler here sets, are not part of the record. *)
Definition Payment_validate (p : Payment.t) : bool :=
  Js.truthy (Payment.user p) &&
  match Payment.paymentType p with
  | Payment.Course =>
      match Payment.course p with Some c => Js.truthy c | None => false end
  | Payment.Registration => true
  end &&
  (0 <=? Payment.amount p) &&
  validCurrency (Payment.currency p) &&
  validProvider (Payment.provider (Payment.paymentGateway p)).

(** [payment.save()] of a document loaded from the collection. *)
Definition Payment_save (o : ObjectId) (p : Payment.t) : M unit :=
  if Payment_validate p
  then modify (fun st => setPayments st (<[o := p]> (payments st)))
  else throw ValidationError.

(** [new Payment({...}).save()]: the schema validators, then the insert;
    [amount] is [None] for a [NaN], which is no Number. *)
Definition Payment_create (o : ObjectId) (amount : option Z) (p : Z -> Payment.t)
    : M unit :=
  match amount with
  | None => throw ValidationError
  | Some a =>
      if negb (Payment_validate (p a))
      then throw ValidationError
      else
        let* old := gets (fun st => payments st !! o) in
        match old with
        | Some _ => throw DuplicateKey
        | None => modify (fun st => setPayments st (<[o := p a]> (payments st)))
        end
  end.

(** [Enrollment.findOne(filter)]: the first document the filter accepts. *)
Definition Enrollment_findOne (filter : Enrollment.t -> bool)
    : M (option Enrollment.t) :=
  gets (fun st => List.find filter (enrollments st)).

(** The insert of a new enrollment: the unique index on [(user, course)]
    (and the one on [_id]) rejects a document whose key is taken. *)
Definition Enrollment_insert (e : Enrollment.t) : M unit :=
  fun st =>
    if existsb (fun x => Enrollment.samePair (Enrollment.user e) (Enrollment.course e) x
                         || N.eqb (Enrollment._id x) (Enrollment._id e))
               (enrollments st)
    then (st, Throw DuplicateKey)
    else (setEnrollments st (enrollments st ++ [e]), Ok tt).

(** The validators of the Enrollment schema, which [save()] runs on the
    whole document, new or loaded: [user] and [course] are required, and
    [completionPercentage] is between 0 and 100. [payment] and [expiresAt],
    required as well, are there in every record, and [status] is of its
    enum by its type. *)
Definition Enrollment_validate (e : Enrollment.t) : bool :=
  Js.truthy (Enrollment.user e) && Js.truthy (Enrollment.course e) &&
  (0 <=? Enrollment.completionPercentage (Enrollment.progress e)) &&
  (Enrollment.completionPercentage (Enrollment.progress e) <=? 100).

(** [new Enrollment({user, course, payment, expiresAt}).save()]: [course]
    and [expiresAt] are required, and an Invalid Date is no date. *)
Definition Enrollment_create (id : ObjectId) (u : string) (c : option string)
    (pay : ObjectId) (now : Z) (exp : option Z) : M unit :=
  match c, exp with
  | Some c, Some exp =>
      if Enrollment_validate (Enrollment.fresh id u c pay now exp)
      then Enrollment_insert (Enrollment.fresh id u c pay now exp)
      else throw ValidationError
  | _, _ => throw ValidationError
  end.

(** [enrollment.save()] of a loaded document: the validators, then an
    update by [_id]. *)
Definition Enrollment_save (e : Enrollment.t) : M unit :=
  if Enrollment_validate e
  then modify (fun st => setEnrollments st
    (updateFirst (fun x => N.eqb (Enrollment._id x) (Enrollment._id e))
                 (fun x => Enrollment.withProgress x (Enrollment.progress e))
                 (enrollments st)))
  else throw ValidationError.

(** [Enrollment.deleteMany({ course })], [Payment.deleteMany({ course })]. *)
Definition Enrollment_deleteMany (c : string) : M unit :=
  modify (fun st => setEnrollments st
    (List.filter (fun x => negb (String.eqb (Enrollment.course x) c)) (enrollments st))).

Definition Payment_deleteMany (c : string) : M unit :=
  modify (fun st => setPayments st
    (filter (fun kv => Payment.course (snd kv) <> Some c) (payments st))).

(** [Course.findOneAndDelete({ c_id })]. *)
Fixpoint removeFirst {A} (P : A -> bool) (l : list A) : list A :=
  match l with
  | [] => []
  | x :: l' => if P x then l' else x :: removeFirst P l'
  end.

Definition Course_findOneAndDelete (c : string) : M (option Course.t) :=
  let* found := Course_findOne (Some c) in
  let* _ := modify (fun st => setCourses st
    (removeFirst (fun x => String.eqb (Course.c_id x) c) (courses st))) in
  ret found.

End Db.

(** [req.user?.author_id] followed by [if (!userId)]. *)
Definition userIdOf (u : option User.t) : option string :=
  match u with
  | Some u => if Js.truthy (User.author_id u) then Some (User.author_id u) else None
  | None => None
  end.

(** [process.env]: a variable is a string or is not set. *)
Record Env := mkEnv {
  RAZORPAY_KEY_SECRET : option string;
  REGISTRATION_FEE_AMOUNT : option string;
  PAYMENT_CURRENCY : option string
}.

(** [process.env.X || fallback]. *)
Definition envOr {A} (v : option string) (inj : string -> A) (fallback : A) : A :=
  match v with
  | Some s => if Js.truthy s then inj s else fallback
  | None => fallback
  end.

(** [process.env.REGISTRATION_FEE_AMOUNT || 699]. *)
Definition feeAmount (env : Env) : JsAmount :=
  envOr (REGISTRATION_FEE_AMOUNT env) AmountString (AmountNumber 699).

(** ** middleware/courseAccess.js *)
Module CourseAccess.

Definition activeFor (userId courseId : string) (e : Enrollment.t) : bool :=
  Enrollment.samePair userId courseId e &&
  Enrollment.status_eqb (Enrollment.status e) Enrollment.Active.

Definition activeOrExpiredFor (userId courseId : string) (e : Enrollment.t) : bool :=
  Enrollment.samePair userId courseId e &&
  (Enrollment.status_eqb (Enrollment.status e) Enrollment.Active ||
   Enrollment.status_eqb (Enrollment.status e) Enrollment.Expired).

(** What [checkCourseAccess] attaches: [req.enrollment], [req.course]. *)
Definition checkCourseAccess (now : Z) (user : option User.t) (courseId : string)
    : Store -> Store * Outcome (Enrollment.t * Course.t) :=
  middleware (
    match userIdOf user with
    | None => reply (json 401 false
        "Authentication required to access course content." NoData)
    | Some userId =>
        let* course := Db.Course_findOne (Some courseId) in
        match course with
        | None => reply (json 404 false "Course not found." NoData)
        | Some course =>
            if negb (Course.status_eqb (Course.status course) Course.Published)
            then reply (json 403 false "Course is not available for access." NoData)
            else
              let* enrollment := Db.Enrollment_findOne (activeFor userId courseId) in
              match enrollment with
              | None => reply (json 403 false
                  "You are not enrolled in this course. Please enroll to access the content."
                  (Upsell courseId (Course.title course) (Course.price course)))
              | Some enrollment =>
                  if now >? Enrollment.expiresAt enrollment
                  then reply (json 403 false
                    "Your course access has expired. Please renew your enrollment."
                    (ExpiredAt (Enrollment.expiresAt enrollment)))
                  else ret (enrollment, course)
              end
        end
    end) "Error checking course access.".

(** What [checkTopicAccess] attaches: [req.topic], [req.section] and, for a
    paid topic, [req.enrollment]. *)
Definition checkTopicAccess (now : Z) (user : option User.t)
    (courseId sectionIndex topicIndex : string)
    : Store -> Store * Outcome (Course.Topic * Course.Section_ * option Enrollment.t) :=
  middleware (
    match userIdOf user with
    | None => reply (json 401 false "Authentication required." NoData)
    | Some userId =>
        let* course := Db.Course_findOne (Some courseId) in
        match course with
        | None => reply (json 404 false "Course not found." NoData)
        | Some course =>
            match Js.index (Course.sections course) (Js.parseInt sectionIndex) with
            | None => reply (json 404 false "Section not found." NoData)
            | Some section =>
                match Js.index (Course.topics section) (Js.parseInt topicIndex) with
                | None => reply (json 404 false "Topic not found." NoData)
                | Some topic =>
                    if Course.isFree topic then ret (topic, section, None)
                    else
                      let* enrollment := Db.Enrollment_findOne (activeFor userId courseId) in
                      match enrollment with
                      | None => reply (json 403 false
                          "You need to enroll in this course to access this content."
                          (Upsell courseId (Course.title course) (Course.price course)))
                      | Some enrollment =>
                          if now >? Enrollment.expiresAt enrollment
                          then reply (json 403 false
                            "Your course access has expired." NoData)
                          else ret (topic, section, Some enrollment)
                      end
                end
            end
        end
    end) "Error checking topic access.".

Definition checkEnrollmentStatus (user : option User.t) (courseId : string)
    : Store -> Store * Outcome (option Enrollment.t) :=
  middleware (
    match userIdOf user with
    | None => reply (json 401 false "Authentication required." NoData)
    | Some userId =>
        Db.Enrollment_findOne (Enrollment.samePair userId courseId)
    end) "Error checking enrollment status.".

Definition checkEnrollmentEligibility (env : Env) (user : option User.t)
    (courseId : string) : Store -> Store * Outcome Course.t :=
  middleware (
    match user, userIdOf user with
    | Some u, Some userId =>
        if negb (User.hasPaidRegistrationFee u) && String.eqb (User.role u) "student"
        then reply (json 402 false
          "Registration fee payment required to enroll in courses."
          (PaymentRequired (feeAmount env)))
        else
          let* existingEnrollment :=
            Db.Enrollment_findOne (activeOrExpiredFor userId courseId) in
          match existingEnrollment with
          | Some e => reply (json 400 false
              "You are already enrolled in this course." (Existing e))
          | None =>
              let* course := Db.Course_findOne (Some courseId) in
              match course with
              | None => reply (json 404 false "Course not found." NoData)
              | Some course =>
                  if negb (Course.status_eqb (Course.status course) Course.Published)
                  then reply (json 400 false
                    "Course is not available for enrollment." NoData)
                  else ret course
              end
          end
    | _, _ => reply (json 401 false "Authentication required." NoData)
    end) "Error checking enrollment eligibility.".

End CourseAccess.

(** ** middleware/auth.js *)
Module Auth.

Definition requireRegistrationFee (env : Env) (user : option User.t)
    : Store -> Store * Outcome unit :=
  middleware (
    match user with
    | None => reply (json 401 false "Authentication required." NoData)
    | Some u =>
        if String.eqb (User.role u) "admin" || String.eqb (User.role u) "beta"
        then ret tt
        else if negb (User.hasPaidRegistrationFee u)
        then reply (json 402 false
          "Registration fee payment required to access this feature."
          (PaymentRequired (feeAmount env)))
        else ret tt
    end) "Error checking registration status.".

(** [authorizeRole(...roles)], after [authenticateToken]. *)
Definition authorizeRole (roles : list string) (user : User.t)
    : Store -> Store * Outcome unit :=
  fun st =>
    if existsb (String.eqb (User.role user)) roles then (st, Ok tt)
    else (st, Reply (json 403 false "Insufficient permissions. Access denied." NoData)).

(** The lookup of [authenticateToken], after the token was decoded. *)
Definition findUser (userId : string) (st : Store) : option User.t :=
  List.find (fun u => String.eqb (User.author_id u) userId && User.isActive u)
            (users st).

End Auth.

(** Running a route: the middleware, then the handler on what it attached. *)
Definition chain {A} (mw : Store -> Store * Outcome A)
    (h : A -> Store -> Store * Response) (st : Store) : Store * Response :=
  match mw st with
  | (st', Ok a) => h a st'
  | (st', Reply r) => (st', r)
  | (st', Throw _) => (st', json 500 false "Internal Server Error" NoData)
  end.

(** [authenticateToken], from the user id the verified token carries
    ([None]: no token, or one that does not verify). *)
Definition authenticateToken (token : option string) : Store -> Store * Outcome User.t :=
  middleware (
    match token with
    | None => reply (json 401 false "Access token not found. Please login again." NoData)
    | Some userId =>
        let* user := gets (Auth.findUser userId) in
        match user with
        | None => reply (json 401 false "User not found or account deactivated." NoData)
        | Some u => ret u
        end
    end) "Authentication error. Please try again.".

(** ** routes/razorpay.js *)
Module Razorpay.

(** What [razorpay.orders.create] resolves to. *)
Record GatewayOrder := mkOrder { id : string; orderReceipt : string }.

Record VerifyBody := mkVerify {
  paymentId : option string;
  orderId : option string;
  signature : option string;
  razorpay_payment_id : option string
}.

Definition truthyField (f : option string) : option string :=
  match f with
  | Some s => if Js.truthy s then Some s else None
  | None => None
  end.

(** A value inside a template literal. *)
Definition interpolate (f : option string) : string :=
  match f with Some s => s | None => "undefined" end.

(** A callback that passes the guards of verify-payment up to the lookup:
    the three required fields are there, the payment id is the text of the
    ObjectId [pid], and the signature is the keyed hash of
    [orderId|razorpay_payment_id] under the configured secret. *)
Definition wellSigned (hmacSha256Hex : string -> string -> string) (env : Env)
    (body : VerifyBody) (pid : ObjectId) (sig : string) : Prop :=
  exists sp so key,
    paymentId body = Some sp /\ Js.truthy sp = true /\ oidOfString sp = Some pid /\
    orderId body = Some so /\ Js.truthy so = true /\
    signature body = Some sig /\ Js.truthy sig = true /\
    RAZORPAY_KEY_SECRET env = Some key /\
    hmacSha256Hex key (so +:+ "|" +:+ interpolate (razorpay_payment_id body)) = sig.

Section Handlers.
(** [crypto.createHmac('sha256', key).update(msg).digest('hex')]. *)
Variable hmacSha256Hex : string -> string -> string.
Variable LocalTZA : Z -> bool -> Z.
Variable env : Env.

(** POST /create-registration-order, after [authenticateToken]; [order] is
    the gateway's answer ([None]: the call rejects). *)
Definition createRegistrationOrder (newId : ObjectId)
    (order : option GatewayOrder) (user : User.t) : Store -> Store * Response :=
  handler (
    let userId := User.author_id user in
    if User.hasPaidRegistrationFee user
    then reply (json 400 false "Registration fee has already been paid." NoData)
    else
      let amount :=
        (fun n => n * 100) <$>
          envOr (REGISTRATION_FEE_AMOUNT env) Js.parseInt (Some 699) in
      let currency := envOr (PAYMENT_CURRENCY env) (fun s => s) "INR"%string in
      match order with
      | None => throw GatewayError
      | Some order =>
          let* _ := Db.Payment_create newId ((fun a => a / 100) <$> amount)
            (fun a => Payment.mk userId None a currency Payment.Pending
               Payment.Registration
               (Payment.mkGateway "razorpay" (Some (id order)) None None
                  (Some (orderReceipt order)))) in
          ret (json 200 true "" (Order (id order) newId))
      end)
    "Failed to create payment order. Please try again.".

(** POST /create-course-order, after [authenticateToken] and
    [requireRegistrationFee]. *)
Definition createCourseOrder (newId : ObjectId) (order : option GatewayOrder)
    (courseId : option string) (user : User.t) : Store -> Store * Response :=
  handler (
    let userId := User.author_id user in
    match truthyField courseId with
    | None => reply (json 400 false "Course ID is required." NoData)
    | Some courseId =>
        let* course := Db.Course_findOne (Some courseId) in
        match course with
        | None => reply (json 404 false "Course not found." NoData)
        | Some course =>
            if negb (Course.status_eqb (Course.status course) Course.Published)
            then reply (json 400 false "Course is not available for purchase." NoData)
            else
              let* existingEnrollment :=
                Db.Enrollment_findOne (CourseAccess.activeOrExpiredFor userId courseId) in
              match existingEnrollment with
              | Some _ => reply (json 400 false
                  "You are already enrolled in this course." NoData)
              | None =>
                  let currency := Js.orElse (Course.currency course) "INR" in
                  match order with
                  | None => throw GatewayError
                  | Some order =>
                      let* _ := Db.Payment_create newId (Some (Course.price course))
                        (fun a => Payment.mk userId (Some courseId) a currency
                           Payment.Pending Payment.Course
                           (Payment.mkGateway "razorpay" (Some (id order)) None None
                              (Some (orderReceipt order)))) in
                      ret (json 200 true "" (Order (id order) newId))
                  end
              end
        end
    end)
    "Failed to create payment order. Please try again.".

(** The computation of [expiresAt] in verify-payment, from the date the
    handler reads the clock at. [Ok None] is an Invalid Date; the throw is
    the [TypeError] of indexing the [null] of a failed [match]. *)
Definition expiry (accessDuration : string) (now : Z) : Outcome (option Z) :=
  if Js.includes accessDuration "year" then
    match Js.matchDigits accessDuration with
    | None => Throw TypeError
    | Some ds =>
        Ok (match Js.parseInt ds with
            | Some years =>
                Date.setFullYear LocalTZA now (Date.getFullYear LocalTZA now + years)
            | None => None
            end)
    end
  else if Js.includes accessDuration "month" then
    match Js.matchDigits accessDuration with
    | None => Throw TypeError
    | Some ds =>
        Ok (match Js.parseInt ds with
            | Some months =>
                Date.setMonth LocalTZA now (Date.getMonth LocalTZA now + months)
            | None => None
            end)
    end
  else if Js.includes accessDuration "day" then
    match Js.matchDigits accessDuration with
    | None => Throw TypeError
    | Some ds =>
        Ok (match Js.parseInt ds with
            | Some days =>
                Date.setDate LocalTZA now (Date.getDate LocalTZA now + days)
            | None => None
            end)
    end
  else Ok (Some now).

(** POST /verify-payment, after [authenticateToken]. [now] is the clock
    at [new Date()], [enrolledNow] the clock when the enrollment document
    is built, [newId] the ObjectId that document gets. *)
Definition verifyPayment (now enrolledNow : Z) (newId : ObjectId)
    (body : VerifyBody) : Store -> Store * Response :=
  handler (
    match truthyField (paymentId body), truthyField (orderId body),
          truthyField (signature body) with
    | Some paymentId, Some orderId, Some signature =>
        match RAZORPAY_KEY_SECRET env with
        | None => throw TypeError
        | Some secret =>
            let generatedSignature :=
              hmacSha256Hex secret
                (orderId +:+ "|" +:+ interpolate (razorpay_payment_id body)) in
            if negb (String.eqb generatedSignature signature)
            then reply (json 400 false "Invalid payment signature." NoData)
            else
              let* found := Db.Payment_findById (VString paymentId) in
              match found with
              | None => reply (json 404 false "Payment record not found." NoData)
              | Some (pid, payment) =>
                  if Payment.status_eqb (Payment.status payment) Payment.Completed
                  then reply (json 400 false
                    "Payment has already been processed." NoData)
                  else
                    let payment :=
                      Payment.complete payment (razorpay_payment_id body) signature in
                    let* _ := Db.Payment_save pid payment in
                    match Payment.paymentType payment with
                    | Payment.Registration =>
                        (* the first argument is the object literal
                           [{ author_id: payment.user }] *)
                        let* _ := Db.User_findByIdAndUpdate
                          (VObject [("author_id"%string, Payment.user payment)])
                          (fun u => User.mk (User._id u) (User.author_id u)
                             (User.role u) (User.isActive u) true (Some pid)) in
                        ret (json 200 true
                          "Registration fee payment successful! You can now enroll in courses."
                          VerifiedRegistration)
                    | Payment.Course =>
                        let* course := Db.Course_findOne (Payment.course payment) in
                        match course with
                        | None => reply (json 404 false "Course not found." NoData)
                        | Some course =>
                            let accessDuration :=
                              Js.orElse (Course.accessDuration course) "1 year" in
                            let* expiresAt := lift (expiry accessDuration now) in
                            let* _ := Db.Enrollment_create newId (Payment.user payment)
                              (Payment.course payment) pid enrolledNow expiresAt in
                            let* _ := Db.Course_findByIdAndUpdate
                              (VObjectId (Course._id course))
                              Course.incEnrollmentCount in
                            ret (json 200 true
                              "Course enrollment successful! You now have access to the course content."
                              (VerifiedCourse (Course.c_id course)
                                 (Course.title course) expiresAt))
                        end
                    end
              end
        end
    | _, _, _ =>
        reply (json 400 false "Missing required payment verification data." NoData)
    end)
    "Payment verification failed. Please contact support.".

End Handlers.
End Razorpay.

(** ** The progress route of routes/courses.js and the methods of
    models/Enrollment.js it calls *)
Module Courses.
Section Progress.
(** [Math.round((completed / total) * 100)], a floating-point quotient. *)
Variable roundPercent : Z -> Z -> Z.

Definition sameTopic (si ti : Z) (c : Enrollment.CompletedTopic) : bool :=
  (Enrollment.sectionIndex c =? si) && (Enrollment.topicIndex c =? ti).

(** [enrollment.updateProgress(sectionIndex, topicIndex)]. *)
Definition updateProgress (now : Z) (e : Enrollment.t) (si ti : Z)
    : M Enrollment.t :=
  let p := Enrollment.progress e in
  let done :=
    match List.find (sameTopic si ti) (Enrollment.completedTopics p) with
    | Some _ => Enrollment.completedTopics p
    | None => Enrollment.completedTopics p ++ [Enrollment.mkCompleted si ti now]
    end in
  let e' := Enrollment.withProgress e
    (Enrollment.mkProgress done (Some (si, ti, now))
       (Enrollment.completionPercentage p)) in
  let* _ := Db.Enrollment_save e' in
  ret e'.

(** [enrollment.calculateCompletionPercentage()]. *)
Definition calculateCompletionPercentage (e : Enrollment.t) : M Enrollment.t :=
  let* course := Db.Course_findOne (Some (Enrollment.course e)) in
  match course with
  | None => ret e
  | Some course =>
      let p := Enrollment.progress e in
      let totalTopics := Course.totalTopics course in
      let completedTopics := Z.of_nat (length (Enrollment.completedTopics p)) in
      let percentage :=
        if totalTopics >? 0 then roundPercent completedTopics totalTopics else 0 in
      let e' := Enrollment.withProgress e
        (Enrollment.mkProgress (Enrollment.completedTopics p)
           (Enrollment.lastAccessedTopic p) percentage) in
      let* _ := Db.Enrollment_save e' in
      ret e'
  end.

(** POST /:courseId/topic/:sectionIndex/:topicIndex/progress, after
    [authenticateToken] and [checkTopicAccess]. A [NaN] index is no
    Number for the schema. *)
Definition postProgress (now : Z) (sectionIndex topicIndex : string)
    (attached : Course.Topic * Course.Section_ * option Enrollment.t)
    : Store -> Store * Response :=
  handler (
    match snd attached with
    | None => reply (json 403 false "You are not enrolled in this course" NoData)
    | Some enrollment =>
        match Js.parseInt sectionIndex, Js.parseInt topicIndex with
        | Some si, Some ti =>
            let* e1 := updateProgress now enrollment si ti in
            let* e2 := calculateCompletionPercentage e1 in
            ret (json 200 true "Progress updated successfully" (Existing e2))
        | _, _ => throw CastError
        end
    end)
    "Failed to update progress".
End Progress.
End Courses.

(** ** The course deletion of routes/admin.js *)
Module Admin.
Definition deleteCourse (courseId : string) : Store -> Store * Response :=
  handler (
    let* course := Db.Course_findOneAndDelete courseId in
    match course with
    | None => reply (json 404 false "Course not found" NoData)
    | Some _ =>
        let* _ := Db.Enrollment_deleteMany courseId in
        let* _ := Db.Payment_deleteMany courseId in
        ret (json 200 true "Course deleted successfully" NoData)
    end)
    "Failed to delete course".
End Admin.

(** ** The requests of the pipeline, each with its chain of middlewares *)
Inductive Request :=
| CreateRegistrationOrder (token : option string) (newId : ObjectId)
    (order : option Razorpay.GatewayOrder)
| CreateCourseOrder (token : option string) (newId : ObjectId)
    (order : option Razorpay.GatewayOrder) (courseId : option string)
| VerifyPayment (token : option string) (now enrolledNow : Z) (newId : ObjectId)
    (body : Razorpay.VerifyBody)
| GetCourseContent (token : option string) (now : Z) (courseId : string)
| GetTopic (token : option string) (now : Z) (courseId sectionIndex topicIndex : string)
| PostProgress (token : option string) (now : Z)
    (courseId sectionIndex topicIndex : string)
| PostEnroll (token : option string) (courseId : string)
| DeleteCourse (token : option string) (courseId : string).

Section Server.
Variable hmacSha256Hex : string -> string -> string.
Variable roundPercent : Z -> Z -> Z.
Variable LocalTZA : Z -> bool -> Z.
Variable env : Env.

Definition serve (r : Request) : Store -> Store * Response :=
  match r with
  | CreateRegistrationOrder token newId order =>
      chain (authenticateToken token)
        (Razorpay.createRegistrationOrder env newId order)
  | CreateCourseOrder token newId order courseId =>
      chain (authenticateToken token) (fun user =>
        chain (Auth.requireRegistrationFee env (Some user)) (fun _ =>
          Razorpay.createCourseOrder newId order courseId user))
  | VerifyPayment token now enrolledNow newId body =>
      chain (authenticateToken token) (fun _ =>
        Razorpay.verifyPayment hmacSha256Hex LocalTZA env now enrolledNow newId body)
  | GetCourseContent token now courseId =>
      chain (authenticateToken token) (fun user =>
        chain (CourseAccess.checkCourseAccess now (Some user) courseId) (fun _ st =>
          (st, json 200 true "" NoData)))
  | GetTopic token now courseId sectionIndex topicIndex =>
      chain (authenticateToken token) (fun user =>
        chain (CourseAccess.checkTopicAccess now (Some user) courseId
                 sectionIndex topicIndex) (fun _ st =>
          (st, json 200 true "" NoData)))
  | PostProgress token now courseId sectionIndex topicIndex =>
      chain (authenticateToken token) (fun user =>
        chain (CourseAccess.checkTopicAccess now (Some user) courseId
                 sectionIndex topicIndex)
          (Courses.postProgress roundPercent now sectionIndex topicIndex))
  | PostEnroll token courseId =>
      chain (authenticateToken token) (fun user =>
        chain (CourseAccess.checkEnrollmentEligibility env (Some user) courseId)
          (fun _ st =>
             (st, json 200 true "Please complete payment to enroll in this course" NoData)))
  | DeleteCourse token courseId =>
      chain (authenticateToken token) (fun user =>
        chain (Auth.authorizeRole ["admin"%string] user) (fun _ =>
          Admin.deleteCourse courseId))
  end.

(** The store after a sequence of requests, served one after the other. *)
Fixpoint run (rs : list Request) (st : Store) : Store :=
  match rs with
  | [] => st
  | r :: rs' => run rs' (fst (serve r st))
  end.
End Server.

(** At most one enrollment per [(user, course)]. *)
Definition uniqueEnrollments (st : Store) : Prop :=
  NoDup (map Enrollment.key (enrollments st)).

Definition emptyStore : Store := mkStore [] [] ∅ [].

(** ** Notions the statements below are written with *)

(** [m] keeps the invariant [I] of the store, however it ends. *)
Definition preserves {A} (I : Store -> Prop) (m : M A) : Prop :=
  forall st, I st -> I (fst (m st)).

(** The store once verify-payment has written the payment back as
    completed. *)
Definition paid (st : Store) (pid : ObjectId) (p : Payment.t)
    (body : Razorpay.VerifyBody) (sig : string) : Store :=
  setPayments st
    (<[pid := Payment.complete p (Razorpay.razorpay_payment_id body) sig]> (payments st)).

(** The store once verify-payment has also inserted the enrollment [e] and
    counted it on the course. *)
Definition enrolled (st : Store) (pid : ObjectId) (p : Payment.t)
    (body : Razorpay.VerifyBody) (sig : string) (crs : Course.t)
    (e : Enrollment.t) : Store :=
  mkStore (users st)
    (Db.updateFirst (fun y => N.eqb (Course._id y) (Course._id crs))
       Course.incEnrollmentCount (courses st))
    (<[pid := Payment.complete p (Razorpay.razorpay_payment_id body) sig]> (payments st))
    (enrollments st ++ [e]).

(** ** A small platform to run the handlers on *)
Module Sample.

(** A stand-in for the keyed hash. *)
Definition hmac (key msg : string) : string := key +:+ "/" +:+ msg.

Definition env : Env := mkEnv (Some "secret"%string) None None.

Definition alice : User.t := User.mk 1%N "u-alice" "student" true false None.

Definition intro : Course.Section_ :=
  Course.mkSection "Introduction"
    [Course.mkTopic "Welcome" true; Course.mkTopic "Setup" false].

Definition course101 : Course.t :=
  Course.mk 10%N "c-101" "Course 101" 500 "INR" Course.Published [intro] "1 year" 0.

Definition courseLife : Course.t :=
  Course.mk 11%N "c-life" "Course for life" 900 "INR" Course.Published [intro]
    "lifetime" 0.

Definition pending (kind : Payment.Kind) (course : option string) (order : string)
    : Payment.t :=
  Payment.mk "u-alice" course 500 "INR" Payment.Pending kind
    (Payment.mkGateway "razorpay" (Some order) None None (Some "receipt"%string)).

Definition coursePayment : Payment.t :=
  pending Payment.Course (Some "c-101"%string) "order_1".
Definition registrationPayment : Payment.t :=
  pending Payment.Registration None "order_2".
Definition orphanPayment : Payment.t :=
  pending Payment.Course (Some "c-404"%string) "order_3".
Definition lifePayment : Payment.t :=
  pending Payment.Course (Some "c-life"%string) "order_4".

(** The callback of the gateway for payment [idText], order [order] and
    gateway payment [pay], signed with the secret of [env]. *)
Definition callback (idText order pay : string) : Razorpay.VerifyBody :=
  Razorpay.mkVerify (Some idText) (Some order)
    (Some (hmac "secret" (order +:+ "|" +:+ pay))) (Some pay).

Definition callback1 := callback "000000000000000000000001" "order_1" "pay_1".
Definition callback2 := callback "000000000000000000000002" "order_2" "pay_2".
Definition callback4 := callback "000000000000000000000004" "order_4" "pay_4".

Definition store : Store :=
  mkStore [alice] [course101; courseLife]
    (<[1%N := coursePayment]> (<[2%N := registrationPayment]>
       (<[3%N := orphanPayment]> (<[4%N := lifePayment]> ∅))))
    [].

(** An enrollment of alice in course 101 bought with an earlier payment,
    that ran from 2020-09-13 to 2021-09-13. *)
Definition oldEnrollment (s : Enrollment.Status) : Enrollment.t :=
  Enrollment.mk 50%N "u-alice" "c-101" 1600000000000 1631536000000 s 9%N
    (Enrollment.mkProgress [] None 0).

Definition storeWith (s : Enrollment.Status) : Store :=
  setEnrollments store [oldEnrollment s].

(** 2024-02-29T00:00:00Z, and a millisecond later. *)
Definition leapDayMidnight : Z := 1709164800000.
Definition justAfter : Z := 1709164800001.

(** A course stored with an empty access duration, alice's payment for it
    and the callback of the gateway. *)
Definition courseBlank : Course.t :=
  Course.mk 15%N "c-blank" "Course without a duration" 700 "INR" Course.Published
    [intro] "" 0.

Definition blankPayment : Payment.t :=
  pending Payment.Course (Some "c-blank"%string) "order_7".

Definition callback7 := callback "000000000000000000000007" "order_7" "pay_7".

Definition storeBlank : Store :=
  mkStore [alice] [courseBlank] (<[7%N := blankPayment]> ∅) [].

(** The offsets of America/New_York around the change of the clocks of
    2024-03-10: five hours behind UTC until 07:00 UTC, four from then on;
    the local times from 02:00 to 03:00 of that day are skipped. *)
Definition eastern (t : Z) (isUTC : bool) : Z :=
  if isUTC then (if t <? 1710054000000 then -18000000 else -14400000)
  else (if t <? 1710039600000 then -18000000 else -14400000).

End Sample.

(** [Math.round] of a percentage, on exact quotients. *)
Definition sampleRound (completed total : Z) : Z := (200 * completed + total) / (2 * total).

(** verify-payment on the sample platform, at the end of February 2024. *)
Definition sampleVerify (newId : ObjectId) (body : Razorpay.VerifyBody)
    : Store -> Store * Response :=
  Razorpay.verifyPayment Sample.hmac Date.utc Sample.env Sample.leapDayMidnight
    Sample.justAfter newId body.

(** Alice's callback for course 101 delivered twice, then the one for the
    course for life. *)
Definition samplePurchases : list Request :=
  [ VerifyPayment (Some "u-alice"%string) Sample.leapDayMidnight Sample.justAfter 77%N
      Sample.callback1;
    VerifyPayment (Some "u-alice"%string) Sample.leapDayMidnight Sample.justAfter 78%N
      Sample.callback1;
    VerifyPayment (Some "u-alice"%string) Sample.leapDayMidnight Sample.justAfter 79%N
      Sample.callback4 ].

(** ** The rest of the models and routes *)

(** The virtuals of models/Enrollment.js. [Math.ceil(ms / (1000 * 60 * 60 *
    24))] divides two doubles. For a whole number of milliseconds of size
    at most 2^53 (the range [inRange] names) the number is exact and the
    quotient is below 2^27, where no double that is not a whole number is
    within 1/86400000 of one: the ceiling of the double quotient is the
    ceiling of the exact one. *)
Module Virtuals.

Definition ceilDiv (a b : Z) : Z := - ((- a) / b).

Definition inRange (ms : Z) : Prop := Z.abs ms <= 2 ^ 53.

(** The virtual [enrollmentDurationDays]. *)
Definition enrollmentDurationDays (e : Enrollment.t) : Z :=
  ceilDiv (Z.abs (Enrollment.expiresAt e - Enrollment.enrolledAt e)) Date.msPerDay.

(** The virtual [daysRemaining], read at the clock [now]. *)
Definition daysRemaining (now : Z) (e : Enrollment.t) : Z :=
  if negb (Enrollment.status_eqb (Enrollment.status e) Enrollment.Active) then 0
  else Z.max 0 (ceilDiv (Enrollment.expiresAt e - now) Date.msPerDay).

End Virtuals.

(** GET /payment-status/:paymentId of routes/razorpay.js, after
    [authenticateToken] and with the gateway client set up: the payment
    found by
    [Payment.findOne({ _id: paymentId, user: userId })], or the response
    sent instead. *)
Definition getPaymentStatus (paymentId : string) (user : User.t) (st : Store)
    : Store * (Response + ObjectId * Payment.t) :=
  let body : M (ObjectId * Payment.t) :=
    let userId := User.author_id user in
    match castObjectId (VString paymentId) with
    | None => throw CastError
    | Some o =>
        let* payment := gets (fun st =>
          match payments st !! o with
          | Some p => if String.eqb (Payment.user p) userId then Some p else None
          | None => None
          end) in
        match payment with
        | None => reply (json 404 false "Payment not found." NoData)
        | Some p => ret (o, p)
        end
    end in
  match body st with
  | (st', Ok found) => (st', inr found)
  | (st', Reply r) => (st', inl r)
  | (st', Throw _) => (st', inl (json 500 false "Failed to get payment status." NoData))
  end.

(** The part of an enrollment that no progress report touches. *)
Definition terms (e : Enrollment.t)
    : ObjectId * string * string * Z * Z * Enrollment.Status * ObjectId :=
  (Enrollment._id e, Enrollment.user e, Enrollment.course e, Enrollment.enrolledAt e,
   Enrollment.expiresAt e, Enrollment.status e, Enrollment.payment e).

(** What a request can do to the store: nothing; store a new pending
    payment; complete a payment; complete a payment, insert its enrollment
    and count it on the course; rewrite the progress of enrollments; delete a
    course with its enrollments and payments. *)
Inductive effect : Request -> Store -> Store -> Prop :=
| effect_none r st : effect r st st
| effect_registration_order token newId order st p :
    payments st !! newId = None ->
    Payment.status p = Payment.Pending ->
    Payment.paymentType p = Payment.Registration ->
    effect (CreateRegistrationOrder token newId order) st
      (setPayments st (<[newId := p]> (payments st)))
| effect_course_order token newId order courseId st p :
    payments st !! newId = None ->
    Payment.status p = Payment.Pending ->
    Payment.paymentType p = Payment.Course ->
    effect (CreateCourseOrder token newId order courseId) st
      (setPayments st (<[newId := p]> (payments st)))
| effect_paid token now enrolledNow newId body st pid p sig :
    payments st !! pid = Some p ->
    Payment.status p <> Payment.Completed ->
    effect (VerifyPayment token now enrolledNow newId body) st (paid st pid p body sig)
| effect_enrolled token now enrolledNow newId body st pid p sig c crs exp :
    payments st !! pid = Some p ->
    Payment.status p <> Payment.Completed ->
    Payment.paymentType p = Payment.Course ->
    Payment.course p = Some c ->
    List.find (fun y => String.eqb (Course.c_id y) c) (courses st) = Some crs ->
    (forall x, In x (enrollments st) ->
       Enrollment.samePair (Payment.user p) c x = false /\ Enrollment._id x <> newId) ->
    effect (VerifyPayment token now enrolledNow newId body) st
      (enrolled st pid p body sig crs
         (Enrollment.fresh newId (Payment.user p) c pid enrolledNow exp))
| effect_progress token now courseId sectionIndex topicIndex st es :
    map terms es = map terms (enrollments st) ->
    effect (PostProgress token now courseId sectionIndex topicIndex) st
      (setEnrollments st es)
| effect_deleted token courseId st :
    effect (DeleteCourse token courseId) st
      (mkStore (users st)
         (Db.removeFirst (fun x => String.eqb (Course.c_id x) courseId) (courses st))
         (filter (fun kv => Payment.course (snd kv) <> Some courseId) (payments st))
         (List.filter (fun x => negb (String.eqb (Enrollment.course x) courseId))
            (enrollments st))).

(** The token of a request. *)
Definition tokenOf (r : Request) : option string :=
  match r with
  | CreateRegistrationOrder token _ _ | CreateCourseOrder token _ _ _
  | VerifyPayment token _ _ _ _ | GetCourseContent token _ _
  | GetTopic token _ _ _ _ | PostProgress token _ _ _ _
  | PostEnroll token _ | DeleteCourse token _ => token
  end.

(** The sum of the enrollment counters of the catalogue. *)
Fixpoint totalEnrollmentCount (cs : list Course.t) : Z :=
  match cs with
  | [] => 0
  | c :: cs' => Course.enrollmentCount c + totalEnrollmentCount cs'
  end.


(** The document create-course-order saves: the price and the currency are
    the course's at that moment. *)
Definition coursePaymentFor (user : User.t) (c : string) (crs : Course.t)
    (o : Razorpay.GatewayOrder) : Payment.t :=
  Payment.mk (User.author_id user) (Some c) (Course.price crs)
    (Js.orElse (Course.currency crs) "INR") Payment.Pending Payment.Course
    (Payment.mkGateway "razorpay" (Some (Razorpay.id o)) None None
       (Some (Razorpay.orderReceipt o))).

(** The document create-registration-order saves for the fee [amount]. *)
Definition registrationPaymentFor (env : Env) (user : User.t) (amount : Z)
    (o : Razorpay.GatewayOrder) : Payment.t :=
  Payment.mk (User.author_id user) None amount
    (envOr (PAYMENT_CURRENCY env) (fun s => s) "INR"%string) Payment.Pending
    Payment.Registration
    (Payment.mkGateway "razorpay" (Some (Razorpay.id o)) None None
       (Some (Razorpay.orderReceipt o))).

(** Strings of decimal digits. *)
Fixpoint allDigits (s : string) : bool :=
  match s with
  | EmptyString => true
  | String c s' => Js.isDigit c && allDigits s'
  end.


(** ** More of the sample platform *)
Module Sample2.

(** A student who has paid the registration fee. *)
Definition bob : User.t := User.mk 2%N "u-bob" "student" true true None.

Definition draft : Course.t :=
  Course.mk 12%N "c-draft" "Course in the making" 300 "INR" Course.Draft
    [Sample.intro] "1 year" 0.

Definition course30 : Course.t :=
  Course.mk 13%N "c-30" "Thirty days" 300 "INR" Course.Published [Sample.intro]
    "30 days" 0.

(** A duration that names a unit and no number. *)
Definition courseSome : Course.t :=
  Course.mk 14%N "c-some" "Some years" 300 "INR" Course.Published [Sample.intro]
    "a few years" 0.

Definition somePayment : Payment.t :=
  Sample.pending Payment.Course (Some "c-some"%string) "order_6".

Definition store : Store :=
  mkStore [Sample.alice; bob]
    [Sample.course101; Sample.courseLife; draft; course30; courseSome]
    (<[6%N := somePayment]> (payments Sample.store)) [].

Definition order5 : Razorpay.GatewayOrder := Razorpay.mkOrder "order_5" "receipt_5".

(** An environment that sets the registration fee, with text after the
    number. *)
Definition envFee : Env := mkEnv (Some "secret"%string) (Some " 499 rupees"%string) None.

Definition callback5 := Sample.callback "000000000000000000000005" "order_5" "pay_5".
Definition callback6 := Sample.callback "000000000000000000000006" "order_6" "pay_6".

(** An enrollment of bob in course 101 that was cancelled. *)
Definition cancelled : Enrollment.t :=
  Enrollment.mk 51%N "u-bob" "c-101" 1600000000000 1631536000000
    Enrollment.Cancelled 8%N (Enrollment.mkProgress [] None 0).

Definition storeCancelled : Store := setEnrollments store [cancelled].

(** A moment within alice's old enrollment, and the end of it. *)
Definition during : Z := 1600000000001.
Definition atExpiry : Z := 1631536000000.

End Sample2.

(** * Facts *)

(** ** The calendar *)
Module DateFacts.
Import Date.

Lemma isLeap_spec y :
  isLeap y = true <-> (y mod 4 = 0 /\ y mod 100 <> 0) \/ y mod 400 = 0.
Proof.
  unfold isLeap.
  destruct (Z.eqb_spec (y mod 4) 0), (Z.eqb_spec (y mod 100) 0),
    (Z.eqb_spec (y mod 400) 0); simpl; intuition congruence.
Qed.

Lemma DayFromYear_succ y : DayFromYear (y + 1) = DayFromYear y + DaysInYear y.
Proof.
  unfold DayFromYear, DaysInYear, isLeap.
  destruct (Z.eqb_spec (y mod 4) 0), (Z.eqb_spec (y mod 100) 0),
    (Z.eqb_spec (y mod 400) 0); simpl; Z.div_mod_to_equations; lia.
Qed.

Lemma DayFromYear_mono y1 y2 :
  y1 <= y2 -> DayFromYear y1 + 365 * (y2 - y1) <= DayFromYear y2.
Proof. unfold DayFromYear. intros. Z.div_mod_to_equations. lia. Qed.

Lemma YearFromDay_spec d :
  DayFromYear (YearFromDay d) <= d < DayFromYear (YearFromDay d + 1).
Proof.
  unfold YearFromDay.
  set (y0 := 1970 + 400 * d / 146097).
  assert (H0 : DayFromYear (y0 - 1) <= d < DayFromYear (y0 + 2)).
  { subst y0. unfold DayFromYear. Z.div_mod_to_equations. lia. }
  destruct (Z.ltb_spec d (DayFromYear y0)).
  - replace (y0 - 1 + 1) with y0 by lia. lia.
  - destruct (Z.leb_spec (DayFromYear (y0 + 1)) d).
    + replace (y0 + 1 + 1) with (y0 + 2) by lia. lia.
    + lia.
Qed.


(** [YearFromDay] is the function the standard describes: the largest year
    that starts on or before the day. *)
Lemma YearFromDay_largest d y : DayFromYear y <= d -> y <= YearFromDay d.
Proof.
  intros H. pose proof (YearFromDay_spec d) as S.
  destruct (Z.le_gt_cases y (YearFromDay d)) as [L | G]; [exact L |].
  pose proof (DayFromYear_mono (YearFromDay d + 1) y ltac:(lia)). lia.
Qed.

Ltac month_cases m :=
  let H := fresh in
  assert (H : m = 0 \/ m = 1 \/ m = 2 \/ m = 3 \/ m = 4 \/ m = 5 \/ m = 6 \/
              m = 7 \/ m = 8 \/ m = 9 \/ m = 10 \/ m = 11) by lia;
  repeat (destruct H as [H | H]); subst m.

Lemma monthOfDay_range l d : 0 <= monthOfDay l d <= 11.
Proof.
  unfold monthOfDay.
  repeat match goal with |- context [if ?b then _ else _] => destruct b end; lia.
Qed.

Lemma monthOfDay_bounds l d :
  0 <= l <= 1 -> 0 <= d < 365 + l ->
  monthStart l (monthOfDay l d) <= d < monthStart l (monthOfDay l d + 1).
Proof.
  intros Hl Hd. unfold monthOfDay.
  repeat match goal with
         | |- context [Z.ltb ?a ?b] => destruct (Z.ltb_spec a b)
         end; simpl; lia.
Qed.



Lemma InLeapYear_leapDay t : InLeapYear t = leapDay (YearFromTime t).
Proof. reflexivity. Qed.

Lemma DayWithinYear_range t :
  0 <= DayWithinYear t < 365 + InLeapYear t.
Proof.
  unfold DayWithinYear, InLeapYear, YearFromTime, leapDay.
  pose proof (YearFromDay_spec (Day t)) as S.
  rewrite DayFromYear_succ in S. unfold DaysInYear in S.
  destruct (isLeap (YearFromDay (Day t))); lia.
Qed.

(** The civil fields of any time value are a date of the calendar. *)
Lemma fields_valid t :
  0 <= MonthFromTime t <= 11 /\
  1 <= DateFromTime t <= DaysInMonth (YearFromTime t) (MonthFromTime t) /\
  Day t = DayFromYear (YearFromTime t)
          + monthStart (leapDay (YearFromTime t)) (MonthFromTime t)
          + DateFromTime t - 1.
Proof.
  pose proof (DayWithinYear_range t) as R.
  assert (Hl : 0 <= InLeapYear t <= 1)
    by (unfold InLeapYear, leapDay; destruct (isLeap _); lia).
  pose proof (monthOfDay_bounds _ _ Hl R) as B.
  pose proof (monthOfDay_range (InLeapYear t) (DayWithinYear t)) as Rm.
  unfold DateFromTime, DaysInMonth, MonthFromTime in *.
  rewrite <- !InLeapYear_leapDay.
  unfold DayWithinYear in *. repeat split; lia.
Qed.


Lemma Day_MakeDate day tw :
  0 <= tw < msPerDay ->
  Day (MakeDate day tw) = day /\ TimeWithinDay (MakeDate day tw) = tw.
Proof.
  unfold Day, TimeWithinDay, MakeDate, msPerDay. intros H.
  Z.div_mod_to_equations. lia.
Qed.

Lemma TimeWithinDay_range t : 0 <= TimeWithinDay t < msPerDay.
Proof. unfold TimeWithinDay, msPerDay. Z.div_mod_to_equations. lia. Qed.

Section Setters.
Variable LocalTZA : Z -> bool -> Z.

Lemma clipped_local day tw t' :
  0 <= tw < msPerDay ->
  TimeClip (UTC LocalTZA (MakeDate day tw)) = Some t' ->
  unskipped LocalTZA t' ->
  Day (LocalTime LocalTZA t') = day /\ TimeWithinDay (LocalTime LocalTZA t') = tw.
Proof.
  intros Htw H Hz. unfold TimeClip in H.
  destruct (_ <=? _); [| discriminate]. injection H as H.
  rewrite (Hz (MakeDate day tw) H). by apply Day_MakeDate.
Qed.


Lemma MakeDay_normal y m d :
  MakeDay y m d
  = DayFromYear (y + m / 12) + monthStart (leapDay (y + m / 12)) (m mod 12) + d - 1.
Proof. reflexivity. Qed.



Lemma TimeClip_Some x t' : TimeClip x = Some t' -> t' = x.
Proof. unfold TimeClip. destruct (_ <=? _); congruence. Qed.

(** [setDate] by a number of days: the local date that many days on, at the
    same local time of day. *)
Lemma setDate_lands t n t' :
  setDate LocalTZA t (getDate LocalTZA t + n) = Some t' ->
  unskipped LocalTZA t' ->
  Day (LocalTime LocalTZA t') = Day (LocalTime LocalTZA t) + n /\
  TimeWithinDay (LocalTime LocalTZA t') = TimeWithinDay (LocalTime LocalTZA t).
Proof.
  unfold setDate, getDate. intros H Hz.
  set (tl := LocalTime LocalTZA t) in *.
  destruct (fields_valid tl) as (Hm & Hd & HD).
  apply clipped_local in H as [HD' Htw]; [| apply TimeWithinDay_range | exact Hz].
  split; [| exact Htw].
  rewrite HD', MakeDay_normal.
  replace (MonthFromTime tl / 12) with 0 by (Z.div_mod_to_equations; lia).
  replace (MonthFromTime tl mod 12) with (MonthFromTime tl)
    by (Z.div_mod_to_equations; lia).
  rewrite Z.add_0_r. lia.
Qed.
End Setters.

(** A zone of one offset skips no local time, and there a day is 24 hours. *)
Section Fixed.
Variable offset : Z.

Lemma fixed_unskipped t : unskipped (fixed offset) t.
Proof. unfold unskipped, UTC, LocalTime, fixed. intros tl <-. lia. Qed.

Lemma setDate_adds t n t' :
  setDate (fixed offset) t (getDate (fixed offset) t + n) = Some t' ->
  t' = t + n * msPerDay.
Proof.
  intros H.
  destruct (setDate_lands (fixed offset) t n t' H (fixed_unskipped t')) as [HD Htw].
  pose proof (Z_div_mod_eq_full (LocalTime (fixed offset) t) msPerDay) as E.
  pose proof (Z_div_mod_eq_full (LocalTime (fixed offset) t') msPerDay) as E'.
  fold (Day (LocalTime (fixed offset) t)) in E.
  fold (TimeWithinDay (LocalTime (fixed offset) t)) in E.
  fold (Day (LocalTime (fixed offset) t')) in E'.
  fold (TimeWithinDay (LocalTime (fixed offset) t')) in E'.
  rewrite HD, Htw in E'. unfold LocalTime, fixed in *.
  generalize dependent msPerDay. intros. lia.
Qed.
End Fixed.
End DateFacts.

(** ** verify-payment, case by case *)

(** The guards of verify-payment, passed by a well-signed callback. *)
Ltac verify_start Hs Hp :=
  let sp := fresh "sp" in let so := fresh "so" in let key := fresh "key" in
  destruct Hs as (sp & so & key & Hpid & Tsp & Hoid & Hord & Tso & Hsg & Tsg & Hkey & Hmac);
  unfold Razorpay.verifyPayment, handler, Razorpay.truthyField;
  rewrite Hpid, Tsp, Hord, Tso, Hsg, Tsg, Hkey, Hmac, String.eqb_refl;
  cbn [negb]; unfold bind at 1, Db.Payment_findById;
  cbn [castObjectId]; rewrite Hoid; unfold gets; rewrite Hp; cbn [fmap option_fmap option_map].

Section VerifyFacts.
Variable hmac : string -> string -> string.
Variable tza : Z -> bool -> Z.
Variable env : Env.

Lemma verify_completed_eq now en newId body pid sig st p :
  Razorpay.wellSigned hmac env body pid sig ->
  payments st !! pid = Some p ->
  Payment.status p = Payment.Completed ->
  Razorpay.verifyPayment hmac tza env now en newId body st
  = (st, json 400 false "Payment has already been processed." NoData).
Proof.
  intros Hs Hp Hst. verify_start Hs Hp. rewrite Hst. reflexivity.
Qed.

Lemma status_neq_completed p :
  Payment.status p <> Payment.Completed ->
  Payment.status_eqb (Payment.status p) Payment.Completed = false.
Proof. destruct (Payment.status p); simpl; congruence. Qed.

(** The assignments of verify-payment touch no validated field. *)
Lemma validate_complete p rzp sig :
  Db.Payment_validate (Payment.complete p rzp sig) = Db.Payment_validate p.
Proof. reflexivity. Qed.

(** What the validators say of a course payment. *)
Lemma validate_course_payment p c :
  Db.Payment_validate p = true ->
  Payment.paymentType p = Payment.Course ->
  Payment.course p = Some c ->
  Js.truthy (Payment.user p) = true /\ Js.truthy c = true.
Proof.
  unfold Db.Payment_validate. intros H Hty Hc. rewrite Hty, Hc in H.
  repeat (apply andb_true_iff in H as [H ?]). by split.
Qed.

Lemma validate_course_payment_some p :
  Db.Payment_validate p = true ->
  Payment.paymentType p = Payment.Course ->
  exists c, Payment.course p = Some c.
Proof.
  unfold Db.Payment_validate. intros H Hty. rewrite Hty in H.
  destruct (Payment.course p) as [c |]; [by exists c |].
  rewrite andb_false_r in H. discriminate.
Qed.

Lemma validate_fresh id u c pay now exp :
  Js.truthy u = true -> Js.truthy c = true ->
  Db.Enrollment_validate (Enrollment.fresh id u c pay now exp) = true.
Proof. unfold Db.Enrollment_validate. cbn. by intros -> ->. Qed.

(** A stored document that its schema rejects cannot be saved: the call
    fails before it has written anything. *)
Lemma verify_invalid_eq now en newId body pid sig st p :
  Razorpay.wellSigned hmac env body pid sig ->
  payments st !! pid = Some p ->
  Payment.status p <> Payment.Completed ->
  Db.Payment_validate p = false ->
  Razorpay.verifyPayment hmac tza env now en newId body st
  = (st, json 500 false "Payment verification failed. Please contact support." NoData).
Proof.
  intros Hs Hp Hst Hv. verify_start Hs Hp.
  rewrite (status_neq_completed _ Hst).
  unfold bind, Db.Payment_save. rewrite validate_complete, Hv. reflexivity.
Qed.


Lemma verify_registration now en newId body pid sig st p :
  Razorpay.wellSigned hmac env body pid sig ->
  payments st !! pid = Some p ->
  Payment.status p <> Payment.Completed ->
  Db.Payment_validate p = true ->
  Payment.paymentType p = Payment.Registration ->
  Razorpay.verifyPayment hmac tza env now en newId body st
  = (paid st pid p body sig,
     json 500 false "Payment verification failed. Please contact support." NoData).
Proof.
  intros Hs Hp Hst Hv Hty. verify_start Hs Hp.
  rewrite (status_neq_completed _ Hst).
  unfold bind, Db.Payment_save. rewrite validate_complete, Hv.
  unfold modify. cbn. rewrite Hty. reflexivity.
Qed.

Lemma expiry_no_reply d now r : Razorpay.expiry tza d now <> Reply r.
Proof.
  unfold Razorpay.expiry.
  repeat match goal with
         | |- context [if ?b then _ else _] => destruct b
         | |- context [match Js.matchDigits ?s with _ => _ end] =>
             destruct (Js.matchDigits s)
         end; discriminate.
Qed.

Lemma existsb_samePair (es : list Enrollment.t) x u c newId :
  In x es -> Enrollment.user x = u -> Enrollment.course x = c ->
  existsb (fun y => Enrollment.samePair u c y || N.eqb (Enrollment._id y) newId) es
  = true.
Proof.
  intros Hin Hu Hc. apply existsb_exists. exists x. split; [exact Hin |].
  unfold Enrollment.samePair. rewrite Hu, Hc, !String.eqb_refl. reflexivity.
Qed.

Lemma verify_existing_enrollment_eq now en newId body pid sig st p c crs x :
  Razorpay.wellSigned hmac env body pid sig ->
  payments st !! pid = Some p ->
  Payment.status p <> Payment.Completed ->
  Db.Payment_validate p = true ->
  Payment.paymentType p = Payment.Course ->
  Payment.course p = Some c ->
  List.find (fun y => String.eqb (Course.c_id y) c) (courses st) = Some crs ->
  In x (enrollments st) ->
  Enrollment.user x = Payment.user p ->
  Enrollment.course x = c ->
  Razorpay.verifyPayment hmac tza env now en newId body st
  = (paid st pid p body sig,
     json 500 false "Payment verification failed. Please contact support." NoData).
Proof.
  intros Hs Hp Hst Hv Hty Hc Hcrs Hin Hu Hxc.
  destruct (validate_course_payment p c Hv Hty Hc) as [Tu Tc].
  verify_start Hs Hp.
  rewrite (status_neq_completed _ Hst).
  unfold bind, Db.Payment_save. rewrite validate_complete, Hv.
  unfold modify, Db.Course_findOne, gets. cbn.
  rewrite Hty, Hc. cbn. rewrite Hcrs. unfold lift.
  destruct (Razorpay.expiry tza _ now) as [[exp |] | r | e] eqn:Hex; cbn;
    try reflexivity.
  - rewrite (validate_fresh _ _ _ _ _ _ Tu Tc).
    unfold Db.Enrollment_insert. cbn.
    rewrite (existsb_samePair _ x _ _ newId Hin Hu Hxc). reflexivity.
  - by destruct (expiry_no_reply _ _ _ Hex).
Qed.

Lemma expiry_unbounded d now :
  Js.includes d "year" = false -> Js.includes d "month" = false ->
  Js.includes d "day" = false -> Razorpay.expiry tza d now = Ok (Some now).
Proof. unfold Razorpay.expiry. by intros -> -> ->. Qed.

Lemma includes_orElse d w :
  Js.truthy d = true -> Js.includes (Js.orElse d "1 year") w = Js.includes d w.
Proof. unfold Js.orElse. by intros ->. Qed.

Lemma existsb_none (es : list Enrollment.t) u c newId :
  (forall x, In x es ->
     Enrollment.samePair u c x = false /\ Enrollment._id x <> newId) ->
  existsb (fun y => Enrollment.samePair u c y || N.eqb (Enrollment._id y) newId) es
  = false.
Proof.
  intros H. apply not_true_is_false. intros E.
  apply existsb_exists in E as (x & Hin & Hx).
  destruct (H x Hin) as [Hp Hid]. rewrite Hp in Hx. simpl in Hx.
  apply N.eqb_eq in Hx. contradiction.
Qed.

Lemma verify_new_enrollment now en newId body pid sig st p c crs exp :
  Razorpay.wellSigned hmac env body pid sig ->
  payments st !! pid = Some p ->
  Payment.status p <> Payment.Completed ->
  Db.Payment_validate p = true ->
  Payment.paymentType p = Payment.Course ->
  Payment.course p = Some c ->
  List.find (fun y => String.eqb (Course.c_id y) c) (courses st) = Some crs ->
  Razorpay.expiry tza (Js.orElse (Course.accessDuration crs) "1 year") now
    = Ok (Some exp) ->
  (forall x, In x (enrollments st) ->
     Enrollment.samePair (Payment.user p) c x = false /\ Enrollment._id x <> newId) ->
  Razorpay.verifyPayment hmac tza env now en newId body st
  = (enrolled st pid p body sig crs
       (Enrollment.fresh newId (Payment.user p) c pid en exp),
     json 200 true
       "Course enrollment successful! You now have access to the course content."
       (VerifiedCourse (Course.c_id crs) (Course.title crs) (Some exp))).
Proof.
  intros Hs Hp Hst Hv Hty Hc Hcrs Hex Hnone.
  destruct (validate_course_payment p c Hv Hty Hc) as [Tu Tc].
  verify_start Hs Hp.
  rewrite (status_neq_completed _ Hst).
  unfold bind, Db.Payment_save. rewrite validate_complete, Hv.
  unfold modify, Db.Course_findOne, gets. cbn.
  rewrite Hty, Hc. cbn. rewrite Hcrs. unfold lift. rewrite Hex. cbn.
  rewrite (validate_fresh _ _ _ _ _ _ Tu Tc).
  unfold Db.Enrollment_insert. cbn.
  rewrite (existsb_none _ _ _ _ Hnone). reflexivity.
Qed.
End VerifyFacts.

(** ** Lists *)
Lemma find_none_app {A} (P : A -> bool) (l : list A) (y : A) :
  (forall x, In x l -> P x = false) ->
  List.find P (l ++ [y]) = if P y then Some y else None.
Proof.
  induction l as [| a l IH]; intros H; simpl; [reflexivity |].
  rewrite (H a (or_introl eq_refl)). apply IH. intros x Hx. apply H. by right.
Qed.

Lemma find_updateFirst {A} (P Q : A -> bool) (f : A -> A) (l : list A) (x : A) :
  (forall a, P (f a) = P a) ->
  List.find P l = Some x ->
  exists x', List.find P (Db.updateFirst Q f l) = Some x' /\ (x' = x \/ x' = f x).
Proof.
  intros HP. induction l as [| a l IH]; simpl; [discriminate |].
  destruct (Q a) eqn:Eq; simpl.
  - rewrite HP. destruct (P a); [intros [= <-]; eauto | intros H; eauto].
  - destruct (P a); [intros [= <-]; eauto | exact IH].
Qed.

(** ** The access middlewares *)
Lemma enrollment_status_eqb_eq a b : Enrollment.status_eqb a b = true <-> a = b.
Proof. destruct a, b; simpl; split; congruence. Qed.

Lemma activeFor_spec u c e :
  CourseAccess.activeFor u c e = true <->
  Enrollment.user e = u /\ Enrollment.course e = c /\
  Enrollment.status e = Enrollment.Active.
Proof.
  unfold CourseAccess.activeFor, Enrollment.samePair.
  rewrite !andb_true_iff, !String.eqb_eq, enrollment_status_eqb_eq. tauto.
Qed.

(** [checkCourseAccess] once the user, the published course and the active
    enrollment are found: the comparison of the clock with [expiresAt]
    decides, and nothing is written. *)
Lemma checkCourseAccess_matched now user userId courseId st course e :
  userIdOf user = Some userId ->
  List.find (fun x => String.eqb (Course.c_id x) courseId) (courses st) = Some course ->
  Course.status course = Course.Published ->
  List.find (CourseAccess.activeFor userId courseId) (enrollments st) = Some e ->
  CourseAccess.checkCourseAccess now user courseId st
  = (st, if now >? Enrollment.expiresAt e
         then Reply (json 403 false
                       "Your course access has expired. Please renew your enrollment."
                       (ExpiredAt (Enrollment.expiresAt e)))
         else Ok (e, course)).
Proof.
  intros Hu Hc Hpub He.
  unfold CourseAccess.checkCourseAccess, middleware. rewrite Hu.
  unfold bind, Db.Course_findOne, Db.Enrollment_findOne, gets. cbn.
  rewrite Hc, Hpub. cbn. rewrite He.
  by destruct (now >? Enrollment.expiresAt e).
Qed.

(** ** The callbacks of the sample platform *)
Lemma sample_callback_wellSigned idText order pay pid :
  oidOfString idText = Some pid ->
  Js.truthy idText = true ->
  Js.truthy order = true ->
  Razorpay.wellSigned Sample.hmac Sample.env (Sample.callback idText order pay) pid
    (Sample.hmac "secret" (order +:+ "|" +:+ pay)).
Proof.
  intros Hid Ht Ho. exists idText, order, "secret"%string. cbn.
  repeat split; assumption.
Qed.

(** ** Invariants of the store *)
Section Preservation.
Context {I : Store -> Prop}.

Lemma preserves_ret {A} (a : A) : preserves I (ret a).
Proof. intros st H. exact H. Qed.

Lemma preserves_reply {A} r : preserves I (@reply A r).
Proof. intros st H. exact H. Qed.

Lemma preserves_throw {A} e : preserves I (@throw A e).
Proof. intros st H. exact H. Qed.

Lemma preserves_gets {A} (f : Store -> A) : preserves I (gets f).
Proof. intros st H. exact H. Qed.

Lemma preserves_lift {A} (o : Outcome A) : preserves I (lift o).
Proof. intros st H. exact H. Qed.

Lemma preserves_modify (f : Store -> Store) :
  (forall st, I st -> I (f st)) -> preserves I (modify f).
Proof. intros Hf st H. exact (Hf st H). Qed.

Lemma preserves_bind {A B} (m : M A) (k : A -> M B) :
  preserves I m -> (forall a, preserves I (k a)) -> preserves I (bind m k).
Proof.
  intros Hm Hk st H. unfold bind. specialize (Hm st H).
  destruct (m st) as [st' [a | r | e]]; simpl in *; [by apply Hk | done | done].
Qed.

Lemma preserves_handler (body : M Response) msg st :
  preserves I body -> I st -> I (fst (handler body msg st)).
Proof.
  intros Hb H. unfold handler. specialize (Hb st H).
  by destruct (body st) as [st' [a | r | e]].
Qed.

Lemma preserves_middleware {A} (body : M A) msg st :
  preserves I body -> I st -> I (fst (middleware body msg st)).
Proof.
  intros Hb H. unfold middleware. specialize (Hb st H).
  by destruct (body st) as [st' [a | r | e]].
Qed.

Lemma preserves_chain {A} (mw : Store -> Store * Outcome A) h st :
  (forall s, I s -> I (fst (mw s))) ->
  (forall a s, I s -> I (fst (h a s))) ->
  I st -> I (fst (chain mw h st)).
Proof.
  intros Hm Hh H. unfold chain. specialize (Hm st H).
  destruct (mw st) as [st' [a | r | e]]; simpl in *; [by apply Hh | done | done].
Qed.
End Preservation.

(** Structural steps of a preservation proof. *)
Ltac preserve_step :=
  first
    [ apply preserves_ret | apply preserves_reply | apply preserves_throw
    | apply preserves_gets | apply preserves_lift
    | apply preserves_bind; [| intros ?]
    | progress cbv zeta
    | match goal with
      | |- preserves _ (match ?x with _ => _ end) => destruct x
      | |- preserves _ (if ?b then _ else _) => destruct b
      end ].

Section Unique.
Lemma samePair_key u c x :
  Enrollment.samePair u c x = true <-> Enrollment.key x = (u, c).
Proof.
  unfold Enrollment.samePair, Enrollment.key.
  rewrite andb_true_iff, !String.eqb_eq. split; [intros [-> ->] | intros [= -> ->]]; done.
Qed.

Lemma insert_unique e st :
  uniqueEnrollments st -> uniqueEnrollments (fst (Db.Enrollment_insert e st)).
Proof.
  unfold uniqueEnrollments, Db.Enrollment_insert. intros H.
  destruct (existsb _ (enrollments st)) eqn:E; [exact H |].
  cbn. rewrite map_app. cbn. apply NoDup_app. repeat split.
  - exact H.
  - intros k Hk Hin. apply list_elem_of_In in Hin as [<- | []].
    apply list_elem_of_In, in_map_iff in Hk as (x & Hx & Hin).
    assert (existsb (fun x0 => Enrollment.samePair (Enrollment.user e)
               (Enrollment.course e) x0
               || N.eqb (Enrollment._id x0) (Enrollment._id e)) (enrollments st) = true).
    { apply existsb_exists. exists x. split; [exact Hin |].
      apply orb_true_iff. left. by apply samePair_key. }
    congruence.
  - apply NoDup_singleton.
Qed.

Lemma updateFirst_keys P (f : Enrollment.t -> Enrollment.t) es :
  (forall x, Enrollment.key (f x) = Enrollment.key x) ->
  map Enrollment.key (Db.updateFirst P f es) = map Enrollment.key es.
Proof.
  intros Hf. induction es as [| a es IH]; simpl; [reflexivity |].
  destruct (P a); simpl; [by rewrite Hf | by rewrite IH].
Qed.

Lemma filter_keys_NoDup (P : Enrollment.t -> bool) es :
  NoDup (map Enrollment.key es) -> NoDup (map Enrollment.key (List.filter P es)).
Proof.
  induction es as [| a es IH]; simpl; [done |].
  intros H. apply NoDup_cons in H as [Hn H].
  destruct (P a); simpl; [| by apply IH].
  apply NoDup_cons. split; [| by apply IH].
  intros Hin. apply Hn.
  apply list_elem_of_In, in_map_iff in Hin as (x & Hx & Hin).
  apply list_elem_of_In, in_map_iff. exists x. split; [exact Hx |].
  by apply filter_In in Hin as [? _].
Qed.
End Unique.

Create HintDb pres.

Section UniquePrimitives.

Lemma modify_unique f :
  (forall st, enrollments (f st) = enrollments st) -> preserves uniqueEnrollments (modify f).
Proof.
  intros Hf. apply preserves_modify. unfold uniqueEnrollments. intros st H.
  by rewrite Hf.
Qed.

Lemma Course_findOne_unique c : preserves uniqueEnrollments (Db.Course_findOne c).
Proof. apply preserves_gets. Qed.

Lemma Enrollment_findOne_unique f : preserves uniqueEnrollments (Db.Enrollment_findOne f).
Proof. apply preserves_gets. Qed.

Lemma Payment_findById_unique v : preserves uniqueEnrollments (Db.Payment_findById v).
Proof. unfold Db.Payment_findById. repeat preserve_step. Qed.

Lemma Payment_save_unique o p : preserves uniqueEnrollments (Db.Payment_save o p).
Proof.
  unfold Db.Payment_save. repeat preserve_step. by apply modify_unique.
Qed.

Lemma Payment_create_unique o a p : preserves uniqueEnrollments (Db.Payment_create o a p).
Proof.
  unfold Db.Payment_create. repeat preserve_step. by apply modify_unique.
Qed.

Lemma Payment_deleteMany_unique c : preserves uniqueEnrollments (Db.Payment_deleteMany c).
Proof. by apply modify_unique. Qed.

Lemma User_findByIdAndUpdate_unique v f :
  preserves uniqueEnrollments (Db.User_findByIdAndUpdate v f).
Proof.
  unfold Db.User_findByIdAndUpdate. repeat preserve_step. by apply modify_unique.
Qed.

Lemma Course_findByIdAndUpdate_unique v f :
  preserves uniqueEnrollments (Db.Course_findByIdAndUpdate v f).
Proof.
  unfold Db.Course_findByIdAndUpdate. repeat preserve_step. by apply modify_unique.
Qed.

Lemma Course_findOneAndDelete_unique c : preserves uniqueEnrollments (Db.Course_findOneAndDelete c).
Proof.
  unfold Db.Course_findOneAndDelete.
  repeat first [ preserve_step | apply Course_findOne_unique | by apply modify_unique ].
Qed.

Lemma Enrollment_insert_unique e : preserves uniqueEnrollments (Db.Enrollment_insert e).
Proof. intros st. apply insert_unique. Qed.

Lemma Enrollment_create_unique id u c pay now exp :
  preserves uniqueEnrollments (Db.Enrollment_create id u c pay now exp).
Proof.
  unfold Db.Enrollment_create. repeat preserve_step. apply Enrollment_insert_unique.
Qed.

Lemma Enrollment_save_unique e : preserves uniqueEnrollments (Db.Enrollment_save e).
Proof.
  unfold Db.Enrollment_save. repeat preserve_step.
  apply preserves_modify. unfold uniqueEnrollments. intros st H. cbn.
  by rewrite updateFirst_keys.
Qed.

Lemma Enrollment_deleteMany_unique c : preserves uniqueEnrollments (Db.Enrollment_deleteMany c).
Proof.
  apply preserves_modify. unfold uniqueEnrollments. intros st H. cbn.
  by apply filter_keys_NoDup.
Qed.
End UniquePrimitives.

#[export] Hint Resolve Course_findOne_unique Enrollment_findOne_unique
  Payment_findById_unique Payment_save_unique Payment_create_unique
  Payment_deleteMany_unique User_findByIdAndUpdate_unique
  Course_findByIdAndUpdate_unique Course_findOneAndDelete_unique
  Enrollment_create_unique Enrollment_save_unique Enrollment_deleteMany_unique : pres.

Ltac preserve := repeat first [ solve [ auto with pres ] | preserve_step ].

Section UniqueHandlers.
Variable hmac : string -> string -> string.
Variable roundPercent : Z -> Z -> Z.
Variable tza : Z -> bool -> Z.
Variable env : Env.

Lemma verifyPayment_unique now en newId body st :
  uniqueEnrollments st -> uniqueEnrollments (fst (Razorpay.verifyPayment hmac tza env now en newId body st)).
Proof. apply preserves_handler. preserve. Qed.

Lemma createRegistrationOrder_unique newId order user st :
  uniqueEnrollments st -> uniqueEnrollments (fst (Razorpay.createRegistrationOrder env newId order user st)).
Proof. apply preserves_handler. preserve. Qed.

Lemma createCourseOrder_unique newId order courseId user st :
  uniqueEnrollments st -> uniqueEnrollments (fst (Razorpay.createCourseOrder newId order courseId user st)).
Proof. apply preserves_handler. preserve. Qed.

Lemma postProgress_unique now si ti attached st :
  uniqueEnrollments st -> uniqueEnrollments (fst (Courses.postProgress roundPercent now si ti attached st)).
Proof.
  apply preserves_handler.
  unfold Courses.updateProgress, Courses.calculateCompletionPercentage. preserve.
Qed.

Lemma deleteCourse_unique courseId st :
  uniqueEnrollments st -> uniqueEnrollments (fst (Admin.deleteCourse courseId st)).
Proof. apply preserves_handler. preserve. Qed.

Lemma authenticateToken_unique token st :
  uniqueEnrollments st -> uniqueEnrollments (fst (authenticateToken token st)).
Proof. apply preserves_middleware. preserve. Qed.

Lemma requireRegistrationFee_unique user st :
  uniqueEnrollments st -> uniqueEnrollments (fst (Auth.requireRegistrationFee env user st)).
Proof. apply preserves_middleware. preserve. Qed.

Lemma authorizeRole_unique roles user st :
  uniqueEnrollments st -> uniqueEnrollments (fst (Auth.authorizeRole roles user st)).
Proof. unfold Auth.authorizeRole. by destruct (existsb _ _). Qed.

Lemma checkCourseAccess_unique now user courseId st :
  uniqueEnrollments st -> uniqueEnrollments (fst (CourseAccess.checkCourseAccess now user courseId st)).
Proof. apply preserves_middleware. preserve. Qed.

Lemma checkTopicAccess_unique now user courseId si ti st :
  uniqueEnrollments st -> uniqueEnrollments (fst (CourseAccess.checkTopicAccess now user courseId si ti st)).
Proof. apply preserves_middleware. preserve. Qed.

Lemma checkEnrollmentEligibility_unique user courseId st :
  uniqueEnrollments st -> uniqueEnrollments (fst (CourseAccess.checkEnrollmentEligibility env user courseId st)).
Proof. apply preserves_middleware. preserve. Qed.

Lemma serve_unique r st :
  uniqueEnrollments st -> uniqueEnrollments (fst (serve hmac roundPercent tza env r st)).
Proof.
  intros H. destruct r; cbn [serve];
    repeat match goal with
           | |- uniqueEnrollments (fst (chain _ _ _)) =>
               apply preserves_chain; [intros ? ? | intros ? ? ? | assumption]
           end;
    first
      [ by apply authenticateToken_unique | by apply requireRegistrationFee_unique
      | by apply authorizeRole_unique | by apply checkCourseAccess_unique
      | by apply checkTopicAccess_unique | by apply checkEnrollmentEligibility_unique
      | by apply verifyPayment_unique | by apply createRegistrationOrder_unique
      | by apply createCourseOrder_unique | by apply postProgress_unique
      | by apply deleteCourse_unique | assumption ].
Qed.

Lemma run_unique rs st : uniqueEnrollments st -> uniqueEnrollments (run hmac roundPercent tza env rs st).
Proof.
  revert st. induction rs as [| r rs IH]; intros st H; cbn; [exact H |].
  apply IH. by apply serve_unique.
Qed.

Lemma insert_taken e x st :
  In x (enrollments st) -> Enrollment.key x = Enrollment.key e ->
  Db.Enrollment_insert e st = (st, Throw DuplicateKey).
Proof.
  intros Hin Hk. unfold Db.Enrollment_insert.
  replace (existsb _ (enrollments st)) with true; [reflexivity |].
  symmetry. apply existsb_exists. exists x. split; [exact Hin |].
  apply orb_true_iff. left. by apply samePair_key.
Qed.
End UniqueHandlers.

(** * The claims *)

(** C1: at most one Enrollment exists per (user, course) pair at any time:
    whatever requests the server has answered, from a store where the pairs
    are unique, they are unique afterwards; and the insert of an enrollment
    whose pair is already taken fails with a duplicate-key error and leaves
    the collection as it was. *)
Theorem enrollment_pair_unique (hmacSha256Hex : string -> string -> string)
    (roundPercent : Z -> Z -> Z) (LocalTZA : Z -> bool -> Z) (env : Env)
    (rs : list Request) (st : Store) :
  uniqueEnrollments st ->
  let st' := run hmacSha256Hex roundPercent LocalTZA env rs st in
  uniqueEnrollments st' /\
  forall e x,
    In x (enrollments st') -> Enrollment.key x = Enrollment.key e ->
    Db.Enrollment_insert e st' = (st', Throw DuplicateKey).
Proof.
  intros H st'. split; [by apply run_unique |].
  intros e x. apply insert_taken.
Qed.

Lemma enrollment_pair_unique_witness :
  let st' := run Sample.hmac sampleRound Date.utc Sample.env samplePurchases Sample.store in
  uniqueEnrollments st' /\
  forall e x,
    In x (enrollments st') -> Enrollment.key x = Enrollment.key e ->
    Db.Enrollment_insert e st' = (st', Throw DuplicateKey).
Proof.
  exact (enrollment_pair_unique Sample.hmac sampleRound Date.utc Sample.env samplePurchases
           Sample.store (@NoDup_nil_2 (string * string)%type)).
Defined.

(** C2 (as stated, refuted): the second delivery of the same valid callback
    is answered 400 with [success: false], not as a success. *)
Lemma repeated_verify_is_refused :
  success (snd (sampleVerify 77%N Sample.callback1 Sample.store)) = true /\
  snd (sampleVerify 78%N Sample.callback1
         (fst (sampleVerify 77%N Sample.callback1 Sample.store)))
  = json 400 false "Payment has already been processed." NoData.
Proof. split; vm_compute; reflexivity. Qed.

(** C2 (amended): for every Payment whose status is already completed,
    verify with valid inputs is refused with a 400 response whose [success]
    is false, and re-runs no side effect: the store is left exactly as it
    was (no status write, no counter increment, no Enrollment). *)
Theorem verify_completed_refused (hmacSha256Hex : string -> string -> string)
    (LocalTZA : Z -> bool -> Z) (env : Env) (now enrolledNow : Z) (newId : ObjectId)
    (body : Razorpay.VerifyBody) (pid : ObjectId) (sig : string) (st : Store)
    (p : Payment.t) :
  Razorpay.wellSigned hmacSha256Hex env body pid sig ->
  payments st !! pid = Some p ->
  Payment.status p = Payment.Completed ->
  let res := Razorpay.verifyPayment hmacSha256Hex LocalTZA env now enrolledNow newId body st in
  snd res = json 400 false "Payment has already been processed." NoData /\
  success (snd res) = false /\
  fst res = st.
Proof.
  intros Hs Hp Hst res. subst res.
  rewrite (verify_completed_eq _ _ _ _ _ _ _ _ _ _ _ Hs Hp Hst). by repeat split.
Qed.

Lemma verify_completed_refused_witness :
  let st := fst (sampleVerify 77%N Sample.callback1 Sample.store) in
  let res := sampleVerify 78%N Sample.callback1 st in
  snd res = json 400 false "Payment has already been processed." NoData /\
  success (snd res) = false /\
  fst res = st.
Proof.
  exact (verify_completed_refused Sample.hmac Date.utc Sample.env Sample.leapDayMidnight
           Sample.justAfter 78%N Sample.callback1 1%N _
           (fst (sampleVerify 77%N Sample.callback1 Sample.store))
           (Payment.complete Sample.coursePayment (Some "pay_1"%string)
              (Sample.hmac "secret" "order_1|pay_1"))
           (sample_callback_wellSigned "000000000000000000000001" "order_1" "pay_1"
              1%N eq_refl eq_refl eq_refl)
           ltac:(vm_compute; reflexivity) eq_refl).
Defined.




(** C4 (the code at the failing input): alice's registration payment is
    verified with a valid callback; the handler marks the payment completed,
    then [User.findByIdAndUpdate] is given the filter object
    [{ author_id }] where it takes an [_id], the cast fails, and the call
    answers 500. The user is unchanged: the flag is still false, no payment
    is linked, and [requireRegistrationFee] still answers 402. *)
Theorem registration_flag_not_set :
  snd (sampleVerify 77%N Sample.callback2 Sample.store)
  = json 500 false "Payment verification failed. Please contact support." NoData /\
  Payment.status <$> payments (fst (sampleVerify 77%N Sample.callback2 Sample.store)) !! 2%N
  = Some Payment.Completed /\
  Auth.findUser "u-alice" (fst (sampleVerify 77%N Sample.callback2 Sample.store))
  = Some Sample.alice /\
  User.hasPaidRegistrationFee Sample.alice = false /\
  User.registrationFeePayment Sample.alice = None /\
  snd (Auth.requireRegistrationFee Sample.env
         (Auth.findUser "u-alice" (fst (sampleVerify 77%N Sample.callback2 Sample.store)))
         (fst (sampleVerify 77%N Sample.callback2 Sample.store)))
  = Reply (json 402 false "Registration fee payment required to access this feature."
             (PaymentRequired (AmountNumber 699))).
Proof. repeat split; vm_compute; reflexivity. Qed.




(** C6 (as stated, refuted): an unauthenticated caller is answered 401 on a
    free topic. *)
Lemma free_topic_unauthenticated_denied :
  Js.index (Course.topics Sample.intro) (Js.parseInt "0")
  = Some (Course.mkTopic "Welcome" true) /\
  CourseAccess.checkTopicAccess Sample.leapDayMidnight None "c-101" "0" "0" Sample.store
  = (Sample.store, Reply (json 401 false "Authentication required." NoData)).
Proof. split; vm_compute; reflexivity. Qed.

(** C6 (amended): for every topic whose isFree flag is true, topicAccess
    admits every authenticated caller regardless of Enrollment state (no
    enrollment is looked up and none is attached to the request), and
    answers an unauthenticated caller 401; the store is not written. *)
Theorem topicAccess_free_topic (now : Z) (user : option User.t)
    (courseId sectionIndex topicIndex : string) (st : Store)
    (course : Course.t) (section : Course.Section_) (topic : Course.Topic) :
  List.find (fun x => String.eqb (Course.c_id x) courseId) (courses st) = Some course ->
  Js.index (Course.sections course) (Js.parseInt sectionIndex) = Some section ->
  Js.index (Course.topics section) (Js.parseInt topicIndex) = Some topic ->
  Course.isFree topic = true ->
  CourseAccess.checkTopicAccess now user courseId sectionIndex topicIndex st
  = (st, match userIdOf user with
         | Some _ => Ok (topic, section, None)
         | None => Reply (json 401 false "Authentication required." NoData)
         end).
Proof.
  intros Hc Hs Ht Hfree.
  unfold CourseAccess.checkTopicAccess, middleware.
  destruct (userIdOf user) as [userId |]; [| reflexivity].
  unfold bind, Db.Course_findOne, gets. cbn. rewrite Hc, Hs, Ht, Hfree. reflexivity.
Qed.

Lemma topicAccess_free_topic_witness :
  CourseAccess.checkTopicAccess Sample.leapDayMidnight (Some Sample.alice)
    "c-101" "0" "0" Sample.store
  = (Sample.store, Ok (Course.mkTopic "Welcome" true, Sample.intro, None)).
Proof.
  exact (topicAccess_free_topic Sample.leapDayMidnight (Some Sample.alice)
           "c-101" "0" "0" Sample.store Sample.course101 Sample.intro
           (Course.mkTopic "Welcome" true) eq_refl eq_refl eq_refl eq_refl).
Defined.

(** C7: for an authenticated user whose Enrollment is matched as active for
    a published course, courseAccess denies with Expired (403, carrying
    expiresAt) whenever now is past expiresAt, although the stored status is
    still active and nothing is written back; otherwise it admits and
    attaches the Enrollment (and the course) to the request. *)
Theorem courseAccess_expiry_at_read_time (now : Z) (user : option User.t)
    (userId courseId : string) (st : Store) (course : Course.t) (e : Enrollment.t) :
  userIdOf user = Some userId ->
  List.find (fun x => String.eqb (Course.c_id x) courseId) (courses st) = Some course ->
  Course.status course = Course.Published ->
  List.find (CourseAccess.activeFor userId courseId) (enrollments st) = Some e ->
  Enrollment.status e = Enrollment.Active /\
  (Enrollment.expiresAt e < now ->
     CourseAccess.checkCourseAccess now user courseId st
     = (st, Reply (json 403 false
                     "Your course access has expired. Please renew your enrollment."
                     (ExpiredAt (Enrollment.expiresAt e))))) /\
  (now <= Enrollment.expiresAt e ->
     CourseAccess.checkCourseAccess now user courseId st = (st, Ok (e, course))).
Proof.
  intros Hu Hc Hpub He.
  split.
  { apply find_some in He as [_ He]. by apply activeFor_spec in He as (_ & _ & ?). }
  rewrite (checkCourseAccess_matched now user userId courseId st course e Hu Hc Hpub He).
  split; intros Hnow.
  - destruct (Z.gtb_spec now (Enrollment.expiresAt e)); [reflexivity | lia].
  - destruct (Z.gtb_spec now (Enrollment.expiresAt e)); [lia | reflexivity].
Qed.

Lemma courseAccess_expiry_at_read_time_witness :
  let st := Sample.storeWith Enrollment.Active in
  let e := Sample.oldEnrollment Enrollment.Active in
  Enrollment.status e = Enrollment.Active /\
  (Enrollment.expiresAt e < Sample.leapDayMidnight ->
     CourseAccess.checkCourseAccess Sample.leapDayMidnight (Some Sample.alice) "c-101" st
     = (st, Reply (json 403 false
                     "Your course access has expired. Please renew your enrollment."
                     (ExpiredAt (Enrollment.expiresAt e))))) /\
  (Sample.leapDayMidnight <= Enrollment.expiresAt e ->
     CourseAccess.checkCourseAccess Sample.leapDayMidnight (Some Sample.alice) "c-101" st
     = (st, Ok (e, Sample.course101))).
Proof.
  exact (courseAccess_expiry_at_read_time Sample.leapDayMidnight (Some Sample.alice)
           "u-alice" "c-101" (Sample.storeWith Enrollment.Active) Sample.course101
           (Sample.oldEnrollment Enrollment.Active) eq_refl eq_refl eq_refl eq_refl).
Defined.




(** C9: for every authenticated user, enrollmentEligibility answers 402
    (registration fee required) carrying the configured fee amount exactly
    when the role is 'student' and the registration-fee flag is false; in
    every other case, so for the complimentary roles with the flag false,
    no 402 is sent. The amount is the configured one and 699 when none is
    configured. *)
Theorem enrollmentEligibility_registration_fee (env : Env) (u : User.t)
    (userId courseId : string) (st : Store) :
  userIdOf (Some u) = Some userId ->
  (User.role u = "student"%string /\ User.hasPaidRegistrationFee u = false ->
     CourseAccess.checkEnrollmentEligibility env (Some u) courseId st
     = (st, Reply (json 402 false
                     "Registration fee payment required to enroll in courses."
                     (PaymentRequired (feeAmount env))))) /\
  (~ (User.role u = "student"%string /\ User.hasPaidRegistrationFee u = false) ->
     forall r,
       snd (CourseAccess.checkEnrollmentEligibility env (Some u) courseId st) = Reply r ->
       statusCode r <> 402) /\
  (REGISTRATION_FEE_AMOUNT env = None -> feeAmount env = AmountNumber 699) /\
  (forall s, REGISTRATION_FEE_AMOUNT env = Some s -> s <> ""%string ->
     feeAmount env = AmountString s).
Proof.
  intros Hu. unfold CourseAccess.checkEnrollmentEligibility, middleware. rewrite Hu.
  repeat split.
  - intros [Hr Hf]. rewrite Hr, Hf. reflexivity.
  - intros Hn r.
    destruct (negb (User.hasPaidRegistrationFee u) && String.eqb (User.role u) "student")
      eqn:E.
    { apply andb_true_iff in E as [Hf Hr]. apply String.eqb_eq in Hr.
      apply negb_true_iff in Hf. tauto. }
    unfold bind, Db.Enrollment_findOne, Db.Course_findOne, gets. cbn.
    unfold reply, ret.
    destruct (find _ (enrollments st)); cbn;
      [intros H; inversion H; cbn; discriminate |].
    destruct (find _ (courses st)) as [c |]; cbn;
      [| intros H; inversion H; cbn; discriminate].
    destruct (negb (Course.status_eqb _ _)); cbn;
      [intros H; inversion H; cbn; discriminate | discriminate].
  - intros Hnone. unfold feeAmount. by rewrite Hnone.
  - intros s Hs Hne. unfold feeAmount. rewrite Hs. cbn.
    destruct s; [congruence | reflexivity].
Qed.

Lemma enrollmentEligibility_registration_fee_witness :
  CourseAccess.checkEnrollmentEligibility Sample.env (Some Sample.alice) "c-101"
    Sample.store
  = (Sample.store, Reply (json 402 false
                            "Registration fee payment required to enroll in courses."
                            (PaymentRequired (AmountNumber 699)))).
Proof.
  exact (proj1 (enrollmentEligibility_registration_fee Sample.env Sample.alice
                  "u-alice" "c-101" Sample.store eq_refl)
               (conj eq_refl eq_refl)).
Defined.

(** C10 (as stated, refuted): the empty access-duration string contains
    none of 'year', 'month', 'day', and the handler replaces it by '1 year':
    the Enrollment runs a year from the verification, and courseAccess
    admits its user after it. (The Course schema refuses an empty
    accessDuration on save; the fallback of the handler serves a document
    that was stored without it.) *)
Lemma empty_duration_runs_one_year :
  Course.accessDuration Sample.courseBlank = ""%string /\
  (Js.includes "" "year" = false /\ Js.includes "" "month" = false /\
   Js.includes "" "day" = false) /\
  statusCode (snd (sampleVerify 77%N Sample.callback7 Sample.storeBlank)) = 200 /\
  map Enrollment.expiresAt
    (enrollments (fst (sampleVerify 77%N Sample.callback7 Sample.storeBlank)))
  = [1740787200000] /\
  1740787200000 <> Sample.leapDayMidnight /\
  snd (CourseAccess.checkCourseAccess Sample.justAfter (Some Sample.alice) "c-blank"
         (fst (sampleVerify 77%N Sample.callback7 Sample.storeBlank)))
  = Ok (Enrollment.fresh 77%N "u-alice" "c-blank" 7%N Sample.justAfter 1740787200000,
        Course.incEnrollmentCount Sample.courseBlank).
Proof. repeat split; try (vm_compute; reflexivity). discriminate. Qed.

(** C10 (amended): a course whose access-duration string is not empty and
    contains none of 'year', 'month', 'day': verifying a course Payment for
    it (a Payment whose stored document passes the validators of its schema,
    of a user with no Enrollment of the course yet) succeeds and creates the
    Enrollment, with expiresAt equal to the moment of verification; every
    courseAccess check at a later moment, for that user and the published
    course, denies it as expired. An empty access-duration string is
    replaced by '1 year'. *)
Theorem unbounded_duration_expires_at_once (hmacSha256Hex : string -> string -> string)
    (LocalTZA : Z -> bool -> Z) (env : Env) (now enrolledNow : Z) (newId : ObjectId)
    (body : Razorpay.VerifyBody) (pid : ObjectId) (sig : string) (st : Store)
    (p : Payment.t) (c : string) (crs : Course.t) :
  Razorpay.wellSigned hmacSha256Hex env body pid sig ->
  payments st !! pid = Some p ->
  Payment.status p <> Payment.Completed ->
  Db.Payment_validate p = true ->
  Payment.paymentType p = Payment.Course ->
  Payment.course p = Some c ->
  List.find (fun y => String.eqb (Course.c_id y) c) (courses st) = Some crs ->
  Course.accessDuration crs <> ""%string ->
  Js.includes (Course.accessDuration crs) "year" = false ->
  Js.includes (Course.accessDuration crs) "month" = false ->
  Js.includes (Course.accessDuration crs) "day" = false ->
  (forall x, In x (enrollments st) ->
     Enrollment.samePair (Payment.user p) c x = false /\ Enrollment._id x <> newId) ->
  let res := Razorpay.verifyPayment hmacSha256Hex LocalTZA env now enrolledNow newId body st in
  let e := Enrollment.fresh newId (Payment.user p) c pid enrolledNow now in
  (statusCode (snd res) = 200 /\ success (snd res) = true) /\
  enrollments (fst res) = enrollments st ++ [e] /\
  Enrollment.expiresAt e = now /\
  forall now' u,
    userIdOf u = Some (Payment.user p) ->
    Course.status crs = Course.Published ->
    now < now' ->
    CourseAccess.checkCourseAccess now' u c (fst res)
    = (fst res, Reply (json 403 false
                         "Your course access has expired. Please renew your enrollment."
                         (ExpiredAt now))).
Proof.
  intros Hs Hp Hst Hv Hty Hc Hcrs Hne Hy Hm Hd Hnone res e.
  assert (Ht : Js.truthy (Course.accessDuration crs) = true)
    by (destruct (Course.accessDuration crs); [congruence | reflexivity]).
  assert (Hex : Razorpay.expiry LocalTZA (Js.orElse (Course.accessDuration crs) "1 year") now
                = Ok (Some now)).
  { apply expiry_unbounded; rewrite includes_orElse; assumption. }
  assert (Hres : res = (enrolled st pid p body sig crs e,
     json 200 true
       "Course enrollment successful! You now have access to the course content."
       (VerifiedCourse (Course.c_id crs) (Course.title crs) (Some now)))).
  { subst res e. by eapply verify_new_enrollment. }
  rewrite Hres. cbn [fst snd].
  split; [split; reflexivity |]. split; [reflexivity |]. split; [reflexivity |].
  intros now' u Hu Hpub Hlt.
  destruct (find_updateFirst (fun y => String.eqb (Course.c_id y) c)
              (fun y => N.eqb (Course._id y) (Course._id crs))
              Course.incEnrollmentCount (courses st) crs (fun _ => eq_refl) Hcrs)
    as (crs' & Hcrs' & Hor).
  assert (Hpub' : Course.status crs' = Course.Published)
    by (destruct Hor as [-> | ->]; exact Hpub).
  assert (He : List.find (CourseAccess.activeFor (Payment.user p) c)
                 (enrollments (enrolled st pid p body sig crs e)) = Some e).
  { cbn [enrolled enrollments]. rewrite find_none_app.
    - unfold CourseAccess.activeFor, Enrollment.samePair. subst e. cbn.
      by rewrite !String.eqb_refl.
    - intros x Hx. unfold CourseAccess.activeFor.
      destruct (Hnone x Hx) as [-> _]. reflexivity. }
  rewrite (checkCourseAccess_matched now' u (Payment.user p) c
             (enrolled st pid p body sig crs e) crs' e Hu Hcrs' Hpub' He).
  subst e. cbn [Enrollment.fresh Enrollment.expiresAt].
  destruct (Z.gtb_spec now' now); [reflexivity | lia].
Qed.

Lemma unbounded_duration_expires_at_once_witness :
  let res := sampleVerify 77%N Sample.callback4 Sample.store in
  let e := Enrollment.fresh 77%N "u-alice" "c-life" 4%N Sample.justAfter
             Sample.leapDayMidnight in
  (statusCode (snd res) = 200 /\ success (snd res) = true) /\
  enrollments (fst res) = enrollments Sample.store ++ [e] /\
  Enrollment.expiresAt e = Sample.leapDayMidnight /\
  forall now' u,
    userIdOf u = Some "u-alice"%string ->
    Course.status Sample.courseLife = Course.Published ->
    Sample.leapDayMidnight < now' ->
    CourseAccess.checkCourseAccess now' u "c-life" (fst res)
    = (fst res, Reply (json 403 false
                         "Your course access has expired. Please renew your enrollment."
                         (ExpiredAt Sample.leapDayMidnight))).
Proof.
  exact (unbounded_duration_expires_at_once Sample.hmac Date.utc Sample.env
           Sample.leapDayMidnight Sample.justAfter 77%N Sample.callback4 4%N _
           Sample.store Sample.lifePayment "c-life" Sample.courseLife
           (sample_callback_wellSigned "000000000000000000000004" "order_4" "pay_4"
              4%N eq_refl eq_refl eq_refl)
           ltac:(vm_compute; reflexivity) ltac:(discriminate) eq_refl eq_refl eq_refl
           eq_refl ltac:(discriminate) eq_refl eq_refl eq_refl
           ltac:(intros x [])).
Defined.

(** * The model on examples *)

(** The character of code 160 is the no-break space. *)
Example parseInt_examples :
  Js.parseInt "12" = Some 12 /\ Js.parseInt " -7x" = Some (-7) /\
  Js.parseInt "0x1f" = Some 31 /\ Js.parseInt "abc" = None /\
  Js.parseInt (String (ascii_of_N 160) "0") = Some 0 /\
  Js.matchDigits "about 6 months" = Some "6"%string /\
  Js.includes "6 months" "month" = true /\
  Js.includes "lifetime" "day" = false.
Proof. repeat split; reflexivity. Qed.

(** 2023-01-31T00:00:00Z is 1675123200000. In New York thirty days from
    2024-02-28 19:00 end at 19:00 of 2024-03-29, an hour short of thirty
    times 24 hours. *)
Example date_examples :
  Date.fields Date.utc 0 = (1970, 0, 1) /\
  Date.fields Date.utc (-1) = (1969, 11, 31) /\
  Date.fields Date.utc 951782400000 = (2000, 1, 29) /\
  Date.fields Date.utc 4107542400000 = (2100, 2, 1) /\
  Date.fields Date.utc 1675123200000 = (2023, 0, 31) /\
  Date.setMonth Date.utc 1675123200000 1 = Some 1677801600000 /\
  Date.fields Date.utc 1677801600000 = (2023, 2, 3) /\
  Date.fields (Date.fixed 19800000) 1675123200000 = (2023, 0, 31) /\
  Date.setFullYear Date.utc 0 275761 = None /\
  Date.setDate Sample.eastern Sample.leapDayMidnight
    (Date.getDate Sample.eastern Sample.leapDayMidnight + 30)
  = Some (Sample.leapDayMidnight + 30 * Date.msPerDay - 3600000).
Proof. repeat split; vm_compute; reflexivity. Qed.

(** The three callbacks of [samplePurchases] leave one enrollment per
    course, the one for course 101 running to 2025-03-01. *)
Example purchases_example :
  map (fun e => (Enrollment.key e, Enrollment.expiresAt e))
    (enrollments (run Sample.hmac sampleRound Date.utc Sample.env samplePurchases Sample.store))
  = [("u-alice"%string, "c-101"%string, 1740787200000);
     ("u-alice"%string, "c-life"%string, Sample.leapDayMidnight)].
Proof. vm_compute. reflexivity. Qed.

(** The object that verify-payment hands to [User.findByIdAndUpdate] is no
    ObjectId, while the text of one is. *)
Example castObjectId_examples :
  castObjectId (VObject [("author_id"%string, "u-alice"%string)]) = None /\
  castObjectId (VString "000000000000000000000002") = Some 2%N.
Proof. split; reflexivity. Qed.

(** * Further properties *)

(** ** The middlewares only read *)

Lemma middleware_gets_only {A} (body : M A) msg st :
  preserves (fun s => s = st) body -> fst (middleware body msg st) = st.
Proof. intros H. by apply (preserves_middleware (I := fun s => s = st)). Qed.

Lemma authenticateToken_reads token st : fst (authenticateToken token st) = st.
Proof. apply middleware_gets_only. repeat preserve_step. Qed.

Lemma checkCourseAccess_reads now user courseId st :
  fst (CourseAccess.checkCourseAccess now user courseId st) = st.
Proof. apply middleware_gets_only. repeat preserve_step. Qed.

Lemma checkTopicAccess_reads now user courseId si ti st :
  fst (CourseAccess.checkTopicAccess now user courseId si ti st) = st.
Proof. apply middleware_gets_only. repeat preserve_step. Qed.

Lemma checkEnrollmentStatus_reads user courseId st :
  fst (CourseAccess.checkEnrollmentStatus user courseId st) = st.
Proof. apply middleware_gets_only. repeat preserve_step. Qed.

Lemma checkEnrollmentEligibility_reads env user courseId st :
  fst (CourseAccess.checkEnrollmentEligibility env user courseId st) = st.
Proof. apply middleware_gets_only. repeat preserve_step. Qed.

Lemma requireRegistrationFee_reads env user st :
  fst (Auth.requireRegistrationFee env user st) = st.
Proof. apply middleware_gets_only. repeat preserve_step. Qed.

Lemma authorizeRole_reads roles user st : fst (Auth.authorizeRole roles user st) = st.
Proof. unfold Auth.authorizeRole. by destruct (existsb _ _). Qed.

(** X1: the access middlewares only read. Whatever the user, the course and
    the indices, [checkCourseAccess], [checkTopicAccess],
    [checkEnrollmentStatus], [checkEnrollmentEligibility] and
    [requireRegistrationFee] leave every collection as it was, whether they
    call [next()] or answer themselves. *)
Theorem access_gate_never_writes (env : Env) (now : Z) (user : option User.t)
    (courseId sectionIndex topicIndex : string) (st : Store) :
  fst (CourseAccess.checkCourseAccess now user courseId st) = st /\
  fst (CourseAccess.checkTopicAccess now user courseId sectionIndex topicIndex st) = st /\
  fst (CourseAccess.checkEnrollmentStatus user courseId st) = st /\
  fst (CourseAccess.checkEnrollmentEligibility env user courseId st) = st /\
  fst (Auth.requireRegistrationFee env user st) = st.
Proof.
  repeat split;
    [ apply checkCourseAccess_reads | apply checkTopicAccess_reads
    | apply checkEnrollmentStatus_reads | apply checkEnrollmentEligibility_reads
    | apply requireRegistrationFee_reads ].
Qed.

Section Routes.
Variable hmacSha256Hex : string -> string -> string.
Variable roundPercent : Z -> Z -> Z.
Variable LocalTZA : Z -> bool -> Z.
Variable env : Env.

Lemma authenticateToken_found userId st u :
  Auth.findUser userId st = Some u ->
  authenticateToken (Some userId) st = (st, Ok u).
Proof.
  intros H. unfold authenticateToken, middleware, bind, gets. cbn. by rewrite H.
Qed.

Lemma authenticateToken_refused token st :
  (forall userId, token = Some userId -> Auth.findUser userId st = None) ->
  exists r, authenticateToken token st = (st, Reply r) /\
            statusCode r = 401 /\ success r = false.
Proof.
  intros H. unfold authenticateToken, middleware, bind, gets.
  destruct token as [userId |]; cbn; [rewrite (H userId eq_refl) |]; eauto.
Qed.

(** X2: every route of the model starts with [authenticateToken]. A request
    whose token names no active user is answered 401 with [success: false] and
    changes nothing. *)
Theorem request_needs_active_user (r : Request) (st : Store) :
  (forall userId, tokenOf r = Some userId -> Auth.findUser userId st = None) ->
  let res := serve hmacSha256Hex roundPercent LocalTZA env r st in
  statusCode (snd res) = 401 /\ success (snd res) = false /\ fst res = st.
Proof.
  intros H res. subst res.
  destruct (authenticateToken_refused (tokenOf r) st H) as (rp & E & Hc & Hs).
  destruct r; cbn [serve tokenOf] in *; unfold chain; rewrite E; by repeat split.
Qed.

(** X3: create-course-order is behind [requireRegistrationFee]. A user who is
    neither admin nor beta and has not paid the registration fee is answered
    402 whatever the body says, and no payment is stored. *)
Theorem unpaid_user_cannot_order_course (userId : string) (u : User.t)
    (newId : ObjectId) (order : option Razorpay.GatewayOrder)
    (courseId : option string) (st : Store) :
  Auth.findUser userId st = Some u ->
  User.role u <> "admin"%string -> User.role u <> "beta"%string ->
  User.hasPaidRegistrationFee u = false ->
  serve hmacSha256Hex roundPercent LocalTZA env
    (CreateCourseOrder (Some userId) newId order courseId) st
  = (st, json 402 false "Registration fee payment required to access this feature."
           (PaymentRequired (feeAmount env))).
Proof.
  intros Hu Ha Hb Hf. cbn [serve]. unfold chain at 1.
  rewrite (authenticateToken_found _ _ _ Hu).
  unfold chain, Auth.requireRegistrationFee, middleware.
  apply String.eqb_neq in Ha, Hb. rewrite Ha, Hb, Hf. reflexivity.
Qed.

(** X4: [checkTopicAccess] attaches no enrollment for a free topic, and the
    progress route refuses a request without one. Progress on a free topic is
    answered 403 "You are not enrolled in this course" for every user, also
    one who is enrolled, and nothing is written. *)
Theorem progress_on_free_topic_refused (userId : string) (u : User.t) (now : Z)
    (courseId sectionIndex topicIndex : string) (st : Store)
    (course : Course.t) (section : Course.Section_) (topic : Course.Topic) :
  Auth.findUser userId st = Some u ->
  User.author_id u <> ""%string ->
  List.find (fun x => String.eqb (Course.c_id x) courseId) (courses st) = Some course ->
  Js.index (Course.sections course) (Js.parseInt sectionIndex) = Some section ->
  Js.index (Course.topics section) (Js.parseInt topicIndex) = Some topic ->
  Course.isFree topic = true ->
  serve hmacSha256Hex roundPercent LocalTZA env
    (PostProgress (Some userId) now courseId sectionIndex topicIndex) st
  = (st, json 403 false "You are not enrolled in this course" NoData).
Proof.
  intros Hu Hid Hc Hs Ht Hfree. cbn [serve]. unfold chain at 1.
  rewrite (authenticateToken_found _ _ _ Hu). unfold chain.
  unfold CourseAccess.checkTopicAccess, middleware, userIdOf.
  destruct (User.author_id u) eqn:E; [congruence |]. cbn [Js.truthy].
  unfold bind, Db.Course_findOne, gets. cbn. rewrite Hc, Hs, Ht, Hfree. reflexivity.
Qed.
End Routes.

(** ** Topics and courses *)

Lemma index_None {A} (l : list A) (i : option Z) :
  (forall z, i = Some z -> z < 0 \/ Z.of_nat (length l) <= z) -> Js.index l i = None.
Proof.
  intros H. unfold Js.index. destruct i as [z |]; [| reflexivity].
  destruct (H z eq_refl) as [Hn | Hb].
  - destruct (Z.ltb_spec z 0); [reflexivity | lia].
  - destruct (Z.ltb_spec z 0); [reflexivity |]. apply lookup_ge_None. lia.
Qed.

(** X5: [checkTopicAccess] on indices that are no position of the arrays, for
    index texts of ASCII characters. A section index that is not a number, is
    negative or is past the last section is answered 404 "Section not found.";
    with a section found, such a topic index is answered 404 "Topic not
    found.". *)
Theorem topicAccess_unresolved_index (now : Z) (user : option User.t)
    (userId courseId sectionIndex topicIndex : string) (st : Store) (course : Course.t) :
  userIdOf user = Some userId ->
  List.find (fun x => String.eqb (Course.c_id x) courseId) (courses st) = Some course ->
  Js.isAscii sectionIndex = true ->
  Js.isAscii topicIndex = true ->
  ((forall z, Js.parseInt sectionIndex = Some z ->
      z < 0 \/ Z.of_nat (length (Course.sections course)) <= z) ->
   CourseAccess.checkTopicAccess now user courseId sectionIndex topicIndex st
   = (st, Reply (json 404 false "Section not found." NoData))) /\
  (forall section,
     Js.index (Course.sections course) (Js.parseInt sectionIndex) = Some section ->
     (forall z, Js.parseInt topicIndex = Some z ->
        z < 0 \/ Z.of_nat (length (Course.topics section)) <= z) ->
     CourseAccess.checkTopicAccess now user courseId sectionIndex topicIndex st
     = (st, Reply (json 404 false "Topic not found." NoData))).
Proof.
  intros Hu Hc _ _.
  unfold CourseAccess.checkTopicAccess, middleware. rewrite Hu.
  unfold bind, Db.Course_findOne, gets. cbn. rewrite Hc.
  split.
  - intros H. by rewrite (index_None _ _ H).
  - intros section Hs H. by rewrite Hs, (index_None _ _ H).
Qed.

Lemma course_status_eqb_eq a b : Course.status_eqb a b = true <-> a = b.
Proof. destruct a, b; simpl; split; congruence. Qed.

(** What [checkCourseAccess] found when it calls [next()]. *)
Lemma checkCourseAccess_Ok_inv now user courseId st st' e course :
  CourseAccess.checkCourseAccess now user courseId st = (st', Ok (e, course)) ->
  exists userId,
    userIdOf user = Some userId /\
    List.find (fun x => String.eqb (Course.c_id x) courseId) (courses st) = Some course /\
    Course.status course = Course.Published /\
    List.find (CourseAccess.activeFor userId courseId) (enrollments st) = Some e /\
    now <= Enrollment.expiresAt e.
Proof.
  unfold CourseAccess.checkCourseAccess, middleware.
  destruct (userIdOf user) as [userId |]; [| discriminate].
  unfold bind, Db.Course_findOne, Db.Enrollment_findOne, gets, reply, ret. cbn.
  destruct (find _ (courses st)) as [c |] eqn:Ec; [| discriminate].
  destruct (Course.status_eqb (Course.status c) Course.Published) eqn:Ep;
    cbn; [| discriminate].
  destruct (find _ (enrollments st)) as [x |] eqn:Ex; cbn; [| discriminate].
  destruct (Z.gtb_spec now (Enrollment.expiresAt x)); cbn; [discriminate |].
  intros [= <- <- <-]. exists userId. apply course_status_eqb_eq in Ep.
  repeat split; (reflexivity || assumption).
Qed.

(** X6: whoever [checkCourseAccess] admits to a course, [checkTopicAccess]
    admits to each of its topics at the same moment: a free topic without an
    enrollment attached, a paid one with the enrollment [checkCourseAccess]
    attached. *)
Theorem courseAccess_admits_topicAccess (now : Z) (user : option User.t)
    (courseId sectionIndex topicIndex : string) (st : Store)
    (e : Enrollment.t) (course : Course.t) (section : Course.Section_)
    (topic : Course.Topic) :
  CourseAccess.checkCourseAccess now user courseId st = (st, Ok (e, course)) ->
  Js.index (Course.sections course) (Js.parseInt sectionIndex) = Some section ->
  Js.index (Course.topics section) (Js.parseInt topicIndex) = Some topic ->
  CourseAccess.checkTopicAccess now user courseId sectionIndex topicIndex st
  = (st, Ok (topic, section, if Course.isFree topic then None else Some e)).
Proof.
  intros H Hs Ht.
  apply checkCourseAccess_Ok_inv in H as (userId & Hu & Hc & _ & He & Hnow).
  unfold CourseAccess.checkTopicAccess, middleware. rewrite Hu.
  unfold bind, Db.Course_findOne, Db.Enrollment_findOne, gets. cbn.
  rewrite Hc, Hs, Ht. destruct (Course.isFree topic); [reflexivity |].
  cbn. rewrite He.
  destruct (Z.gtb_spec now (Enrollment.expiresAt e)); [lia | reflexivity].
Qed.

(** X7: [checkTopicAccess] does not look at the status of the course. For a
    course that is not published [checkCourseAccess] answers 403, while each
    of its topics is still served: a free one to any authenticated user, a
    paid one to a user with an active enrollment that has not run out. *)
Theorem unpublished_course_keeps_topics_open (now : Z) (user : option User.t)
    (userId courseId sectionIndex topicIndex : string) (st : Store)
    (course : Course.t) (section : Course.Section_) (topic : Course.Topic) :
  userIdOf user = Some userId ->
  List.find (fun x => String.eqb (Course.c_id x) courseId) (courses st) = Some course ->
  Course.status course <> Course.Published ->
  Js.index (Course.sections course) (Js.parseInt sectionIndex) = Some section ->
  Js.index (Course.topics section) (Js.parseInt topicIndex) = Some topic ->
  CourseAccess.checkCourseAccess now user courseId st
  = (st, Reply (json 403 false "Course is not available for access." NoData)) /\
  (Course.isFree topic = true ->
     CourseAccess.checkTopicAccess now user courseId sectionIndex topicIndex st
     = (st, Ok (topic, section, None))) /\
  (forall e,
     Course.isFree topic = false ->
     List.find (CourseAccess.activeFor userId courseId) (enrollments st) = Some e ->
     now <= Enrollment.expiresAt e ->
     CourseAccess.checkTopicAccess now user courseId sectionIndex topicIndex st
     = (st, Ok (topic, section, Some e))).
Proof.
  intros Hu Hc Hst Hs Ht.
  assert (Ep : Course.status_eqb (Course.status course) Course.Published = false).
  { apply not_true_is_false. intros E. by apply course_status_eqb_eq in E. }
  unfold CourseAccess.checkCourseAccess, CourseAccess.checkTopicAccess, middleware.
  rewrite Hu. unfold bind, Db.Course_findOne, Db.Enrollment_findOne, gets. cbn.
  rewrite Hc, Ep, Hs, Ht. cbn. repeat split.
  - by intros ->.
  - intros e -> He Hnow. cbn. rewrite He.
    destruct (Z.gtb_spec now (Enrollment.expiresAt e)); [lia | reflexivity].
Qed.

(** X8: the method [isActive] and the gate disagree at the instant of expiry.
    For the active enrollment the gate finds, [isActive] implies that the gate
    admits; at [now = expiresAt] the gate still admits ([now > expiresAt] is
    false) while [isActive] is already false ([now < expiresAt]). *)
Theorem isActive_is_stricter_than_the_gate (now : Z) (user : option User.t)
    (userId courseId : string) (st : Store) (course : Course.t) (e : Enrollment.t) :
  userIdOf user = Some userId ->
  List.find (fun x => String.eqb (Course.c_id x) courseId) (courses st) = Some course ->
  Course.status course = Course.Published ->
  List.find (CourseAccess.activeFor userId courseId) (enrollments st) = Some e ->
  (Enrollment.isActive now e = true ->
     CourseAccess.checkCourseAccess now user courseId st = (st, Ok (e, course))) /\
  (now = Enrollment.expiresAt e ->
     Enrollment.isActive now e = false /\
     CourseAccess.checkCourseAccess now user courseId st = (st, Ok (e, course))).
Proof.
  intros Hu Hc Hpub He.
  rewrite (checkCourseAccess_matched now user userId courseId st course e Hu Hc Hpub He).
  unfold Enrollment.isActive. split.
  - intros H. apply andb_true_iff in H as [_ H]. apply Z.ltb_lt in H.
    destruct (Z.gtb_spec now (Enrollment.expiresAt e)); [lia | reflexivity].
  - intros ->. rewrite Z.ltb_irrefl, andb_false_r. split; [reflexivity |].
    destruct (Z.gtb_spec (Enrollment.expiresAt e) (Enrollment.expiresAt e));
      [lia | reflexivity].
Qed.

(** ** verify-payment as a whole *)

Lemma truthyField_Some f s :
  Razorpay.truthyField f = Some s -> f = Some s /\ Js.truthy s = true.
Proof.
  unfold Razorpay.truthyField. destruct f as [x |]; [| discriminate].
  destruct (Js.truthy x) eqn:E; [| discriminate]. by intros [= <-].
Qed.

Lemma existsb_false_none (es : list Enrollment.t) u c newId :
  existsb (fun y => Enrollment.samePair u c y || N.eqb (Enrollment._id y) newId) es
  = false ->
  forall x, In x es ->
    Enrollment.samePair u c x = false /\ Enrollment._id x <> newId.
Proof.
  intros H x Hin.
  assert (Hx : Enrollment.samePair u c x || N.eqb (Enrollment._id x) newId = false).
  { apply not_true_is_false. intros E.
    assert (existsb (fun y => Enrollment.samePair u c y
                              || N.eqb (Enrollment._id y) newId) es = true)
      by (apply existsb_exists; eauto).
    congruence. }
  apply orb_false_iff in Hx as [Hp Hi]. split; [exact Hp |].
  by apply N.eqb_neq.
Qed.

Section VerifyCases.
Variable hmac : string -> string -> string.
Variable tza : Z -> bool -> Z.
Variable env : Env.

(** Every way verify-payment can end. *)
Lemma verify_cases now en newId body st :
  let res := Razorpay.verifyPayment hmac tza env now en newId body st in
  (exists r, res = (st, r) /\ success r = false) \/
  exists pid sig p,
    Razorpay.wellSigned hmac env body pid sig /\
    payments st !! pid = Some p /\
    Payment.status p <> Payment.Completed /\
    Db.Payment_validate p = true /\
    ((exists r, res = (paid st pid p body sig, r) /\ success r = false) \/
     exists c crs exp,
       Payment.paymentType p = Payment.Course /\
       Payment.course p = Some c /\
       List.find (fun y => String.eqb (Course.c_id y) c) (courses st) = Some crs /\
       Razorpay.expiry tza (Js.orElse (Course.accessDuration crs) "1 year") now
         = Ok (Some exp) /\
       (forall x, In x (enrollments st) ->
          Enrollment.samePair (Payment.user p) c x = false /\ Enrollment._id x <> newId) /\
       res = (enrolled st pid p body sig crs
                (Enrollment.fresh newId (Payment.user p) c pid en exp),
              json 200 true
                "Course enrollment successful! You now have access to the course content."
                (VerifiedCourse (Course.c_id crs) (Course.title crs) (Some exp)))).
Proof.
  intros res. subst res.
  unfold Razorpay.verifyPayment, handler,
    Db.Payment_findById, Db.Payment_save, Db.Course_findOne, Db.User_findByIdAndUpdate,
    Db.Enrollment_create, Db.Enrollment_insert, Db.Course_findByIdAndUpdate,
    bind, gets, modify, lift, reply, ret, throw.
  destruct (Razorpay.truthyField (Razorpay.paymentId body)) as [sp |] eqn:E1;
    [| left; by eexists].
  destruct (Razorpay.truthyField (Razorpay.orderId body)) as [so |] eqn:E2;
    [| left; by eexists].
  destruct (Razorpay.truthyField (Razorpay.signature body)) as [sg |] eqn:E3;
    [| left; by eexists].
  apply truthyField_Some in E1 as [E1 T1], E2 as [E2 T2], E3 as [E3 T3].
  destruct (RAZORPAY_KEY_SECRET env) as [key |] eqn:Ek; [| left; by eexists].
  cbv zeta.
  destruct (String.eqb_spec
              (hmac key (so +:+ "|" +:+ Razorpay.interpolate (Razorpay.razorpay_payment_id body)))
              sg) as [Hmac |]; cbn [negb]; [| left; by eexists].
  cbn [castObjectId].
  destruct (oidOfString sp) as [pid |] eqn:Eo; [| left; by eexists].
  cbv beta.
  destruct (payments st !! pid) as [p |] eqn:Ep;
    cbn [fmap option_fmap option_map]; [| left; by eexists].
  destruct (Payment.status_eqb (Payment.status p) Payment.Completed) eqn:Es;
    [left; by eexists |].
  rewrite validate_complete.
  destruct (Db.Payment_validate p) eqn:Ev; [| left; by eexists].
  right. exists pid, sg, p.
  split; [exists sp, so, key; repeat split; assumption |].
  split; [exact Ep |].
  split; [intros E; rewrite E in Es; discriminate |].
  split; [exact Ev |].
  cbn.
  destruct (Payment.paymentType p) eqn:Ety; cbn; [left; by eexists |].
  destruct (Payment.course p) as [c |] eqn:Ec; cbn; [| left; by eexists].
  destruct (find _ (courses st)) as [crs |] eqn:Ecrs; cbn; [| left; by eexists].
  destruct (Razorpay.expiry tza _ now) as [[exp |] | r | e] eqn:Hex; cbn;
    [| left; by eexists | by destruct (expiry_no_reply _ _ _ _ Hex) | left; by eexists].
  destruct (Db.Enrollment_validate _) eqn:Eve; cbn; [| left; by eexists].
  destruct (existsb _ (enrollments st)) eqn:Ex; cbn; [left; by eexists |].
  right. exists c, crs, exp.
  split; [reflexivity |]. split; [reflexivity |]. split; [exact Ecrs |].
  split; [exact Hex |]. split; [exact (existsb_false_none _ _ _ _ Ex) | reflexivity].
Qed.
End VerifyCases.

Section VerifyMore.
Variable hmac : string -> string -> string.
Variable tza : Z -> bool -> Z.
Variable env : Env.

(** X9: verify-payment changes the store only for an authentic callback.
    Either the response has [success: false] and the store is untouched, or
    the body carries a payment id, an order id and the signature the secret
    gives for them, and the payment id is that of a stored payment that is not
    completed yet. *)
Theorem verify_writes_only_when_authentic (now en : Z) (newId : ObjectId)
    (body : Razorpay.VerifyBody) (st : Store) :
  let res := Razorpay.verifyPayment hmac tza env now en newId body st in
  (fst res = st /\ success (snd res) = false) \/
  exists pid sig p,
    Razorpay.wellSigned hmac env body pid sig /\
    payments st !! pid = Some p /\
    Payment.status p <> Payment.Completed.
Proof.
  intros res. subst res.
  destruct (verify_cases hmac tza env now en newId body st)
    as [(r & -> & Hr) | (pid & sig & p & Hs & Hp & Hst & _)].
  - by left.
  - right. by exists pid, sig, p.
Qed.

(** Once the guards are passed, a payment that the validators of its schema
    accept is written back as completed, however the rest of the handler
    ends. *)
Lemma verify_marks_completed now en newId body pid sig st p :
  Razorpay.wellSigned hmac env body pid sig ->
  payments st !! pid = Some p ->
  Payment.status p <> Payment.Completed ->
  Db.Payment_validate p = true ->
  payments (fst (Razorpay.verifyPayment hmac tza env now en newId body st)) !! pid
  = Some (Payment.complete p (Razorpay.razorpay_payment_id body) sig).
Proof.
  intros Hs Hp Hst Hv. verify_start Hs Hp.
  rewrite (status_neq_completed _ Hst).
  unfold Db.Payment_save, Db.Course_findOne, Db.User_findByIdAndUpdate,
    Db.Enrollment_create, Db.Enrollment_insert, Db.Course_findByIdAndUpdate,
    bind, gets, modify, lift, reply, ret, throw.
  rewrite validate_complete, Hv. cbn.
  destruct (Payment.paymentType p); cbn; [apply lookup_insert_eq |].
  destruct (Payment.course p) as [c |]; cbn; [| apply lookup_insert_eq].
  destruct (find _ (courses st)) as [crs |]; cbn; [| apply lookup_insert_eq].
  destruct (Razorpay.expiry tza _ now) as [[exp |] | r | e]; cbn;
    try apply lookup_insert_eq.
  destruct (Db.Enrollment_validate _); cbn; [| apply lookup_insert_eq].
  destruct (existsb _ (enrollments st)); cbn; apply lookup_insert_eq.
Qed.

(** X10: a callback delivered again. Once verify-payment has passed its guards
    for a payment whose stored document passes the validators of its schema,
    however that call ended (also with a 404 or a 500), the same callback
    delivered again is answered 400 "Payment has already been processed." and
    changes nothing. When the stored document fails the validators, the first
    call has written nothing, and the callback delivered again is answered 500
    again. *)
Theorem verify_again_is_refused (now en : Z) (newId : ObjectId)
    (now' en' : Z) (newId' : ObjectId)
    (body : Razorpay.VerifyBody) (pid : ObjectId) (sig : string) (st : Store)
    (p : Payment.t) :
  Razorpay.wellSigned hmac env body pid sig ->
  payments st !! pid = Some p ->
  Payment.status p <> Payment.Completed ->
  let st1 := fst (Razorpay.verifyPayment hmac tza env now en newId body st) in
  let again := Razorpay.verifyPayment hmac tza env now' en' newId' body st1 in
  (Db.Payment_validate p = true ->
     again = (st1, json 400 false "Payment has already been processed." NoData)) /\
  (Db.Payment_validate p = false ->
     st1 = st /\
     again = (st, json 500 false "Payment verification failed. Please contact support."
                    NoData)).
Proof.
  intros Hs Hp Hst st1 again. subst st1 again. split; intros Hv.
  - apply (verify_completed_eq hmac tza env now' en' newId' body pid sig _
             (Payment.complete p (Razorpay.razorpay_payment_id body) sig) Hs);
      [| reflexivity].
    by apply verify_marks_completed.
  - rewrite (verify_invalid_eq hmac tza env now en newId body pid sig st p Hs Hp Hst Hv).
    cbn [fst]. split; [reflexivity |].
    by apply verify_invalid_eq with (pid := pid) (sig := sig) (p := p).
Qed.

(** X11: a course whose [accessDuration] gives no valid date (a unit without a
    number, or a number that takes the date out of range) cannot be delivered.
    For a payment whose stored document passes the validators of its schema,
    the well-signed callback is answered 500, the payment is written back as
    completed, and there is no enrollment. *)
Theorem verify_fails_on_unusable_duration (now en : Z) (newId : ObjectId)
    (body : Razorpay.VerifyBody) (pid : ObjectId) (sig : string) (st : Store)
    (p : Payment.t) (c : string) (crs : Course.t) :
  Razorpay.wellSigned hmac env body pid sig ->
  payments st !! pid = Some p ->
  Payment.status p <> Payment.Completed ->
  Db.Payment_validate p = true ->
  Payment.paymentType p = Payment.Course ->
  Payment.course p = Some c ->
  List.find (fun y => String.eqb (Course.c_id y) c) (courses st) = Some crs ->
  (forall exp,
     Razorpay.expiry tza (Js.orElse (Course.accessDuration crs) "1 year") now
     <> Ok (Some exp)) ->
  Razorpay.verifyPayment hmac tza env now en newId body st
  = (paid st pid p body sig,
     json 500 false "Payment verification failed. Please contact support." NoData).
Proof.
  intros Hs Hp Hst Hv Hty Hc Hcrs Hno. verify_start Hs Hp.
  rewrite (status_neq_completed _ Hst).
  unfold bind, Db.Payment_save. rewrite validate_complete, Hv.
  unfold modify, Db.Course_findOne, gets. cbn.
  rewrite Hty, Hc. cbn. rewrite Hcrs. unfold lift.
  destruct (Razorpay.expiry tza _ now) as [[exp |] | r | e] eqn:Hex; cbn;
    try reflexivity.
  - by destruct (Hno exp).
  - by destruct (expiry_no_reply _ _ _ _ Hex).
Qed.

(** A unit word without a count: [match] gives [null]. *)
Lemma expiry_without_digits d now :
  Js.matchDigits d = None ->
  Js.includes d "year" || Js.includes d "month" || Js.includes d "day" = true ->
  Razorpay.expiry tza d now = Throw TypeError.
Proof.
  intros Hd Hu. unfold Razorpay.expiry. rewrite Hd.
  destruct (Js.includes d "year"); [reflexivity |].
  destruct (Js.includes d "month"); [reflexivity |].
  destruct (Js.includes d "day"); [reflexivity | discriminate].
Qed.
End VerifyMore.

(** ** The enrollment counter *)

Lemma updateFirst_total (P : Course.t -> bool) (l : list Course.t) (x : Course.t) :
  In x l -> P x = true ->
  totalEnrollmentCount (Db.updateFirst P Course.incEnrollmentCount l)
  = totalEnrollmentCount l + 1.
Proof.
  induction l as [| a l IH]; intros Hin HP; [destruct Hin |]. cbn.
  destruct (P a) eqn:E; cbn; [lia |].
  destruct Hin as [-> | Hin]; [congruence |]. rewrite (IH Hin HP). lia.
Qed.

Lemma find_updateFirst_unique_id (c : string) (l : list Course.t) (crs : Course.t) :
  NoDup (map Course._id l) ->
  List.find (fun y => String.eqb (Course.c_id y) c) l = Some crs ->
  List.find (fun y => String.eqb (Course.c_id y) c)
    (Db.updateFirst (fun y => N.eqb (Course._id y) (Course._id crs))
       Course.incEnrollmentCount l)
  = Some (Course.incEnrollmentCount crs).
Proof.
  induction l as [| a l IH]; intros Hnd Hf; [discriminate |].
  apply NoDup_cons in Hnd as [Hna Hnd]. cbn in *.
  destruct (String.eqb (Course.c_id a) c) eqn:Ec.
  - injection Hf as ->. rewrite N.eqb_refl. cbn. by rewrite Ec.
  - destruct (N.eqb_spec (Course._id a) (Course._id crs)) as [Eid |].
    + exfalso. apply Hna. rewrite Eid. apply list_elem_of_In, in_map.
      by apply find_some in Hf as [? _].
    + cbn. rewrite Ec. by apply IH.
Qed.

Section Counter.
Variable hmac : string -> string -> string.
Variable tza : Z -> bool -> Z.
Variable env : Env.

(** X12: a delivered purchase, of a payment whose stored document passes the
    validators of its schema, adds exactly one enrollment and adds exactly one
    to the enrollment counters of the catalogue; when the [_id]s of the
    courses are distinct, the one that goes up is that of the course bought.
    *)
Theorem verify_counts_enrollment_once (now en : Z) (newId : ObjectId)
    (body : Razorpay.VerifyBody) (pid : ObjectId) (sig : string) (st : Store)
    (p : Payment.t) (c : string) (crs : Course.t) (exp : Z) :
  Razorpay.wellSigned hmac env body pid sig ->
  payments st !! pid = Some p ->
  Payment.status p <> Payment.Completed ->
  Db.Payment_validate p = true ->
  Payment.paymentType p = Payment.Course ->
  Payment.course p = Some c ->
  List.find (fun y => String.eqb (Course.c_id y) c) (courses st) = Some crs ->
  Razorpay.expiry tza (Js.orElse (Course.accessDuration crs) "1 year") now
    = Ok (Some exp) ->
  (forall x, In x (enrollments st) ->
     Enrollment.samePair (Payment.user p) c x = false /\ Enrollment._id x <> newId) ->
  let st' := fst (Razorpay.verifyPayment hmac tza env now en newId body st) in
  totalEnrollmentCount (courses st') = totalEnrollmentCount (courses st) + 1 /\
  length (enrollments st') = S (length (enrollments st)) /\
  (NoDup (map Course._id (courses st)) ->
   List.find (fun y => String.eqb (Course.c_id y) c) (courses st')
   = Some (Course.incEnrollmentCount crs)).
Proof.
  intros Hs Hp Hst Hv Hty Hc Hcrs Hex Hnone st'. subst st'.
  rewrite (verify_new_enrollment hmac tza env now en newId body pid sig st p c crs exp
             Hs Hp Hst Hv Hty Hc Hcrs Hex Hnone).
  cbn [fst enrolled courses enrollments]. repeat split.
  - apply (updateFirst_total _ _ crs); [| apply N.eqb_refl].
    by apply find_some in Hcrs as [? _].
  - rewrite length_app. cbn. lia.
  - intros Hnd. by apply find_updateFirst_unique_id.
Qed.
End Counter.

(** ** What each request does to the store *)

Lemma updateFirst_terms P pr (es : list Enrollment.t) :
  map terms (Db.updateFirst P (fun x => Enrollment.withProgress x pr) es) = map terms es.
Proof.
  induction es as [| a es IH]; cbn; [reflexivity |].
  destruct (P a); cbn; [reflexivity | by rewrite IH].
Qed.

Ltac unfold_db :=
  unfold Db.Payment_create, Db.Payment_findById, Db.Payment_save, Db.Payment_deleteMany,
    Db.Course_findOneAndDelete, Db.Course_findOne, Db.Course_findByIdAndUpdate,
    Db.User_findByIdAndUpdate, Db.Enrollment_findOne, Db.Enrollment_create,
    Db.Enrollment_insert, Db.Enrollment_save, Db.Enrollment_deleteMany,
    bind, gets, modify, lift, reply, ret, throw.

Section Effects.
Variable hmacSha256Hex : string -> string -> string.
Variable roundPercent : Z -> Z -> Z.
Variable LocalTZA : Z -> bool -> Z.
Variable env : Env.

Lemma createRegistrationOrder_effect token newId order user st :
  effect (CreateRegistrationOrder token newId order) st
    (fst (Razorpay.createRegistrationOrder env newId order user st)).
Proof.
  unfold Razorpay.createRegistrationOrder, handler. unfold_db.
  destruct (User.hasPaidRegistrationFee user); [apply effect_none |].
  cbv zeta. destruct order as [o |]; [| apply effect_none].
  destruct (_ <$> (_ <$> envOr _ _ _)) as [a |]; cbn; [| apply effect_none].
  destruct (negb (Db.Payment_validate _)); cbn; [apply effect_none |].
  destruct (payments st !! newId) eqn:E; cbn; [apply effect_none |].
  by apply effect_registration_order.
Qed.

Lemma createCourseOrder_effect token newId order courseId user st :
  effect (CreateCourseOrder token newId order courseId) st
    (fst (Razorpay.createCourseOrder newId order courseId user st)).
Proof.
  unfold Razorpay.createCourseOrder, handler. unfold_db. cbv zeta.
  destruct (Razorpay.truthyField courseId) as [c |]; [| apply effect_none]. cbn.
  destruct (find _ (courses st)) as [crs |]; cbn; [| apply effect_none].
  destruct (negb _); cbn; [apply effect_none |].
  destruct (find _ (enrollments st)); cbn; [apply effect_none |].
  destruct order as [o |]; cbn; [| apply effect_none].
  destruct (negb (Db.Payment_validate _)); cbn; [apply effect_none |].
  destruct (payments st !! newId) eqn:E; cbn; [apply effect_none |].
  by apply effect_course_order.
Qed.

Lemma verifyPayment_effect token now en newId body st :
  effect (VerifyPayment token now en newId body) st
    (fst (Razorpay.verifyPayment hmacSha256Hex LocalTZA env now en newId body st)).
Proof.
  destruct (verify_cases hmacSha256Hex LocalTZA env now en newId body st)
    as [(r & -> & _) | (pid & sig & p & Hs & Hp & Hst & Hv &
          [(r & -> & _) | (c & crs & exp & Hty & Hc & Hcrs & Hex & Hnone & ->)])].
  - apply effect_none.
  - by apply effect_paid.
  - by apply effect_enrolled.
Qed.

Lemma postProgress_effect token now courseId si ti attached st :
  effect (PostProgress token now courseId si ti) st
    (fst (Courses.postProgress roundPercent now si ti attached st)).
Proof.
  unfold Courses.postProgress, handler, Courses.updateProgress,
    Courses.calculateCompletionPercentage. unfold_db.
  destruct (snd attached) as [e |]; [| apply effect_none].
  destruct (Js.parseInt si) as [a |]; [| apply effect_none].
  destruct (Js.parseInt ti) as [b |]; [| apply effect_none]. cbn.
  destruct (Db.Enrollment_validate _); cbn; [| apply effect_none].
  destruct (find _ (courses st)); cbn;
    [destruct (Db.Enrollment_validate _); cbn |];
    repeat match goal with
           | |- effect _ _ (setEnrollments (setEnrollments ?s ?x) ?y) =>
               change (setEnrollments (setEnrollments s x) y) with (setEnrollments s y)
           end;
    apply effect_progress; cbn; by rewrite ?updateFirst_terms.
Qed.

Lemma removeFirst_none {A} (P : A -> bool) (l : list A) :
  List.find P l = None -> Db.removeFirst P l = l.
Proof.
  induction l as [| a l IH]; cbn; [reflexivity |].
  destruct (P a); [discriminate |]. intros H. by rewrite IH.
Qed.

Lemma deleteCourse_effect token courseId st :
  effect (DeleteCourse token courseId) st (fst (Admin.deleteCourse courseId st)).
Proof.
  unfold Admin.deleteCourse, handler. unfold_db. cbn.
  destruct (find _ (courses st)) eqn:E; cbn.
  - unfold setPayments, setEnrollments, setCourses. cbn. apply effect_deleted.
  - rewrite (removeFirst_none _ _ E). destruct st. apply effect_none.
Qed.

Lemma chain_effect {A} r (mw : Store -> Store * Outcome A) h st :
  fst (mw st) = st ->
  (forall a, effect r st (fst (h a st))) ->
  effect r st (fst (chain mw h st)).
Proof.
  intros Hm Hh. unfold chain. destruct (mw st) as [st' [a | rp | e]]; cbn in *;
    subst st'; [apply Hh | apply effect_none | apply effect_none].
Qed.

(** Every request changes the store in one of the ways of [effect]. *)
Lemma serve_effect r st :
  effect r st (fst (serve hmacSha256Hex roundPercent LocalTZA env r st)).
Proof.
  destruct r; cbn [serve];
    repeat (apply chain_effect;
            [ first [ apply authenticateToken_reads | apply requireRegistrationFee_reads
                    | apply authorizeRole_reads | apply checkCourseAccess_reads
                    | apply checkTopicAccess_reads | apply checkEnrollmentEligibility_reads ]
            | intros ? ]);
    first [ apply createRegistrationOrder_effect | apply createCourseOrder_effect
          | apply verifyPayment_effect | apply postProgress_effect
          | apply deleteCourse_effect | apply effect_none ].
Qed.
End Effects.

Section Invariants.
Variable hmacSha256Hex : string -> string -> string.
Variable roundPercent : Z -> Z -> Z.
Variable LocalTZA : Z -> bool -> Z.
Variable env : Env.

Lemma effect_users r st st' : effect r st st' -> users st' = users st.
Proof. by destruct 1. Qed.

(** X13: no sequence of requests to the routes of the model changes the users.
    The one update of a user these routes attempt, that of verify-payment for
    a registration payment, fails on the cast of its filter; so
    [hasPaidRegistrationFee] is never set, and who is an active user stays as
    it was. *)
Theorem requests_never_write_users (rs : list Request) (st : Store) :
  users (run hmacSha256Hex roundPercent LocalTZA env rs st) = users st /\
  forall userId,
    Auth.findUser userId (run hmacSha256Hex roundPercent LocalTZA env rs st)
    = Auth.findUser userId st.
Proof.
  assert (H : users (run hmacSha256Hex roundPercent LocalTZA env rs st) = users st).
  { revert st. induction rs as [| r rs IH]; intros st; cbn; [reflexivity |].
    rewrite IH. apply (effect_users r), serve_effect. }
  split; [exact H |]. intros userId. unfold Auth.findUser. by rewrite H.
Qed.

(** X14: what a request can do to a stored payment. After any one request the
    payment is as it was, or it was not completed before and is now the same
    payment marked completed with the gateway's payment id and signature, or
    the request deleted the course the payment is for and the payment with it.
    User, course, amount, currency and type never change. *)
Theorem payments_are_only_completed (r : Request) (st : Store) (k : ObjectId)
    (p : Payment.t) :
  payments st !! k = Some p ->
  let st' := fst (serve hmacSha256Hex roundPercent LocalTZA env r st) in
  payments st' !! k = Some p \/
  (Payment.status p <> Payment.Completed /\
   exists rzpPaymentId sig,
     payments st' !! k = Some (Payment.complete p rzpPaymentId sig)) \/
  (exists token c,
     r = DeleteCourse token c /\ Payment.course p = Some c /\ payments st' !! k = None).
Proof.
  intros Hk st'. subst st'.
  destruct (serve_effect hmacSha256Hex roundPercent LocalTZA env r st)
    as [ | ? ? ? ? q Hn | ? ? ? ? ? q Hn | ? ? ? ? ? ? pid q sig Hq Hs
         | ? ? ? ? ? ? pid q sig ? ? ? Hq Hs | | token c ?].
  - by left.
  - left. cbn. rewrite lookup_insert_ne; [exact Hk | congruence].
  - left. cbn. rewrite lookup_insert_ne; [exact Hk | congruence].
  - cbn. destruct (decide (pid = k)) as [-> |].
    + right. left. rewrite lookup_insert_eq.
      assert (q = p) as -> by congruence. eauto.
    + left. by rewrite lookup_insert_ne.
  - cbn. destruct (decide (pid = k)) as [-> |].
    + right. left. rewrite lookup_insert_eq.
      assert (q = p) as -> by congruence. eauto.
    + left. by rewrite lookup_insert_ne.
  - by left.
  - cbn. destruct (decide (Payment.course p = Some c)) as [E |].
    + right. right. exists token, c. repeat split; [exact E |].
      apply map_lookup_filter_None. right. intros q Hq. cbn.
      assert (q = p) as -> by congruence. tauto.
    + left. apply map_lookup_filter_Some. by split.
Qed.

(** X15: the terms of an enrollment are fixed when it is created. Every
    enrollment in the store after a request either has the [_id], user,
    course, dates, status and payment of an enrollment that was there before
    (only its progress may differ), or is the new document verify-payment has
    just built. *)
Theorem enrollment_terms_never_change (r : Request) (st : Store) (e' : Enrollment.t) :
  In e' (enrollments (fst (serve hmacSha256Hex roundPercent LocalTZA env r st))) ->
  (exists e, In e (enrollments st) /\ terms e = terms e') \/
  (exists token now enrolledNow newId body u c pid exp,
     r = VerifyPayment token now enrolledNow newId body /\
     e' = Enrollment.fresh newId u c pid enrolledNow exp).
Proof.
  destruct (serve_effect hmacSha256Hex roundPercent LocalTZA env r st)
    as [ | | | | token now en newId body ? pid q sig c crs exp | ? ? ? ? ? ? es Hes | ];
    cbn; intros Hin; try (left; by exists e').
  - apply in_app_or in Hin as [Hin | [<- | []]]; [left; by exists e' |].
    right. by exists token, now, en, newId, body, (Payment.user q), c, pid, exp.
  - left. apply (in_map terms) in Hin. rewrite Hes in Hin.
    apply in_map_iff in Hin as (e & He & Hin). by exists e.
  - left. exists e'. split; [| reflexivity]. by apply filter_In in Hin as [? _].
Qed.
End Invariants.

(** ** Orders *)

Lemma validate_coursePaymentFor user c crs o :
  Js.truthy (User.author_id user) = true ->
  Js.truthy c = true ->
  0 <= Course.price crs ->
  Db.validCurrency (Js.orElse (Course.currency crs) "INR") = true ->
  Db.Payment_validate (coursePaymentFor user c crs o) = true.
Proof.
  intros Hu Hc Hp Hcur. unfold Db.Payment_validate, coursePaymentFor. cbn.
  rewrite Hu, Hc, Hcur. by destruct (Z.leb_spec 0 (Course.price crs)); [| lia].
Qed.

Lemma createCourseOrder_ok newId o c user st crs :
  Js.truthy (User.author_id user) = true ->
  Js.truthy c = true ->
  List.find (fun x => String.eqb (Course.c_id x) c) (courses st) = Some crs ->
  Course.status crs = Course.Published ->
  List.find (CourseAccess.activeOrExpiredFor (User.author_id user) c) (enrollments st)
    = None ->
  0 <= Course.price crs ->
  Db.validCurrency (Js.orElse (Course.currency crs) "INR") = true ->
  payments st !! newId = None ->
  Razorpay.createCourseOrder newId (Some o) (Some c) user st
  = (setPayments st (<[newId := coursePaymentFor user c crs o]> (payments st)),
     json 200 true "" (Order (Razorpay.id o) newId)).
Proof.
  intros Hu Ht Hc Hpub Hnone Hprice Hcur Hfree.
  pose proof (validate_coursePaymentFor user c crs o Hu Ht Hprice Hcur) as Hv.
  unfold Razorpay.createCourseOrder, handler, Razorpay.truthyField. rewrite Ht.
  unfold_db. cbn. rewrite Hc, Hpub. cbn. rewrite Hnone. cbn.
  unfold coursePaymentFor in Hv. rewrite Hv. cbn.
  rewrite Hfree. reflexivity.
Qed.

Lemma find_none_iff {A} (P : A -> bool) (l : list A) :
  List.find P l = None <-> forall x, In x l -> P x = false.
Proof.
  split; [apply find_none |].
  induction l as [| a l IH]; intros H; simpl; [reflexivity |].
  rewrite (H a (or_introl eq_refl)). apply IH. intros x Hx. apply H. by right.
Qed.

Lemma activeFor_activeOrExpired u c (es : list Enrollment.t) :
  List.find (CourseAccess.activeOrExpiredFor u c) es = None ->
  List.find (CourseAccess.activeFor u c) es = None.
Proof.
  rewrite !find_none_iff. intros H x Hx. specialize (H x Hx).
  unfold CourseAccess.activeOrExpiredFor in H. unfold CourseAccess.activeFor.
  destruct (Enrollment.samePair u c x); [| reflexivity].
  destruct (Enrollment.status_eqb (Enrollment.status x) Enrollment.Active);
    [discriminate | reflexivity].
Qed.


Lemma userIdOf_truthy user :
  Js.truthy (User.author_id user) = true ->
  userIdOf (Some user) = Some (User.author_id user).
Proof. unfold userIdOf. by intros ->. Qed.

Section Purchase.
Variable hmacSha256Hex : string -> string -> string.
Variable LocalTZA : Z -> bool -> Z.
Variable env : Env.

(** X16: create-course-order by a user with an [author_id] that is not empty,
    for a published course the user holds no active or expired enrollment of:
    the answer is the order, and the store gains one payment under the new id,
    pending, of type course, for this user and course, with the price and the
    currency the course has at that moment (INR when it has none); every other
    payment, the enrollments, the courses and the users are as before. *)
Theorem createCourseOrder_stores_pending_payment (newId : ObjectId)
    (o : Razorpay.GatewayOrder) (c : string) (user : User.t) (st : Store)
    (crs : Course.t) :
  Js.truthy (User.author_id user) = true ->
  Js.truthy c = true ->
  List.find (fun x => String.eqb (Course.c_id x) c) (courses st) = Some crs ->
  Course.status crs = Course.Published ->
  List.find (CourseAccess.activeOrExpiredFor (User.author_id user) c) (enrollments st)
    = None ->
  0 <= Course.price crs ->
  Db.validCurrency (Js.orElse (Course.currency crs) "INR") = true ->
  payments st !! newId = None ->
  let res := Razorpay.createCourseOrder newId (Some o) (Some c) user st in
  snd res = json 200 true "" (Order (Razorpay.id o) newId) /\
  payments (fst res) !! newId = Some (coursePaymentFor user c crs o) /\
  (forall k, k <> newId -> payments (fst res) !! k = payments st !! k) /\
  enrollments (fst res) = enrollments st /\
  courses (fst res) = courses st /\
  users (fst res) = users st.
Proof.
  intros Hu Ht Hc Hpub Hnone Hprice Hcur Hfree res. subst res.
  rewrite (createCourseOrder_ok newId o c user st crs Hu Ht Hc Hpub Hnone Hprice Hcur
             Hfree).
  cbn. rewrite lookup_insert_eq. repeat split.
  intros k Hk. by rewrite lookup_insert_ne.
Qed.


(** X18: a user whose enrollment of a course was cancelled or suspended can
    pay and gets nothing. create-course-order only looks for an active or
    expired enrollment, so the order is taken; the unique index then rejects
    the new enrollment, so the well-signed callback is answered 500 with the
    payment already completed, the enrollments unchanged, and
    [checkCourseAccess] still answering 403 with the offer to enroll. *)
Theorem cancelled_enrollment_pays_without_access (now enrolledNow now' : Z)
    (payId enrId : ObjectId) (o : Razorpay.GatewayOrder) (body : Razorpay.VerifyBody)
    (sig : string) (c : string) (user : User.t) (st : Store) (crs : Course.t)
    (x : Enrollment.t) :
  Js.truthy (User.author_id user) = true ->
  Js.truthy c = true ->
  List.find (fun y => String.eqb (Course.c_id y) c) (courses st) = Some crs ->
  Course.status crs = Course.Published ->
  0 <= Course.price crs ->
  Db.validCurrency (Js.orElse (Course.currency crs) "INR") = true ->
  payments st !! payId = None ->
  In x (enrollments st) ->
  Enrollment.user x = User.author_id user ->
  Enrollment.course x = c ->
  List.find (CourseAccess.activeOrExpiredFor (User.author_id user) c) (enrollments st)
    = None ->
  Razorpay.wellSigned hmacSha256Hex env body payId sig ->
  let ordered := Razorpay.createCourseOrder payId (Some o) (Some c) user st in
  let verified :=
    Razorpay.verifyPayment hmacSha256Hex LocalTZA env now enrolledNow enrId body
      (fst ordered) in
  (Enrollment.status x = Enrollment.Cancelled \/
   Enrollment.status x = Enrollment.Suspended) /\
  snd ordered = json 200 true "" (Order (Razorpay.id o) payId) /\
  snd verified
    = json 500 false "Payment verification failed. Please contact support." NoData /\
  (exists p, payments (fst verified) !! payId = Some p /\
     Payment.status p = Payment.Completed /\ Payment.amount p = Course.price crs) /\
  enrollments (fst verified) = enrollments st /\
  CourseAccess.checkCourseAccess now' (Some user) c (fst verified)
  = (fst verified,
     Reply (json 403 false
              "You are not enrolled in this course. Please enroll to access the content."
              (Upsell c (Course.title crs) (Course.price crs)))).
Proof.
  intros Hu Ht Hc Hpub Hprice Hcur Hfree Hin Hxu Hxc Hno Hs ordered verified.
  split.
  { pose proof (proj1 (find_none_iff _ _) Hno x Hin) as Hx.
    unfold CourseAccess.activeOrExpiredFor, Enrollment.samePair in Hx.
    rewrite Hxu, Hxc, !String.eqb_refl in Hx. cbn in Hx.
    destruct (Enrollment.status x); cbn in Hx; try discriminate; auto. }
  subst ordered verified.
  rewrite (createCourseOrder_ok payId o c user st crs Hu Ht Hc Hpub Hno Hprice Hcur Hfree).
  pose proof (validate_coursePaymentFor user c crs o Hu Ht Hprice Hcur) as Hv.
  cbn [fst snd].
  set (st1 := setPayments st _).
  assert (Hp : payments st1 !! payId = Some (coursePaymentFor user c crs o))
    by (subst st1; cbn; apply lookup_insert_eq).
  assert (Hres : Razorpay.verifyPayment hmacSha256Hex LocalTZA env now enrolledNow enrId
                   body st1 = (paid st1 payId (coursePaymentFor user c crs o) body sig,
     json 500 false "Payment verification failed. Please contact support." NoData)).
  { apply (verify_existing_enrollment_eq hmacSha256Hex LocalTZA env now enrolledNow enrId
             body payId sig st1 (coursePaymentFor user c crs o) c crs x Hs Hp);
      try reflexivity; try assumption. discriminate. }
  rewrite Hres. cbn [fst snd].
  split; [reflexivity |]. split; [reflexivity |].
  split.
  { eexists. split; [cbn; apply lookup_insert_eq |]. split; reflexivity. }
  split; [reflexivity |].
  unfold CourseAccess.checkCourseAccess, middleware.
  rewrite (userIdOf_truthy _ Hu).
  unfold bind, Db.Course_findOne, Db.Enrollment_findOne, gets. cbn.
  rewrite Hc, Hpub. cbn. rewrite (activeFor_activeOrExpired _ _ _ Hno). reflexivity.
Qed.

(** X19: the amount of a registration order. For a user with an [author_id]
    that is not empty who has not paid, with a supported currency and a
    [REGISTRATION_FEE_AMOUNT] of ASCII characters, the fee is the whole number
    [parseInt] reads at the start of that text (699 when the variable is unset
    or empty). A fee that is not negative and whose hundredfold is at most
    2^53, so that the two conversions are exact, is the amount of the pending
    registration payment the route stores; when the text starts with no
    number, or with a negative one, the answer is 500 and nothing is stored.
    *)
Theorem registration_order_amount (newId : ObjectId) (o : Razorpay.GatewayOrder)
    (user : User.t) (st : Store) :
  Js.truthy (User.author_id user) = true ->
  User.hasPaidRegistrationFee user = false ->
  payments st !! newId = None ->
  Db.validCurrency (envOr (PAYMENT_CURRENCY env) (fun s => s) "INR"%string) = true ->
  (forall s, REGISTRATION_FEE_AMOUNT env = Some s -> Js.isAscii s = true) ->
  let res := Razorpay.createRegistrationOrder env newId (Some o) user st in
  match envOr (REGISTRATION_FEE_AMOUNT env) Js.parseInt (Some 699) with
  | Some fee =>
      (fee < 0 ->
       res = (st, json 500 false
                    "Failed to create payment order. Please try again." NoData)) /\
      (0 <= fee -> fee * 100 <= 2 ^ 53 ->
       res = (setPayments st
                (<[newId := registrationPaymentFor env user fee o]> (payments st)),
              json 200 true "" (Order (Razorpay.id o) newId)))
  | None => res = (st, json 500 false
                         "Failed to create payment order. Please try again." NoData)
  end.
Proof.
  intros Hu Hpaid Hfree Hcur _ res. subst res.
  unfold Razorpay.createRegistrationOrder, handler. rewrite Hpaid.
  destruct (envOr (REGISTRATION_FEE_AMOUNT env) Js.parseInt (Some 699)) as [fee |];
    [| reflexivity].
  cbn [fmap option_fmap option_map].
  replace (fee * 100 / 100) with fee by (symmetry; apply Z.div_mul; lia).
  unfold_db. unfold Db.Payment_validate. cbn. rewrite Hu, Hcur. cbn.
  rewrite andb_true_r.
  split.
  - intros Hneg. destruct (Z.leb_spec 0 fee); [lia | reflexivity].
  - intros Hpos _. destruct (Z.leb_spec 0 fee); [| lia]. cbn.
    rewrite Hfree. reflexivity.
Qed.
End Purchase.

(** ** The number read from [accessDuration] *)

Lemma takeDigits_allDigits s : allDigits (Js.takeDigits s) = true.
Proof.
  induction s as [| c s IH]; simpl; [reflexivity |].
  destruct (Js.isDigit c) eqn:E; simpl; [by rewrite E | reflexivity].
Qed.

Lemma matchDigits_shape s ds :
  Js.matchDigits s = Some ds ->
  exists c r, ds = String c r /\ Js.isDigit c = true /\ allDigits r = true.
Proof.
  induction s as [| c s IH]; simpl; [discriminate |].
  destruct (Js.isDigit c) eqn:E; [| exact IH].
  intros [= <-]. exists c, (Js.takeDigits s).
  split; [reflexivity |]. split; [exact E | apply takeDigits_allDigits].
Qed.

Lemma radixDigit_digit c :
  Js.isDigit c = true ->
  exists d, Js.radixDigit 10 c = Some d /\ 0 <= d <= 9.
Proof.
  unfold Js.isDigit, Js.radixDigit. cbn zeta. intros H. rewrite H.
  eexists. split; [reflexivity |].
  apply andb_true_iff in H as [H H']. apply Z.leb_le in H, H'. lia.
Qed.

Lemma parseDigits_allDigits s a :
  allDigits s = true -> 0 <= a ->
  exists n, Js.parseDigits 10 (Some a) s = Some n /\
            0 <= n < (a + 1) * 10 ^ Z.of_nat (String.length s).
Proof.
  revert a. induction s as [| c s IH]; intros a Hs Ha.
  - exists a. split; [reflexivity |]. cbn. lia.
  - cbn [allDigits] in Hs. apply andb_true_iff in Hs as [Hc Hs].
    destruct (radixDigit_digit c Hc) as (d & Hd & Hr).
    cbn [Js.parseDigits]. rewrite Hd. cbn [default].
    destruct (IH (10 * a + d) Hs ltac:(lia)) as (n & Hn & Hb).
    exists n. split; [exact Hn |].
    cbn [String.length]. rewrite Nat2Z.inj_succ, Z.pow_succ_r by lia.
    assert (0 < 10 ^ Z.of_nat (String.length s)) by (apply Z.pow_pos_nonneg; lia).
    nia.
Qed.

Lemma parseInt_digits c r :
  Js.isDigit c = true -> allDigits r = true ->
  exists n, Js.parseInt (String c r) = Some n /\
            0 <= n < 10 ^ Z.of_nat (String.length (String c r)).
Proof.
  intros Hc Hr.
  assert (Hn : exists n, Js.parseDigits 10 None (String c r) = Some n /\
                         0 <= n < 10 ^ Z.of_nat (String.length (String c r))).
  { cbn [Js.parseDigits]. destruct (radixDigit_digit c Hc) as (d & -> & Hd).
    cbn [default].
    destruct (parseDigits_allDigits r (10 * 0 + d) Hr ltac:(lia)) as (n & Hn & Hb).
    exists n. split; [exact Hn |].
    cbn [String.length]. rewrite Nat2Z.inj_succ, Z.pow_succ_r by lia.
    assert (0 < 10 ^ Z.of_nat (String.length r)) by (apply Z.pow_pos_nonneg; lia).
    nia. }
  destruct Hn as (n & Hn & Hpos). exists n. split; [| exact Hpos].
  unfold Js.parseInt.
  destruct c as [[] [] [] [] [] [] [] []]; try discriminate Hc;
    cbn [Js.trimStart];
    match goal with
    | |- context [Js.isWhite ?c] => change (Js.isWhite c) with false
    end; cbv beta iota;
    try (rewrite Hn; f_equal; lia).
  destruct r as [| c2 r2]; [rewrite Hn; f_equal; lia |].
  simpl in Hr. apply andb_true_iff in Hr as [Hc2 _].
  destruct c2 as [[] [] [] [] [] [] [] []]; try discriminate Hc2;
    cbv beta iota; rewrite Hn; f_equal; lia.
Qed.


(** ** The expiry is never in the past *)
Module ExpiryFacts.
Import Date DateFacts.

Lemma monthStart_mono l m m' :
  0 <= l <= 1 -> 0 <= m <= m' -> m' <= 11 -> monthStart l m <= monthStart l m'.
Proof.
  intros Hl Hm Hm'. month_cases m; month_cases m'; unfold monthStart; lia.
Qed.

Lemma monthStart_range l m :
  0 <= l <= 1 -> 0 <= m <= 11 -> 0 <= monthStart l m <= 335.
Proof. intros Hl Hm. month_cases m; unfold monthStart; lia. Qed.

Lemma leapDay_range y : 0 <= leapDay y <= 1.
Proof. unfold leapDay. destruct (isLeap y); lia. Qed.

Lemma later_month_later_day y m k m' :
  0 <= m <= 11 -> 0 <= m' <= 11 -> 0 <= k -> (k = 0 -> m <= m') ->
  DayFromYear y + monthStart (leapDay y) m
  <= DayFromYear (y + k) + monthStart (leapDay (y + k)) m'.
Proof.
  intros Hm Hm' Hk H0.
  destruct (Z.eq_dec k 0) as [-> | Hne].
  - rewrite Z.add_0_r.
    pose proof (monthStart_mono (leapDay y) m m' (leapDay_range y)). lia.
  - pose proof (DayFromYear_mono y (y + k)).
    pose proof (monthStart_range (leapDay y) m (leapDay_range y) Hm).
    pose proof (monthStart_range (leapDay (y + k)) m' (leapDay_range (y + k)) Hm').
    lia.
Qed.

Section Later.
Variable tza : Z.

Lemma set_later t y' m' t' :
  0 <= m' ->
  (let tl := LocalTime (fixed tza) t in
   let k := y' + m' / 12 - YearFromTime tl in
   0 <= k /\ (k = 0 -> MonthFromTime tl <= m' mod 12)) ->
  TimeClip (UTC (fixed tza) (MakeDate (MakeDay y' m' (DateFromTime (LocalTime (fixed tza) t)))
                       (TimeWithinDay (LocalTime (fixed tza) t)))) = Some t' ->
  t <= t'.
Proof.
  cbv zeta. set (tl := LocalTime (fixed tza) t). intros Hm' [Hk H0] H.
  apply TimeClip_Some in H. subst t'.
  destruct (fields_valid tl) as (Hm & Hd & HD).
  rewrite MakeDay_normal.
  assert (Hr : 0 <= m' mod 12 <= 11) by (Z.div_mod_to_equations; lia).
  pose proof (later_month_later_day (YearFromTime tl) (MonthFromTime tl)
                (y' + m' / 12 - YearFromTime tl) (m' mod 12) Hm Hr Hk H0) as L.
  replace (YearFromTime tl + (y' + m' / 12 - YearFromTime tl)) with (y' + m' / 12)
    in L by lia.
  pose proof (Z_div_mod_eq_full tl msPerDay) as E.
  fold (Day tl) in E. fold (TimeWithinDay tl) in E.
  unfold UTC, MakeDate. subst tl. unfold LocalTime, fixed in *.
  assert (Hpos : 0 < msPerDay) by reflexivity.
  generalize dependent msPerDay. intros. nia.
Qed.

Lemma setFullYear_later t n t' :
  0 <= n -> setFullYear (fixed tza) t (getFullYear (fixed tza) t + n) = Some t' -> t <= t'.
Proof.
  unfold setFullYear, getFullYear. intros Hn H.
  destruct (fields_valid (LocalTime (fixed tza) t)) as (Hm & _ & _).
  apply (set_later t _ _ t' (proj1 Hm)) in H; [exact H |]. cbv zeta.
  replace (MonthFromTime (LocalTime (fixed tza) t) / 12) with 0
    by (Z.div_mod_to_equations; lia).
  replace (MonthFromTime (LocalTime (fixed tza) t) mod 12)
    with (MonthFromTime (LocalTime (fixed tza) t)) by (Z.div_mod_to_equations; lia).
  lia.
Qed.

Lemma setMonth_later t n t' :
  0 <= n -> setMonth (fixed tza) t (getMonth (fixed tza) t + n) = Some t' -> t <= t'.
Proof.
  unfold setMonth, getMonth. intros Hn H.
  destruct (fields_valid (LocalTime (fixed tza) t)) as (Hm & _ & _).
  apply (set_later t _ _ t') in H; [exact H | lia |]. cbv zeta.
  set (M := MonthFromTime (LocalTime (fixed tza) t)) in *.
  split; [Z.div_mod_to_equations; lia |].
  intros Hk. Z.div_mod_to_equations. lia.
Qed.

Lemma setDate_later t n t' :
  0 <= n -> setDate (fixed tza) t (getDate (fixed tza) t + n) = Some t' -> t <= t'.
Proof.
  intros Hn H. apply setDate_adds in H. subst t'.
  assert (0 < msPerDay) by reflexivity. nia.
Qed.
End Later.
End ExpiryFacts.

(** X21: whenever verify-payment computes an expiry it is not before the date
    it started from, for every [accessDuration] and every time zone of one
    fixed offset. *)
Theorem expiry_never_before_now (LocalTZA : Z) (accessDuration : string) (now exp : Z) :
  Razorpay.expiry (Date.fixed LocalTZA) accessDuration now = Ok (Some exp) -> now <= exp.
Proof.
  unfold Razorpay.expiry.
  destruct (Js.includes accessDuration "year");
    [| destruct (Js.includes accessDuration "month");
       [| destruct (Js.includes accessDuration "day")]].
  4: { intros [= <-]. lia. }
  all: destruct (Js.matchDigits accessDuration) as [ds |] eqn:Hd; [| discriminate];
    destruct (matchDigits_shape accessDuration ds Hd) as (c & r & -> & Hc & Hr);
    destruct (parseInt_digits c r Hc Hr) as (n & -> & Hn);
    intros [= H].
  - exact (ExpiryFacts.setFullYear_later LocalTZA now n exp (proj1 Hn) H).
  - exact (ExpiryFacts.setMonth_later LocalTZA now n exp (proj1 Hn) H).
  - exact (ExpiryFacts.setDate_later LocalTZA now n exp (proj1 Hn) H).
Qed.

(** ** Progress *)





(** ** The course deletion *)

Lemma removeFirst_length {A} (P : A -> bool) (l : list A) x :
  List.find P l = Some x -> (length (Db.removeFirst P l) + 1 = length l)%nat.
Proof.
  induction l as [| a l IH]; cbn; [discriminate |].
  destruct (P a); [intros _; lia |]. intros H. cbn. rewrite <- (IH H). lia.
Qed.

Lemma removeFirst_unique (c : string) (l : list Course.t) :
  NoDup (map Course.c_id l) ->
  List.find (fun x => String.eqb (Course.c_id x) c)
    (Db.removeFirst (fun x => String.eqb (Course.c_id x) c) l) = None.
Proof.
  induction l as [| a l IH]; cbn; intros Hnd; [reflexivity |].
  apply NoDup_cons in Hnd as [Ha Hnd].
  destruct (String.eqb_spec (Course.c_id a) c) as [E | E].
  - apply find_none_iff. intros x Hx.
    destruct (String.eqb_spec (Course.c_id x) c) as [Ex | Ex]; [| reflexivity].
    exfalso. apply Ha. apply list_elem_of_In. apply in_map_iff. exists x.
    split; [congruence | exact Hx].
  - cbn. destruct (String.eqb_spec (Course.c_id a) c); [contradiction |]. by apply IH.
Qed.

(** X23: deleting a course that exists answers 200 and takes with it exactly
    the enrollments and the payments of that course: what is left are the
    enrollments and payments of other courses, untouched; the users are as
    before, one course is gone and, when [c_id]s are distinct, no course of
    that [c_id] is left. *)
Theorem deleteCourse_cleans_up (courseId : string) (st : Store) (crs : Course.t) :
  List.find (fun x => String.eqb (Course.c_id x) courseId) (courses st) = Some crs ->
  let res := Admin.deleteCourse courseId st in
  snd res = json 200 true "Course deleted successfully" NoData /\
  (forall e, In e (enrollments (fst res)) <->
             In e (enrollments st) /\ Enrollment.course e <> courseId) /\
  (forall k p, payments (fst res) !! k = Some p <->
               payments st !! k = Some p /\ Payment.course p <> Some courseId) /\
  users (fst res) = users st /\
  (length (courses (fst res)) + 1 = length (courses st))%nat /\
  (NoDup (map Course.c_id (courses st)) ->
   List.find (fun x => String.eqb (Course.c_id x) courseId) (courses (fst res)) = None).
Proof.
  intros Hc res. subst res.
  unfold Admin.deleteCourse, handler. unfold_db. cbn. rewrite Hc. cbn.
  split; [reflexivity |]. split.
  { intros e. by rewrite filter_In, negb_true_iff, String.eqb_neq. }
  split.
  { intros k p. rewrite map_lookup_filter_Some. cbn. tauto. }
  split; [reflexivity |]. split.
  - by eapply removeFirst_length.
  - apply removeFirst_unique.
Qed.

(** An unknown course: 404 and nothing deleted. *)
Lemma deleteCourse_unknown (courseId : string) (st : Store) :
  List.find (fun x => String.eqb (Course.c_id x) courseId) (courses st) = None ->
  Admin.deleteCourse courseId st = (st, json 404 false "Course not found" NoData).
Proof.
  intros Hc. unfold Admin.deleteCourse, handler. unfold_db. cbn. rewrite Hc. cbn.
  rewrite (removeFirst_none _ _ Hc). by destruct st.
Qed.

(** ** The payment status *)

(** X24: payment-status shows a payment to its owner only. When the route
    finds a payment to show, the store is unchanged, the id in the path is the
    ObjectId of that stored payment, and the payment's user is the requester.
    *)
Theorem paymentStatus_owner_only (paymentId : string) (user : User.t) (st st' : Store)
    (o : ObjectId) (p : Payment.t) :
  getPaymentStatus paymentId user st = (st', inr (o, p)) ->
  st' = st /\ oidOfString paymentId = Some o /\ payments st !! o = Some p /\
  Payment.user p = User.author_id user.
Proof.
  unfold getPaymentStatus. cbn [castObjectId].
  destruct (oidOfString paymentId) as [o' |]; [| discriminate].
  unfold bind, gets, reply, ret, throw.
  destruct (payments st !! o') as [p' |] eqn:Ep; [| discriminate].
  destruct (String.eqb_spec (Payment.user p') (User.author_id user)) as [E | E];
    [| discriminate].
  intros [= <- <- <-]. auto.
Qed.

(** X25: payment-status does not tell somebody else's payment from one that
    does not exist: both are answered 404 "Payment not found.". *)
Theorem paymentStatus_hides_others (paymentId paymentId' : string) (user : User.t)
    (st : Store) (o o' : ObjectId) (p : Payment.t) :
  oidOfString paymentId = Some o ->
  payments st !! o = Some p ->
  Payment.user p <> User.author_id user ->
  oidOfString paymentId' = Some o' ->
  payments st !! o' = None ->
  getPaymentStatus paymentId user st = getPaymentStatus paymentId' user st /\
  getPaymentStatus paymentId user st
  = (st, inl (json 404 false "Payment not found." NoData)).
Proof.
  intros Ho Hp Hne Ho' Hp'. unfold getPaymentStatus. cbn [castObjectId].
  rewrite Ho, Ho'. unfold bind, gets, reply, ret, throw. rewrite Hp, Hp'.
  by destruct (String.eqb_spec (Payment.user p) (User.author_id user)).
Qed.

(** ** The virtuals *)
Module VirtualFacts.
Import Virtuals.

Lemma ceilDiv_spec a b :
  0 < b -> (ceilDiv a b - 1) * b < a <= ceilDiv a b * b.
Proof.
  intros Hb. unfold ceilDiv.
  pose proof (Z_div_mod_eq_full (- a) b). pose proof (Z.mod_pos_bound (- a) b Hb).
  nia.
Qed.

Lemma ceilDiv_unique a b n : 0 < b -> (n - 1) * b < a <= n * b -> ceilDiv a b = n.
Proof. intros Hb H. pose proof (ceilDiv_spec a b Hb). nia. Qed.

Lemma ceilDiv_pos a b : 0 < b -> (0 < ceilDiv a b <-> 0 < a).
Proof. intros Hb. pose proof (ceilDiv_spec a b Hb). nia. Qed.
End VirtualFacts.

(** X26: the virtual [daysRemaining], for an expiry within the range where its
    division is exact: it is never negative, is positive exactly when
    [isActive] holds at that moment, and is then the number of days, rounded
    up, from now to [expiresAt]. *)
Theorem daysRemaining_positive_iff_active (now : Z) (e : Enrollment.t) :
  Virtuals.inRange (Enrollment.expiresAt e - now) ->
  0 <= Virtuals.daysRemaining now e /\
  (0 < Virtuals.daysRemaining now e <-> Enrollment.isActive now e = true) /\
  (Enrollment.isActive now e = true ->
   (Virtuals.daysRemaining now e - 1) * Date.msPerDay
   < Enrollment.expiresAt e - now <= Virtuals.daysRemaining now e * Date.msPerDay).
Proof.
  intros _. unfold Virtuals.daysRemaining, Enrollment.isActive.
  assert (Hb : 0 < Date.msPerDay) by reflexivity.
  pose proof (VirtualFacts.ceilDiv_spec (Enrollment.expiresAt e - now) Date.msPerDay Hb).
  pose proof (VirtualFacts.ceilDiv_pos (Enrollment.expiresAt e - now) Date.msPerDay Hb).
  destruct (Enrollment.status_eqb (Enrollment.status e) Enrollment.Active); cbn.
  - rewrite Z.ltb_lt. split; [lia |]. split; [lia |]. intros Hlt.
    rewrite Z.max_r by lia. lia.
  - split; [lia |]. split; [split; [lia | discriminate] | discriminate].
Qed.

(** X27: in a time zone of one fixed offset, a course sold for N days gives an
    enrollment whose [enrollmentDurationDays] is N. The expiry verify-payment
    computes is exactly N days after the date it started from, and for N at
    least 1, an enrollment document built less than a day later and dates
    within the range where the division is exact, the virtual is N. *)
Theorem enrollmentDurationDays_of_days (LocalTZA : Z) (d ds : string) (n now en exp : Z)
    (id pay : ObjectId) (u c : string) :
  Js.includes d "year" = false ->
  Js.includes d "month" = false ->
  Js.includes d "day" = true ->
  Js.matchDigits d = Some ds ->
  Js.parseInt ds = Some n ->
  Razorpay.expiry (Date.fixed LocalTZA) d now = Ok (Some exp) ->
  now <= en < now + Date.msPerDay ->
  Virtuals.inRange (exp - en) ->
  exp = now + n * Date.msPerDay /\
  (1 <= n ->
   Virtuals.enrollmentDurationDays (Enrollment.fresh id u c pay en exp) = n).
Proof.
  intros Hy Hm Hd Hds Hn Hex Hen _.
  unfold Razorpay.expiry in Hex. rewrite Hy, Hm, Hd, Hds, Hn in Hex.
  injection Hex as Hex. apply DateFacts.setDate_adds in Hex.
  split; [exact Hex |]. intros H1.
  unfold Virtuals.enrollmentDurationDays. cbn [Enrollment.fresh Enrollment.expiresAt
                                                 Enrollment.enrolledAt].
  assert (Hb : 0 < Date.msPerDay) by reflexivity.
  apply VirtualFacts.ceilDiv_unique; [exact Hb |].
  subst exp. generalize dependent Date.msPerDay. intros. nia.
Qed.

(** ** One enrollment per pair *)

Lemma find_samePair_unique (es : list Enrollment.t) (e : Enrollment.t) u c :
  NoDup (map Enrollment.key es) -> In e es ->
  Enrollment.user e = u -> Enrollment.course e = c ->
  List.find (Enrollment.samePair u c) es = Some e /\
  forall x, In x es -> Enrollment.samePair u c x = true -> x = e.
Proof.
  intros Hnd Hin Hu Hc.
  assert (Huniq : forall x, In x es -> Enrollment.samePair u c x = true -> x = e).
  { intros x Hx Hp. unfold Enrollment.samePair in Hp.
    apply andb_true_iff in Hp as [Hxu Hxc].
    apply String.eqb_eq in Hxu, Hxc.
    assert (Hk : Enrollment.key x = Enrollment.key e)
      by (unfold Enrollment.key; congruence).
    clear - Hnd Hin Hx Hk. induction es as [| a l IH]; [destruct Hin |].
    cbn in Hnd. apply NoDup_cons in Hnd as [Ha Hnd].
    destruct Hin as [-> | Hin], Hx as [-> | Hx]; auto.
    - exfalso. apply Ha. apply list_elem_of_In. apply in_map_iff. eauto.
    - exfalso. apply Ha. apply list_elem_of_In. apply in_map_iff. eauto. }
  split; [| exact Huniq].
  destruct (List.find (Enrollment.samePair u c) es) as [x |] eqn:E.
  - apply find_some in E as [Hx Hp]. f_equal. by apply Huniq.
  - pose proof (find_none _ _ E e Hin) as Hp. unfold Enrollment.samePair in Hp.
    rewrite Hu, Hc, !String.eqb_refl in Hp. discriminate.
Qed.

Lemma find_activeFor_unique (es : list Enrollment.t) (e : Enrollment.t) u c :
  NoDup (map Enrollment.key es) -> In e es ->
  Enrollment.user e = u -> Enrollment.course e = c ->
  List.find (CourseAccess.activeFor u c) es
  = if Enrollment.status_eqb (Enrollment.status e) Enrollment.Active
    then Some e else None.
Proof.
  intros Hnd Hin Hu Hc.
  destruct (find_samePair_unique es e u c Hnd Hin Hu Hc) as [_ Huniq].
  destruct (List.find (CourseAccess.activeFor u c) es) as [x |] eqn:E.
  - apply find_some in E as [Hx Hp]. unfold CourseAccess.activeFor in Hp.
    apply andb_true_iff in Hp as [Hp Hs]. rewrite (Huniq x Hx Hp) in *.
    by rewrite Hs.
  - pose proof (find_none _ _ E e Hin) as Hp. unfold CourseAccess.activeFor in Hp.
    unfold Enrollment.samePair in Hp. rewrite Hu, Hc, !String.eqb_refl in Hp.
    cbn in Hp. by rewrite Hp.
Qed.

(** X28: with at most one enrollment per user and course, as the unique index
    keeps it, [checkEnrollmentStatus] attaches the user's enrollment of the
    course whatever its status, and writes nothing. *)
Theorem enrollmentStatus_finds_the_enrollment (user : User.t) (e : Enrollment.t)
    (st : Store) :
  uniqueEnrollments st ->
  In e (enrollments st) ->
  Enrollment.user e = User.author_id user ->
  Js.truthy (User.author_id user) = true ->
  CourseAccess.checkEnrollmentStatus (Some user) (Enrollment.course e) st
  = (st, Ok (Some e)).
Proof.
  intros Hnd Hin Hu Ht.
  unfold CourseAccess.checkEnrollmentStatus, middleware.
  rewrite (userIdOf_truthy _ Ht). unfold Db.Enrollment_findOne, gets.
  by destruct (find_samePair_unique _ e _ _ Hnd Hin Hu eq_refl) as [-> _].
Qed.

(** X29: with at most one enrollment per user and course, the gate to a
    published course is decided by that enrollment alone: the user is
    admitted, with it attached, exactly when its status is active and now is
    not past its [expiresAt]; otherwise the answer is a 403. Nothing is
    written either way. *)
Theorem courseAccess_decided_by_the_enrollment (now : Z) (user : User.t)
    (c : string) (st : Store) (crs : Course.t) (e : Enrollment.t) :
  Js.truthy (User.author_id user) = true ->
  List.find (fun x => String.eqb (Course.c_id x) c) (courses st) = Some crs ->
  Course.status crs = Course.Published ->
  uniqueEnrollments st ->
  In e (enrollments st) ->
  Enrollment.user e = User.author_id user ->
  Enrollment.course e = c ->
  let res := CourseAccess.checkCourseAccess now (Some user) c st in
  fst res = st /\
  (Enrollment.status e = Enrollment.Active /\ now <= Enrollment.expiresAt e ->
   snd res = Ok (e, crs)) /\
  (~ (Enrollment.status e = Enrollment.Active /\ now <= Enrollment.expiresAt e) ->
   exists r, snd res = Reply r /\ statusCode r = 403 /\ success r = false).
Proof.
  intros Ht Hc Hpub Hnd Hin Hu Hec res. subst res.
  unfold CourseAccess.checkCourseAccess, middleware.
  rewrite (userIdOf_truthy _ Ht).
  unfold bind, Db.Course_findOne, Db.Enrollment_findOne, gets. cbn.
  rewrite Hc, Hpub. cbn.
  rewrite (find_activeFor_unique _ e _ _ Hnd Hin Hu Hec).
  destruct (Enrollment.status_eqb (Enrollment.status e) Enrollment.Active) eqn:Es.
  - apply enrollment_status_eqb_eq in Es.
    destruct (Z.gtb_spec now (Enrollment.expiresAt e)) as [Hgt | Hle]; cbn.
    + split; [reflexivity |]. split; [lia |]. intros _. eauto.
    + split; [reflexivity |]. split; [reflexivity |]. intros H. exfalso. apply H. split; [exact Es | lia].
  - cbn. split; [reflexivity |]. split.
    + intros [Ha _]. apply enrollment_status_eqb_eq in Ha. congruence.
    + intros _. eauto.
Qed.

(** * The further properties on the sample platform *)

(** X2, on the sample platform. *)
Lemma request_needs_active_user_witness :
  let res := serve Sample.hmac sampleRound Date.utc Sample.env
               (PostEnroll (Some "u-nobody"%string) "c-101") Sample.store in
  statusCode (snd res) = 401 /\ success (snd res) = false /\ fst res = Sample.store.
Proof.
  exact (request_needs_active_user Sample.hmac sampleRound Date.utc Sample.env
           (PostEnroll (Some "u-nobody"%string) "c-101") Sample.store
           ltac:(intros userId [= <-]; reflexivity)).
Defined.

(** X3, on the sample platform. *)
Lemma unpaid_user_cannot_order_course_witness :
  serve Sample.hmac sampleRound Date.utc Sample.env
    (CreateCourseOrder (Some "u-alice"%string) 5%N (Some Sample2.order5)
       (Some "c-101"%string)) Sample.store
  = (Sample.store,
     json 402 false "Registration fee payment required to access this feature."
       (PaymentRequired (feeAmount Sample.env))).
Proof.
  exact (unpaid_user_cannot_order_course Sample.hmac sampleRound Date.utc Sample.env
           "u-alice" Sample.alice 5%N (Some Sample2.order5) (Some "c-101"%string)
           Sample.store eq_refl ltac:(discriminate) ltac:(discriminate) eq_refl).
Defined.

(** X4, on the sample platform. *)
Lemma progress_on_free_topic_refused_witness :
  serve Sample.hmac sampleRound Date.utc Sample.env
    (PostProgress (Some "u-alice"%string) Sample2.during "c-101" "0" "0")
    (Sample.storeWith Enrollment.Active)
  = (Sample.storeWith Enrollment.Active,
     json 403 false "You are not enrolled in this course" NoData).
Proof.
  exact (progress_on_free_topic_refused Sample.hmac sampleRound Date.utc Sample.env
           "u-alice" Sample.alice Sample2.during "c-101" "0" "0"
           (Sample.storeWith Enrollment.Active) Sample.course101 Sample.intro
           (Course.mkTopic "Welcome" true)
           eq_refl ltac:(discriminate) eq_refl eq_refl eq_refl eq_refl).
Defined.

(** X5, on the sample platform. *)
Lemma topicAccess_unresolved_index_witness :
  CourseAccess.checkTopicAccess Sample2.during (Some Sample.alice) "c-101" "7" "0"
    Sample.store
  = (Sample.store, Reply (json 404 false "Section not found." NoData)) /\
  CourseAccess.checkTopicAccess Sample2.during (Some Sample.alice) "c-101" "0" "x"
    Sample.store
  = (Sample.store, Reply (json 404 false "Topic not found." NoData)).
Proof.
  split.
  - exact (proj1 (topicAccess_unresolved_index Sample2.during (Some Sample.alice)
                    "u-alice" "c-101" "7" "0" Sample.store Sample.course101
                    eq_refl eq_refl eq_refl eq_refl)
             ltac:(intros z H; vm_compute in H; injection H as <-; right;
                   vm_compute; discriminate)).
  - exact (proj2 (topicAccess_unresolved_index Sample2.during (Some Sample.alice)
                    "u-alice" "c-101" "0" "x" Sample.store Sample.course101
                    eq_refl eq_refl eq_refl eq_refl)
             Sample.intro eq_refl
             ltac:(intros z H; vm_compute in H; discriminate H)).
Defined.

(** X6, on the sample platform. *)
Lemma courseAccess_admits_topicAccess_witness :
  CourseAccess.checkTopicAccess Sample2.during (Some Sample.alice) "c-101" "0" "1"
    (Sample.storeWith Enrollment.Active)
  = (Sample.storeWith Enrollment.Active,
     Ok (Course.mkTopic "Setup" false, Sample.intro,
         Some (Sample.oldEnrollment Enrollment.Active))).
Proof.
  exact (courseAccess_admits_topicAccess Sample2.during (Some Sample.alice)
           "c-101" "0" "1" (Sample.storeWith Enrollment.Active)
           (Sample.oldEnrollment Enrollment.Active) Sample.course101 Sample.intro
           (Course.mkTopic "Setup" false)
           ltac:(vm_compute; reflexivity) eq_refl eq_refl).
Defined.

(** X7, on the sample platform. *)
Lemma unpublished_course_keeps_topics_open_witness :
  CourseAccess.checkCourseAccess Sample2.during (Some Sample.alice) "c-draft"
    Sample2.store
  = (Sample2.store, Reply (json 403 false "Course is not available for access." NoData)) /\
  CourseAccess.checkTopicAccess Sample2.during (Some Sample.alice) "c-draft" "0" "0"
    Sample2.store
  = (Sample2.store, Ok (Course.mkTopic "Welcome" true, Sample.intro, None)).
Proof.
  pose proof (unpublished_course_keeps_topics_open Sample2.during (Some Sample.alice)
           "u-alice" "c-draft" "0" "0" Sample2.store Sample2.draft Sample.intro
           (Course.mkTopic "Welcome" true)
           eq_refl eq_refl ltac:(discriminate) eq_refl eq_refl) as (H1 & H2 & _).
  exact (conj H1 (H2 eq_refl)).
Defined.

(** X8, on the sample platform. *)
Lemma isActive_is_stricter_than_the_gate_witness :
  let e := Sample.oldEnrollment Enrollment.Active in
  let st := Sample.storeWith Enrollment.Active in
  Enrollment.isActive Sample2.atExpiry e = false /\
  CourseAccess.checkCourseAccess Sample2.atExpiry (Some Sample.alice) "c-101" st
  = (st, Ok (e, Sample.course101)).
Proof.
  exact (proj2 (isActive_is_stricter_than_the_gate Sample2.atExpiry (Some Sample.alice)
                  "u-alice" "c-101" (Sample.storeWith Enrollment.Active)
                  Sample.course101 (Sample.oldEnrollment Enrollment.Active)
                  eq_refl eq_refl eq_refl eq_refl) eq_refl).
Defined.

(** X10, on the sample platform. *)
Lemma verify_again_is_refused_witness :
  let st1 := fst (sampleVerify 77%N Sample.callback1 Sample.store) in
  Razorpay.verifyPayment Sample.hmac Date.utc Sample.env Sample.justAfter Sample.justAfter
    78%N Sample.callback1 st1
  = (st1, json 400 false "Payment has already been processed." NoData).
Proof.
  exact (proj1 (verify_again_is_refused Sample.hmac Date.utc Sample.env
                  Sample.leapDayMidnight Sample.justAfter 77%N Sample.justAfter
                  Sample.justAfter 78%N Sample.callback1 1%N _ Sample.store
                  Sample.coursePayment
                  (sample_callback_wellSigned "000000000000000000000001" "order_1"
                     "pay_1" 1%N eq_refl eq_refl eq_refl)
                  ltac:(vm_compute; reflexivity) ltac:(discriminate)) eq_refl).
Defined.

(** X11, on the sample platform. *)
Lemma verify_fails_on_unusable_duration_witness :
  sampleVerify 77%N Sample2.callback6 Sample2.store
  = (paid Sample2.store 6%N Sample2.somePayment Sample2.callback6
       (Sample.hmac "secret" "order_6|pay_6"),
     json 500 false "Payment verification failed. Please contact support." NoData).
Proof.
  exact (verify_fails_on_unusable_duration Sample.hmac Date.utc Sample.env
           Sample.leapDayMidnight Sample.justAfter 77%N Sample2.callback6 6%N _
           Sample2.store Sample2.somePayment "c-some" Sample2.courseSome
           (sample_callback_wellSigned "000000000000000000000006" "order_6" "pay_6"
              6%N eq_refl eq_refl eq_refl)
           ltac:(vm_compute; reflexivity) ltac:(discriminate) eq_refl eq_refl eq_refl
           eq_refl ltac:(intros exp H; vm_compute in H; discriminate H)).
Defined.

(** X12, on the sample platform. *)
Lemma verify_counts_enrollment_once_witness :
  let st' := fst (sampleVerify 77%N Sample.callback1 Sample.store) in
  totalEnrollmentCount (courses st') = totalEnrollmentCount (courses Sample.store) + 1 /\
  length (enrollments st') = S (length (enrollments Sample.store)) /\
  (NoDup (map Course._id (courses Sample.store)) ->
   List.find (fun y => String.eqb (Course.c_id y) "c-101") (courses st')
   = Some (Course.incEnrollmentCount Sample.course101)).
Proof.
  exact (verify_counts_enrollment_once Sample.hmac Date.utc Sample.env Sample.leapDayMidnight
           Sample.justAfter 77%N Sample.callback1 1%N _ Sample.store
           Sample.coursePayment "c-101" Sample.course101 1740787200000
           (sample_callback_wellSigned "000000000000000000000001" "order_1" "pay_1"
              1%N eq_refl eq_refl eq_refl)
           ltac:(vm_compute; reflexivity) ltac:(discriminate) eq_refl eq_refl eq_refl
           eq_refl ltac:(vm_compute; reflexivity) ltac:(intros x [])).
Defined.

(** X14, on the sample platform. *)
Lemma payments_are_only_completed_witness :
  let r := VerifyPayment (Some "u-alice"%string) Sample.leapDayMidnight Sample.justAfter
             77%N Sample.callback1 in
  let st' := fst (serve Sample.hmac sampleRound Date.utc Sample.env r Sample.store) in
  payments st' !! 1%N = Some Sample.coursePayment \/
  (Payment.status Sample.coursePayment <> Payment.Completed /\
   exists rzpPaymentId sig,
     payments st' !! 1%N = Some (Payment.complete Sample.coursePayment rzpPaymentId sig)) \/
  (exists token c,
     r = DeleteCourse token c /\ Payment.course Sample.coursePayment = Some c /\
     payments st' !! 1%N = None).
Proof.
  exact (payments_are_only_completed Sample.hmac sampleRound Date.utc Sample.env
           (VerifyPayment (Some "u-alice"%string) Sample.leapDayMidnight
              Sample.justAfter 77%N Sample.callback1)
           Sample.store 1%N Sample.coursePayment ltac:(vm_compute; reflexivity)).
Defined.

(** X15, on the sample platform. *)
Lemma enrollment_terms_never_change_witness :
  let r := PostProgress (Some "u-alice"%string) Sample2.during "c-101" "0" "1" in
  let e' := Enrollment.withProgress (Sample.oldEnrollment Enrollment.Active)
              (Enrollment.mkProgress [Enrollment.mkCompleted 0 1 Sample2.during]
                 (Some (0, 1, Sample2.during)) 50) in
  (exists e, In e (enrollments (Sample.storeWith Enrollment.Active)) /\
             terms e = terms e') \/
  (exists token now enrolledNow newId body u c pid exp,
     r = VerifyPayment token now enrolledNow newId body /\
     e' = Enrollment.fresh newId u c pid enrolledNow exp).
Proof.
  exact (enrollment_terms_never_change Sample.hmac sampleRound Date.utc Sample.env
           (PostProgress (Some "u-alice"%string) Sample2.during "c-101" "0" "1")
           (Sample.storeWith Enrollment.Active)
           (Enrollment.withProgress (Sample.oldEnrollment Enrollment.Active)
              (Enrollment.mkProgress [Enrollment.mkCompleted 0 1 Sample2.during]
                 (Some (0, 1, Sample2.during)) 50))
           ltac:(vm_compute; left; reflexivity)).
Defined.

(** X16, on the sample platform. *)
Lemma createCourseOrder_stores_pending_payment_witness :
  let res := Razorpay.createCourseOrder 5%N (Some Sample2.order5) (Some "c-101"%string)
               Sample2.bob Sample2.store in
  snd res = json 200 true "" (Order "order_5" 5%N) /\
  payments (fst res) !! 5%N
  = Some (coursePaymentFor Sample2.bob "c-101" Sample.course101 Sample2.order5) /\
  (forall k, k <> 5%N -> payments (fst res) !! k = payments Sample2.store !! k) /\
  enrollments (fst res) = enrollments Sample2.store /\
  courses (fst res) = courses Sample2.store /\
  users (fst res) = users Sample2.store.
Proof.
  exact (createCourseOrder_stores_pending_payment 5%N Sample2.order5 "c-101"
           Sample2.bob Sample2.store Sample.course101
           eq_refl eq_refl eq_refl eq_refl eq_refl ltac:(vm_compute; discriminate)
           eq_refl ltac:(vm_compute; reflexivity)).
Defined.


(** X18, on the sample platform. *)
Lemma cancelled_enrollment_pays_without_access_witness :
  let ordered := Razorpay.createCourseOrder 5%N (Some Sample2.order5)
                   (Some "c-101"%string) Sample2.bob Sample2.storeCancelled in
  let verified := sampleVerify 77%N Sample2.callback5 (fst ordered) in
  (Enrollment.status Sample2.cancelled = Enrollment.Cancelled \/
   Enrollment.status Sample2.cancelled = Enrollment.Suspended) /\
  snd ordered = json 200 true "" (Order "order_5" 5%N) /\
  snd verified
    = json 500 false "Payment verification failed. Please contact support." NoData /\
  (exists p, payments (fst verified) !! 5%N = Some p /\
     Payment.status p = Payment.Completed /\ Payment.amount p = 500) /\
  enrollments (fst verified) = enrollments Sample2.storeCancelled /\
  CourseAccess.checkCourseAccess Sample.justAfter (Some Sample2.bob) "c-101"
    (fst verified)
  = (fst verified,
     Reply (json 403 false
              "You are not enrolled in this course. Please enroll to access the content."
              (Upsell "c-101" "Course 101" 500))).
Proof.
  exact (cancelled_enrollment_pays_without_access Sample.hmac Date.utc Sample.env
           Sample.leapDayMidnight Sample.justAfter Sample.justAfter 5%N 77%N
           Sample2.order5 Sample2.callback5 _ "c-101" Sample2.bob
           Sample2.storeCancelled Sample.course101 Sample2.cancelled
           eq_refl eq_refl eq_refl eq_refl ltac:(vm_compute; discriminate) eq_refl
           ltac:(vm_compute; reflexivity) (or_introl eq_refl) eq_refl eq_refl eq_refl
           (sample_callback_wellSigned "000000000000000000000005" "order_5" "pay_5"
              5%N eq_refl eq_refl eq_refl)).
Defined.

(** X19, on the sample platform. *)
Lemma registration_order_amount_witness :
  Razorpay.createRegistrationOrder Sample2.envFee 5%N (Some Sample2.order5) Sample.alice
    Sample.store
  = (setPayments Sample.store
       (<[5%N := registrationPaymentFor Sample2.envFee Sample.alice 499 Sample2.order5]>
          (payments Sample.store)),
     json 200 true "" (Order "order_5" 5%N)).
Proof.
  exact (proj2 (registration_order_amount Sample2.envFee 5%N Sample2.order5 Sample.alice
                  Sample.store eq_refl eq_refl ltac:(vm_compute; reflexivity) eq_refl
                  ltac:(intros s [= <-]; reflexivity))
           ltac:(vm_compute; discriminate) ltac:(vm_compute; discriminate)).
Defined.


(** X21, on the sample platform. *)
Lemma expiry_never_before_now_witness :
  Razorpay.expiry Date.utc "1 year" Sample.leapDayMidnight = Ok (Some 1740787200000) /\
  Sample.leapDayMidnight <= 1740787200000.
Proof.
  split; [vm_compute; reflexivity |].
  exact (expiry_never_before_now 0 "1 year" Sample.leapDayMidnight 1740787200000
           ltac:(vm_compute; reflexivity)).
Defined.

(** X23, on the sample platform. *)
Lemma deleteCourse_cleans_up_witness :
  let st := Sample.storeWith Enrollment.Active in
  let res := Admin.deleteCourse "c-101" st in
  snd res = json 200 true "Course deleted successfully" NoData /\
  (forall e, In e (enrollments (fst res)) <->
             In e (enrollments st) /\ Enrollment.course e <> "c-101"%string) /\
  (forall k p, payments (fst res) !! k = Some p <->
               payments st !! k = Some p /\ Payment.course p <> Some "c-101"%string) /\
  users (fst res) = users st /\
  (length (courses (fst res)) + 1 = length (courses st))%nat /\
  (NoDup (map Course.c_id (courses st)) ->
   List.find (fun x => String.eqb (Course.c_id x) "c-101") (courses (fst res)) = None).
Proof.
  exact (deleteCourse_cleans_up "c-101" (Sample.storeWith Enrollment.Active)
           Sample.course101 eq_refl).
Defined.

(** X24, on the sample platform. *)
Lemma paymentStatus_owner_only_witness :
  Sample.store = Sample.store /\
  oidOfString "000000000000000000000001" = Some 1%N /\
  payments Sample.store !! 1%N = Some Sample.coursePayment /\
  Payment.user Sample.coursePayment = User.author_id Sample.alice.
Proof.
  exact (paymentStatus_owner_only "000000000000000000000001" Sample.alice
           Sample.store Sample.store 1%N Sample.coursePayment
           ltac:(vm_compute; reflexivity)).
Defined.

(** X25, on the sample platform. *)
Lemma paymentStatus_hides_others_witness :
  getPaymentStatus "000000000000000000000001" Sample2.bob Sample2.store
  = getPaymentStatus "000000000000000000000009" Sample2.bob Sample2.store /\
  getPaymentStatus "000000000000000000000001" Sample2.bob Sample2.store
  = (Sample2.store, inl (json 404 false "Payment not found." NoData)).
Proof.
  exact (paymentStatus_hides_others "000000000000000000000001"
           "000000000000000000000009" Sample2.bob Sample2.store 1%N 9%N
           Sample.coursePayment eq_refl ltac:(vm_compute; reflexivity)
           ltac:(discriminate) eq_refl ltac:(vm_compute; reflexivity)).
Defined.

(** X26, on the sample platform. *)
Lemma daysRemaining_positive_iff_active_witness :
  let e := Sample.oldEnrollment Enrollment.Active in
  0 <= Virtuals.daysRemaining Sample2.during e /\
  (0 < Virtuals.daysRemaining Sample2.during e <->
   Enrollment.isActive Sample2.during e = true) /\
  (Enrollment.isActive Sample2.during e = true ->
   (Virtuals.daysRemaining Sample2.during e - 1) * Date.msPerDay
   < Enrollment.expiresAt e - Sample2.during
   <= Virtuals.daysRemaining Sample2.during e * Date.msPerDay).
Proof.
  exact (daysRemaining_positive_iff_active Sample2.during
           (Sample.oldEnrollment Enrollment.Active) ltac:(vm_compute; discriminate)).
Defined.

(** X27, on the sample platform. *)
Lemma enrollmentDurationDays_of_days_witness :
  1711756800000 = Sample.leapDayMidnight + 30 * Date.msPerDay /\
  (1 <= 30 ->
   Virtuals.enrollmentDurationDays
     (Enrollment.fresh 77%N "u-bob" "c-30" 5%N Sample.justAfter 1711756800000) = 30).
Proof.
  exact (enrollmentDurationDays_of_days 0 "30 days" "30" 30 Sample.leapDayMidnight
           Sample.justAfter 1711756800000 77%N 5%N "u-bob" "c-30"
           eq_refl eq_refl eq_refl eq_refl eq_refl ltac:(vm_compute; reflexivity)
           ltac:(vm_compute; split; [discriminate | reflexivity])
           ltac:(vm_compute; discriminate)).
Defined.

(** X28, on the sample platform. *)
Lemma enrollmentStatus_finds_the_enrollment_witness :
  CourseAccess.checkEnrollmentStatus (Some Sample.alice) "c-101"
    (Sample.storeWith Enrollment.Expired)
  = (Sample.storeWith Enrollment.Expired,
     Ok (Some (Sample.oldEnrollment Enrollment.Expired))).
Proof.
  exact (enrollmentStatus_finds_the_enrollment Sample.alice
           (Sample.oldEnrollment Enrollment.Expired)
           (Sample.storeWith Enrollment.Expired)
           (NoDup_singleton ("u-alice"%string, "c-101"%string))
           (or_introl eq_refl) eq_refl eq_refl).
Defined.

(** X29, on the sample platform. *)
Lemma courseAccess_decided_by_the_enrollment_witness :
  let st := Sample.storeWith Enrollment.Suspended in
  let e := Sample.oldEnrollment Enrollment.Suspended in
  let res := CourseAccess.checkCourseAccess Sample2.during (Some Sample.alice)
               "c-101" st in
  fst res = st /\
  (Enrollment.status e = Enrollment.Active /\ Sample2.during <= Enrollment.expiresAt e ->
   snd res = Ok (e, Sample.course101)) /\
  (~ (Enrollment.status e = Enrollment.Active /\
      Sample2.during <= Enrollment.expiresAt e) ->
   exists r, snd res = Reply r /\ statusCode r = 403 /\ success r = false).
Proof.
  exact (courseAccess_decided_by_the_enrollment Sample2.during Sample.alice "c-101"
           (Sample.storeWith Enrollment.Suspended) Sample.course101
           (Sample.oldEnrollment Enrollment.Suspended)
           eq_refl eq_refl eq_refl
           (NoDup_singleton ("u-alice"%string, "c-101"%string))
           (or_introl eq_refl) eq_refl eq_refl).
Defined.
